(** * Error classification of the PRP pipeline

    A shallow embedding of [python-error-examples.py]: the error code
    registry, [ErrorContext], the [PipelineError] hierarchy with its
    constructors and serialisers, the type guards and [is_fatal_error].

    Python objects are dynamically typed; the embedding keeps what the
    source reads and writes:
    - values that can travel through a context ([PyVal]): [None], booleans,
      integers, strings, members of [ErrorCode], lists, tuples and
      string-keyed dictionaries (insertion ordered, as Python's are), the
      classes of the hierarchy, exception objects from outside the
      hierarchy, and any other object ([VOther]), on which every operation
      whose outcome depends on what the object is has the outcome
      [Untyped];
    - an error instance is its runtime class, the [args] of the underlying
      [Exception], its [__cause__] and its instance dictionary, because
      [PipelineError.__init__] copies every context key onto the instance
      with [setattr];
    - a call that can raise returns a [result]; rendering and
      [json.dumps] raise where the interpreter's digit limit of integer
      conversion or the kind of a value makes them (its other resource
      limits, recursion depth and memory, are outside);
    - [json.dumps(..., indent=2)] and [json.loads] work on text: a string is
      a sequence of code points below 256, one per character, and a number
      is an integer. *)

From Stdlib Require Import String Ascii List ZArith NArith Bool Lia.
From Stdlib Require DecimalString DecimalZ DecimalPos DecimalFacts.
Import ListNotations.
Set Warnings "-register-all".
Local Open Scope string_scope.
Local Open Scope Z_scope.

(** ** Results of calls that can raise *)

Inductive PyError : Type :=
| TypeError
| AttributeError
| ValueError
| NotImplementedError.

(** [Untyped] marks an outcome that the values of this development do not
    determine: a non-dictionary bound to [ErrorContext.metadata], a [_code]
    that is no value a caller can pass, or an operation that depends on
    what an object of another kind ([VOther]) is.  What Python does there
    is outside this development. *)
Inductive result (A : Type) : Type :=
| Return (a : A)
| Raise (e : PyError)
| Untyped.
Arguments Return {A} a.
Arguments Raise {A} e.
Arguments Untyped {A}.

Definition bind {A B : Type} (r : result A) (k : A -> result B) : result B :=
  match r with
  | Return a => k a
  | Raise e => Raise e
  | Untyped => Untyped
  end.

Notation "x <- c1 ;; c2" := (bind c1 (fun x => c2))
  (at level 61, c1 at next level, right associativity).

Definition returns {A : Type} (r : result A) : bool :=
  match r with Return _ => true | _ => false end.

(** ** The error code registry (class [ErrorCode(str, Enum)]) *)

Inductive ErrorCode : Type :=
| SESSION_LOAD_FAILED
| SESSION_SAVE_FAILED
| SESSION_NOT_FOUND
| SESSION_INVALID_BUGFIX_PATH
| TASK_EXECUTION_FAILED
| TASK_VALIDATION_FAILED
| TASK_NOT_FOUND
| AGENT_LLM_FAILED
| AGENT_TIMEOUT
| AGENT_PARSE_FAILED
| VALIDATION_INVALID_INPUT
| VALIDATION_MISSING_FIELD
| VALIDATION_SCHEMA_FAILED
| VALIDATION_CIRCULAR_DEPENDENCY
| VALIDATION_NESTED_EXECUTION
| RESOURCE_LIMIT_EXCEEDED.

(** The [str] value of a member: every member's value is its own name. *)
Definition ErrorCode_value (c : ErrorCode) : string :=
  match c with
  | SESSION_LOAD_FAILED => "SESSION_LOAD_FAILED"
  | SESSION_SAVE_FAILED => "SESSION_SAVE_FAILED"
  | SESSION_NOT_FOUND => "SESSION_NOT_FOUND"
  | SESSION_INVALID_BUGFIX_PATH => "SESSION_INVALID_BUGFIX_PATH"
  | TASK_EXECUTION_FAILED => "TASK_EXECUTION_FAILED"
  | TASK_VALIDATION_FAILED => "TASK_VALIDATION_FAILED"
  | TASK_NOT_FOUND => "TASK_NOT_FOUND"
  | AGENT_LLM_FAILED => "AGENT_LLM_FAILED"
  | AGENT_TIMEOUT => "AGENT_TIMEOUT"
  | AGENT_PARSE_FAILED => "AGENT_PARSE_FAILED"
  | VALIDATION_INVALID_INPUT => "VALIDATION_INVALID_INPUT"
  | VALIDATION_MISSING_FIELD => "VALIDATION_MISSING_FIELD"
  | VALIDATION_SCHEMA_FAILED => "VALIDATION_SCHEMA_FAILED"
  | VALIDATION_CIRCULAR_DEPENDENCY => "VALIDATION_CIRCULAR_DEPENDENCY"
  | VALIDATION_NESTED_EXECUTION => "VALIDATION_NESTED_EXECUTION"
  | RESOURCE_LIMIT_EXCEEDED => "RESOURCE_LIMIT_EXCEEDED"
  end.

Definition all_error_codes : list ErrorCode :=
  [ SESSION_LOAD_FAILED; SESSION_SAVE_FAILED; SESSION_NOT_FOUND;
    SESSION_INVALID_BUGFIX_PATH; TASK_EXECUTION_FAILED;
    TASK_VALIDATION_FAILED; TASK_NOT_FOUND; AGENT_LLM_FAILED; AGENT_TIMEOUT;
    AGENT_PARSE_FAILED; VALIDATION_INVALID_INPUT; VALIDATION_MISSING_FIELD;
    VALIDATION_SCHEMA_FAILED; VALIDATION_CIRCULAR_DEPENDENCY;
    VALIDATION_NESTED_EXECUTION; RESOURCE_LIMIT_EXCEEDED ].

(** ** The classes of the hierarchy

    [PipelineError] itself and its five subclasses.  [PipelineError] is
    declared abstract, yet [PipelineError("x")] returns an instance:
    [BaseException.__new__] does not run the check of abstract methods that
    [object.__new__] runs. *)
Inductive PipelineClass : Type :=
| PipelineError
| SessionError
| TaskError
| ValidationError
| BugfixSessionValidationError
| NestedExecutionError.

(** [cls.__name__] *)
Definition class_name (cls : PipelineClass) : string :=
  match cls with
  | PipelineError => "PipelineError"
  | SessionError => "SessionError"
  | TaskError => "TaskError"
  | ValidationError => "ValidationError"
  | BugfixSessionValidationError => "BugfixSessionValidationError"
  | NestedExecutionError => "NestedExecutionError"
  end.

Definition class_eqb (a b : PipelineClass) : bool :=
  match a, b with
  | PipelineError, PipelineError
  | SessionError, SessionError
  | TaskError, TaskError
  | ValidationError, ValidationError
  | BugfixSessionValidationError, BugfixSessionValidationError
  | NestedExecutionError, NestedExecutionError => true
  | _, _ => false
  end.

(** The subclasses, which implement [code]. *)
Definition concrete (cls : PipelineClass) : bool :=
  match cls with
  | PipelineError => false
  | _ => true
  end.

(** ** Python values

    [metadata] is a [dict[str, Any]] and no annotation is checked, so a
    context can carry any object.  [VClass] is a class of the hierarchy,
    [VExc] an exception object of a type outside the hierarchy, known by its
    type name and its [str()], and [VOther] any other object: a float, a
    set, bytes, a function, a dictionary with a key that is no string, a
    class or an exception of another kind. *)

Inductive PyVal : Type :=
| VNone
| VBool (b : bool)
| VInt (z : Z)
| VStr (s : string)
| VEnum (c : ErrorCode)
| VList (l : list PyVal)
| VTuple (l : list PyVal)
| VDict (d : list (string * PyVal))
| VClass (c : PipelineClass)
| VExc (type_name : string) (text : string)
| VOther (tag : string).

Definition pydict : Type := list (string * PyVal).

(** Generic insertion-ordered dictionaries: [d[k] = v] keeps the position
    of a key that is already there and appends a new one. *)
Section Dict.
Context {V : Type}.

Fixpoint dict_get (k : string) (d : list (string * V)) : option V :=
  match d with
  | [] => None
  | (k', v) :: d' => if String.eqb k k' then Some v else dict_get k d'
  end.

Fixpoint dict_set (k : string) (v : V) (d : list (string * V))
  : list (string * V) :=
  match d with
  | [] => [(k, v)]
  | (k', v') :: d' =>
      if String.eqb k k' then (k', v) :: d' else (k', v') :: dict_set k v d'
  end.

(** [d.update(m)] *)
Definition dict_update (d m : list (string * V)) : list (string * V) :=
  fold_left (fun acc kv => dict_set (fst kv) (snd kv) acc) m d.

Definition dict_has (k : string) (d : list (string * V)) : bool :=
  match dict_get k d with Some _ => true | None => false end.

Definition dict_keys (d : list (string * V)) : list string := map fst d.
End Dict.

(** [str()] and [repr()] of an integer, and [int()] of a text, refuse more
    than 4300 decimal digits, the default of [sys.set_int_max_str_digits]. *)
Definition int_max_str_digits : nat := 4300.

Definition digits (z : Z) : nat := Decimal.nb_digits (N.to_uint (Z.abs_N z)).

Definition int_in_limit (z : Z) : bool :=
  Nat.leb (digits z) int_max_str_digits.

(** The text of a value that is a [str] (plain or a member of the
    string enumeration). *)
Definition str_text (v : PyVal) : option string :=
  match v with
  | VStr s => Some s
  | VEnum c => Some (ErrorCode_value c)
  | _ => None
  end.

(** Python's [==] on these values: [bool] is a subclass of [int], a member
    of [ErrorCode] compares as the [str] it is, a list never equals a tuple,
    and dictionaries compare without regard to order.  A class equals
    itself only.  An exception or another object compares by rules of its
    own, which the callers below leave to [Untyped]; here it equals
    nothing. *)
Fixpoint py_eq (a b : PyVal) {struct a} : bool :=
  match a, b with
  | VNone, VNone => true
  | VClass c, VClass c' => class_eqb c c'
  | VBool x, VBool y => Bool.eqb x y
  | VBool x, VInt y => Z.eqb (Z.b2z x) y
  | VInt x, VBool y => Z.eqb x (Z.b2z y)
  | VInt x, VInt y => Z.eqb x y
  | VStr s, VStr t => String.eqb s t
  | VStr s, VEnum c => String.eqb s (ErrorCode_value c)
  | VEnum c, VStr t => String.eqb (ErrorCode_value c) t
  | VEnum c, VEnum c' => String.eqb (ErrorCode_value c) (ErrorCode_value c')
  | VList l, VList m =>
      (fix go (l m : list PyVal) {struct l} : bool :=
         match l, m with
         | [], [] => true
         | x :: l', y :: m' => py_eq x y && go l' m'
         | _, _ => false
         end) l m
  | VTuple l, VTuple m =>
      (fix go (l m : list PyVal) {struct l} : bool :=
         match l, m with
         | [], [] => true
         | x :: l', y :: m' => py_eq x y && go l' m'
         | _, _ => false
         end) l m
  | VDict d, VDict e =>
      Nat.eqb (length d) (length e) &&
      (fix go (d : list (string * PyVal)) {struct d} : bool :=
         match d with
         | [] => true
         | (k, v) :: d' =>
             match dict_get k e with
             | Some w => py_eq v w
             | None => false
             end && go d'
         end) d
  | _, _ => false
  end.

(** [value == member] for a member of [ErrorCode], as the code rules write
    it: only an object of another kind can answer by a rule of its own. *)
Definition member_eq (v : PyVal) (c : ErrorCode) : result bool :=
  match v with
  | VOther _ => Untyped
  | _ => Return (py_eq v (VEnum c))
  end.

(** ** [ErrorContext] (a dataclass)

    A dataclass checks no annotation: the four named fields hold whatever
    they are given, [None] when absent.  [metadata] is a dictionary. *)

Record ErrorContext : Type := mkErrorContext {
  session_path : PyVal;
  task_id : PyVal;
  operation : PyVal;
  user_id : PyVal;
  metadata : pydict
}.

(** [ErrorContext()] *)
Definition ErrorContext_default : ErrorContext :=
  mkErrorContext VNone VNone VNone VNone [].

Definition named_fields : list string :=
  ["session_path"; "task_id"; "operation"; "user_id"].

(** [getattr(self, key)] for the four names [to_dict] loops over. *)
Definition ErrorContext_getattr (c : ErrorContext) (key : string) : PyVal :=
  if String.eqb key "session_path" then session_path c
  else if String.eqb key "task_id" then task_id c
  else if String.eqb key "operation" then operation c
  else if String.eqb key "user_id" then user_id c
  else VNone.

Definition is_None (v : PyVal) : bool :=
  match v with VNone => true | _ => false end.

(** [ErrorContext.to_dict]: the loop over the named fields, then
    [result.update(self.metadata)]. *)
Definition ErrorContext_to_dict (c : ErrorContext) : pydict :=
  let result :=
    fold_left
      (fun (result : pydict) key =>
         let value := ErrorContext_getattr c key in
         if is_None value then result else dict_set key value result)
      named_fields [] in
  dict_update result (metadata c).

(** [ErrorContext] called with the keywords of a dictionary: a keyword that is not a field is a
    [TypeError]; the values are stored unchecked. *)
Definition is_field (k : string) : bool :=
  existsb (String.eqb k) named_fields || String.eqb k "metadata".

Fixpoint bind_fields (kwargs : pydict) (c : ErrorContext)
  : result ErrorContext :=
  match kwargs with
  | [] => Return c
  | (k, v) :: kwargs' =>
      if String.eqb k "session_path" then
        bind_fields kwargs'
          (mkErrorContext v (task_id c) (operation c) (user_id c) (metadata c))
      else if String.eqb k "task_id" then
        bind_fields kwargs'
          (mkErrorContext (session_path c) v (operation c) (user_id c)
             (metadata c))
      else if String.eqb k "operation" then
        bind_fields kwargs'
          (mkErrorContext (session_path c) (task_id c) v (user_id c)
             (metadata c))
      else if String.eqb k "user_id" then
        bind_fields kwargs'
          (mkErrorContext (session_path c) (task_id c) (operation c) v
             (metadata c))
      else
        match v with
        | VDict d =>
            bind_fields kwargs'
              (mkErrorContext (session_path c) (task_id c) (operation c)
                 (user_id c) d)
        | _ => Untyped
        end
  end.

Definition ErrorContext_of_kwargs (kwargs : pydict) : result ErrorContext :=
  if forallb (fun kv => is_field (fst kv)) kwargs
  then bind_fields kwargs ErrorContext_default
  else Raise TypeError.

(** ** Error instances *)

(** [datetime.utcnow()] is read by every constructor; the embedding passes
    the instant in. *)
Record datetime : Type := mkdatetime {
  year : Z; month : Z; day : Z;
  hour : Z; minute : Z; second : Z; microsecond : Z
}.

(** What an instance dictionary can hold: a value copied from a context,
    the timestamp, the context object. *)
Inductive Attr : Type :=
| AVal (v : PyVal)
| ATime (t : datetime)
| ACtx (c : ErrorContext).

(** An instance of the hierarchy: its class, the [args] of the underlying
    [Exception], its instance dictionary and its [__cause__].  An exception
    object is one from outside the hierarchy, known by its type name and
    its [str()], or such an instance. *)
Record InstanceOf (E : Type) : Type := mkInstance {
  inst_class : PipelineClass;
  inst_args : list PyVal;
  inst_dict : list (string * Attr);
  inst_cause : option E
}.
Arguments mkInstance {E} _ _ _ _.
Arguments inst_class {E} _.
Arguments inst_args {E} _.
Arguments inst_dict {E} _.
Arguments inst_cause {E} _.

Inductive PyExc : Type :=
| StdExc (type_name : string) (text : string)
| PipeExc (i : InstanceOf PyExc).

Definition Instance : Type := InstanceOf PyExc.

(** Any object a caller can hand to the classifier or pass as a context. *)
Inductive PyObj : Type :=
| OVal (v : PyVal)
| OCtx (c : ErrorContext)
| OExc (e : PyExc).

Definition with_args (self : Instance) (a : list PyVal) : Instance :=
  mkInstance (inst_class self) a (inst_dict self) (inst_cause self).

Definition with_dict (self : Instance) (d : list (string * Attr)) : Instance :=
  mkInstance (inst_class self) (inst_args self) d (inst_cause self).

Definition with_cause (self : Instance) (c : option PyExc) : Instance :=
  mkInstance (inst_class self) (inst_args self) (inst_dict self) c.

Definition with_class (self : Instance) (cls : PipelineClass) : Instance :=
  mkInstance cls (inst_args self) (inst_dict self) (inst_cause self).

(** [self.name = a] for a name that no class in the hierarchy defines as a
    data descriptor: the instance dictionary is written. *)
Definition store (self : Instance) (name : string) (a : Attr) : Instance :=
  with_dict self (dict_set name a (inst_dict self)).

(** [tuple(v)], as the setter of [BaseException.args] computes it. *)
Definition chars_of (s : string) : list PyVal :=
  map (fun c => VStr (String c EmptyString)) (list_ascii_of_string s).

Definition py_tuple (v : PyVal) : result (list PyVal) :=
  match v with
  | VNone | VBool _ | VInt _ | VClass _ | VExc _ _ => Raise TypeError
  | VStr s => Return (chars_of s)
  | VEnum c => Return (chars_of (ErrorCode_value c))
  | VList l | VTuple l => Return l
  | VDict d => Return (map (fun kv => VStr (fst kv)) d)
  | VOther _ => Untyped
  end.

(** [setattr(self, key, value)] on an instance.  The classes of the
    hierarchy and their bases [Exception], [BaseException] and [object]
    define these data descriptors, which take precedence over the instance
    dictionary: the read-only property [code] and [__weakref__], and the
    checked slots [__dict__], [args], [__traceback__], [__context__],
    [__cause__], [__suppress_context__] and [__class__].  Every other name,
    the names of methods included, lands in the instance dictionary.

    The setter of [__dict__] takes a dictionary; that of [args] whatever
    [tuple()] takes; that of [__traceback__] a traceback or [None]; those of
    [__context__] and [__cause__] an exception or [None]; that of
    [__suppress_context__] a [bool]; that of [__class__] a class of the same
    layout, as the classes of the hierarchy are to one another, and the
    object is an instance of that class from then on. *)
Definition setattr (self : Instance) (key : string) (value : PyVal)
  : result Instance :=
  if String.eqb key "code" then Raise AttributeError
  else if String.eqb key "__weakref__" then Raise AttributeError
  else if String.eqb key "__dict__" then
    match value with
    | VDict d => Return (with_dict self (map (fun kv => (fst kv, AVal (snd kv))) d))
    | VOther _ => Untyped
    | _ => Raise TypeError
    end
  else if String.eqb key "args" then
    a <- py_tuple value ;; Return (with_args self a)
  else if String.eqb key "__traceback__" then
    match value with
    | VNone => Return self
    | VOther _ => Untyped
    | _ => Raise TypeError
    end
  else if String.eqb key "__context__" then
    match value with
    | VNone | VExc _ _ => Return self
    | VOther _ => Untyped
    | _ => Raise TypeError
    end
  else if String.eqb key "__cause__" then
    match value with
    | VNone => Return (with_cause self None)
    | VExc n t => Return (with_cause self (Some (StdExc n t)))
    | VOther _ => Untyped
    | _ => Raise TypeError
    end
  else if String.eqb key "__suppress_context__" then
    match value with VBool _ => Return self | _ => Raise TypeError end
  else if String.eqb key "__class__" then
    match value with
    | VClass c => Return (with_class self c)
    | VOther _ => Untyped
    | _ => Raise TypeError
    end
  else Return (store self key (AVal value)).

(** The loop [for key, value in items: setattr(self, key, value)]. *)
Fixpoint setattr_all (self : Instance) (items : pydict) : result Instance :=
  match items with
  | [] => Return self
  | (key, value) :: items' =>
      self' <- setattr self key value ;; setattr_all self' items'
  end.

(** The normalisation of the [context] argument to an [ErrorContext].  An
    object of another kind can be an instance of a subclass of [dict] or of
    [ErrorContext]. *)
Definition normalize_context (context : PyObj) : result ErrorContext :=
  match context with
  | OCtx c => Return c
  | OVal (VDict d) => ErrorContext_of_kwargs d
  | OVal VNone => Return ErrorContext_default
  | OVal (VOther _) => Untyped
  | _ => Raise TypeError
  end.

(** [PipelineError.__init__(self, message, context, cause)], run at the
    instant [now]. *)
Definition PipelineError_init (self : Instance) (now : datetime)
    (message : string) (context : PyObj) (cause : option PyExc)
  : result Instance :=
  let self := store self "timestamp" (ATime now) in
  ctx <- normalize_context context ;;
  let self := store self "context" (ACtx ctx) in
  let self := with_args self [VStr message] in
  self <- setattr_all self (ErrorContext_to_dict ctx) ;;
  Return
    match cause with
    | Some c => with_cause self (Some c)
    | None => self
    end.

(** A fresh object of class [cls], before any [__init__] has run. *)
Definition new_object (cls : PipelineClass) : Instance :=
  mkInstance cls [] [] None.

(** The subclasses with a selectable code store [_code] first:
    [self._code = code if code is not None else self._default_code]. *)
Definition default_code (cls : PipelineClass) : ErrorCode :=
  match cls with
  | ValidationError => VALIDATION_INVALID_INPUT
  | _ => SESSION_LOAD_FAILED
  end.

Definition selectable_init (cls : PipelineClass) (now : datetime)
    (message : string) (context : PyObj) (cause : option PyExc) (code : PyVal)
  : result Instance :=
  let self := new_object cls in
  let self :=
    store self "_code"
      (AVal (if is_None code then VEnum (default_code cls) else code)) in
  PipelineError_init self now message context cause.

(** The public constructors. *)
Definition new_SessionError := selectable_init SessionError.
Definition new_ValidationError := selectable_init ValidationError.

Definition new_TaskError (now : datetime) (message : string)
    (context : PyObj) (cause : option PyExc) : result Instance :=
  PipelineError_init (new_object TaskError) now message context cause.

(** [PipelineError(message, context, cause)]: the base class is abstract in
    name only, and the call returns an instance of it. *)
Definition new_PipelineError (now : datetime) (message : string)
    (context : PyObj) (cause : option PyExc) : result Instance :=
  PipelineError_init (new_object PipelineError) now message context cause.

Definition new_BugfixSessionValidationError (now : datetime)
    (message : string) (context : PyObj) (cause : option PyExc)
  : result Instance :=
  PipelineError_init (new_object BugfixSessionValidationError)
    now message context cause.

Definition new_NestedExecutionError (now : datetime) (message : string)
    (context : PyObj) (cause : option PyExc) : result Instance :=
  PipelineError_init (new_object NestedExecutionError)
    now message context cause.

(** [self._code] *)
Definition get_code_attr (self : Instance) : result PyVal :=
  match dict_get "_code" (inst_dict self) with
  | Some (AVal v) => Return v
  | Some _ => Untyped
  | None => Raise AttributeError
  end.

(** The property [code] of each class; that of [PipelineError] itself
    raises [NotImplementedError]. *)
Definition code (self : Instance) : result PyVal :=
  match inst_class self with
  | PipelineError => Raise NotImplementedError
  | SessionError | ValidationError => get_code_attr self
  | TaskError => Return (VEnum TASK_EXECUTION_FAILED)
  | BugfixSessionValidationError => Return (VEnum SESSION_INVALID_BUGFIX_PATH)
  | NestedExecutionError => Return (VEnum VALIDATION_NESTED_EXECUTION)
  end.

(** [self.context.to_dict()]: an [ErrorContext] has that method; on a class
    of the hierarchy [to_dict] is a function that misses its [self]; a value
    of the other modelled kinds has no such attribute. *)
Definition context_to_dict (self : Instance) : result pydict :=
  match dict_get "context" (inst_dict self) with
  | Some (ACtx c) => Return (ErrorContext_to_dict c)
  | Some (AVal (VClass _)) => Raise TypeError
  | Some (AVal (VOther _)) => Untyped
  | _ => Raise AttributeError
  end.

(** Calling a method through the instance: an entry of the instance
    dictionary under the method's name shadows it.  No value of the
    modelled kinds can be called without arguments: a class of the
    hierarchy misses its [message], the others are not callable.  An object
    of another kind can be a function. *)
Definition call_method {A : Type} (self : Instance) (name : string)
    (body : Instance -> result A) : result A :=
  match dict_get name (inst_dict self) with
  | Some (AVal (VOther _)) => Untyped
  | Some _ => Raise TypeError
  | None => body self
  end.

(** [SessionError.is_load_error] and [is_save_error] *)
Definition is_load_error (self : Instance) : result bool :=
  c <- get_code_attr self ;; member_eq c SESSION_LOAD_FAILED.

Definition is_save_error (self : Instance) : result bool :=
  c <- get_code_attr self ;; member_eq c SESSION_SAVE_FAILED.

(** What the interpreter supplies for rendering: [datetime.isoformat], the
    [format()] behind an f-string field, and [str()].  Whether a rendering
    returns at all is no matter of version and is fixed below. *)
Record Runtime : Type := mkRuntime {
  isoformat : datetime -> string;
  py_format : PyVal -> string;
  py_str : PyVal -> string
}.

(** Whether [repr(v)], [str(v)] and [format(v, "")] return: they raise
    [ValueError] at the first integer beyond the digit limit, and what an
    object of another kind does is its own matter. *)
Fixpoint render_outcome (v : PyVal) : result unit :=
  match v with
  | VInt z => if int_in_limit z then Return tt else Raise ValueError
  | VOther _ => Untyped
  | VList l | VTuple l =>
      (fix go (l : list PyVal) : result unit :=
         match l with
         | [] => Return tt
         | x :: l' => _ <- render_outcome x ;; go l'
         end) l
  | VDict d =>
      (fix go (d : list (string * PyVal)) : result unit :=
         match d with
         | [] => Return tt
         | (_, x) :: d' => _ <- render_outcome x ;; go d'
         end) d
  | _ => Return tt
  end.

Definition renders (v : PyVal) : bool := returns (render_outcome v).

Section Rendering.
Variable rt : Runtime.

(** The text of an f-string field: a plain [str] formats as itself. *)
Definition format_text (v : PyVal) : string :=
  match v with
  | VStr s => s
  | _ => py_format rt v
  end.

(** An f-string field. *)
Definition format_value (v : PyVal) : result string :=
  _ <- render_outcome v ;; Return (format_text v).

(** [BaseException.__str__], from [args]. *)
Definition Exception_str (self : Instance) : result string :=
  match inst_args self with
  | [] => Return ""
  | [VStr s] => Return s
  | [a] => _ <- render_outcome a ;; Return (py_str rt a)
  | a => _ <- render_outcome (VTuple a) ;; Return (py_str rt (VTuple a))
  end.

(** [" | ".join(parts)] *)
Fixpoint join (sep : string) (parts : list string) : string :=
  match parts with
  | [] => ""
  | [p] => p
  | p :: ps => p ++ sep ++ join sep ps
  end.

Definition nonempty (d : pydict) : bool :=
  match d with [] => false | _ => true end.

(** [PipelineError.__str__] *)
Definition PipelineError_str (self : Instance) : result string :=
  c <- code self ;;
  fc <- format_value c ;;
  m <- Exception_str self ;;
  let parts := ["[" ++ fc ++ "] " ++ m] in
  ctx_dict <- context_to_dict self ;;
  if nonempty ctx_dict
  then
    fx <- format_value (VDict ctx_dict) ;;
    Return (join " | " (app parts [("Context: " ++ fx)%string]))
  else Return (join " | " parts).

(** [str(e)] and [e.__class__.__name__] of an exception object *)
Definition exc_str (e : PyExc) : result string :=
  match e with
  | StdExc _ text => Return text
  | PipeExc i => PipelineError_str i
  end.

Definition exc_class_name (e : PyExc) : string :=
  match e with
  | StdExc n _ => n
  | PipeExc i => class_name (inst_class i)
  end.

(** [self.timestamp.isoformat()]: of the modelled kinds only a [datetime]
    has that method. *)
Definition timestamp_isoformat (self : Instance) : result string :=
  match dict_get "timestamp" (inst_dict self) with
  | Some (ATime t) => Return (isoformat rt t)
  | Some (AVal (VOther _)) => Untyped
  | _ => Raise AttributeError
  end.

(** [PipelineError.to_dict] *)
Definition PipelineError_to_dict (self : Instance) : result pydict :=
  c <- code self ;;
  m <- PipelineError_str self ;;
  ts <- timestamp_isoformat self ;;
  let result : pydict :=
    [ ("name", VStr (class_name (inst_class self)));
      ("code", c);
      ("message", VStr m);
      ("timestamp", VStr ts) ] in
  ctx_dict <- context_to_dict self ;;
  let result :=
    if nonempty ctx_dict
    then dict_set "context" (VDict ctx_dict) result
    else result in
  match inst_cause self with
  | Some cause =>
      cm <- exc_str cause ;;
      Return
        (dict_set "cause"
           (VDict [ ("name", VStr (exc_class_name cause));
                    ("message", VStr cm) ])
           result)
  | None => Return result
  end.

(** [e.to_dict()] as a caller writes it. *)
Definition to_dict (self : Instance) : result pydict :=
  call_method self "to_dict" PipelineError_to_dict.
End Rendering.

(** ** Type guards *)

Definition is_pipeline_error (error : PyObj) : bool :=
  match error with OExc (PipeExc _) => true | _ => false end.

(** [isinstance(error, cls)] for a subclass [cls], which has no subclass
    of its own in the module. *)
Definition isinstance_class (error : PyObj) (cls : PipelineClass) : bool :=
  match error with
  | OExc (PipeExc i) =>
      match inst_class i, cls with
      | SessionError, SessionError
      | TaskError, TaskError
      | ValidationError, ValidationError
      | BugfixSessionValidationError, BugfixSessionValidationError
      | NestedExecutionError, NestedExecutionError => true
      | _, _ => false
      end
  | _ => false
  end.

Definition is_session_error (error : PyObj) : bool :=
  isinstance_class error SessionError.

Definition is_task_error (error : PyObj) : bool :=
  isinstance_class error TaskError.

Definition is_validation_error (error : PyObj) : bool :=
  isinstance_class error ValidationError.

(** [type(error) is PipelineError]: a direct instance of the base class. *)
Definition is_direct_base (error : PyObj) : bool :=
  match error with
  | OExc (PipeExc i) => class_eqb (inst_class i) PipelineError
  | _ => false
  end.

(** [isinstance(error, BaseException)] *)
Definition is_exception (error : PyObj) : bool :=
  match error with
  | OExc _ | OVal (VExc _ _) => true
  | _ => false
  end.

Definition is_none (error : PyObj) : bool :=
  match error with OVal VNone => true | _ => false end.

(** ** The classifier *)

Definition is_fatal_error (error : PyObj) (continue_on_error : bool)
  : result bool :=
  if continue_on_error then Return false
  else if is_none error || negb (is_exception error) then Return false
  else
    match error with
    | OExc (PipeExc self) =>
        if isinstance_class error BugfixSessionValidationError
           || isinstance_class error NestedExecutionError
        then Return true
        else if is_session_error error then
          l <- call_method self "is_load_error" is_load_error ;;
          if l then Return true
          else call_method self "is_save_error" is_save_error
        else if is_validation_error error then
          c <- code self ;;
          member_eq c VALIDATION_NESTED_EXECUTION
        else Return false
    | _ => Return false
    end.

(** ** JSON text *)

(** The double quote, the backslash and the line feed. *)
Definition quote : ascii := "034"%char.
Definition backslash : ascii := "092"%char.
Definition newline : ascii := "010"%char.

(** A lower-case hexadecimal digit. *)
Definition hex_char (n : N) : ascii :=
  if (n <? 10)%N then ascii_of_N (48 + n) else ascii_of_N (87 + n).

(** One character of a string literal under [ensure_ascii]. *)
Definition escape_char (c : ascii) : string :=
  let n := N_of_ascii c in
  if (n =? 34)%N then String backslash (String quote "")
  else if (n =? 92)%N then String backslash (String backslash "")
  else if (n =? 10)%N then String backslash "n"
  else if (n =? 13)%N then String backslash "r"
  else if (n =? 9)%N then String backslash "t"
  else if (n =? 8)%N then String backslash "b"
  else if (n =? 12)%N then String backslash "f"
  else if ((32 <=? n) && (n <=? 126))%N then String c ""
  else
    String backslash
      (String "u"
         (String "0"
            (String "0"
               (String (hex_char (n / 16)) (String (hex_char (n mod 16)) ""))))).

Fixpoint escape (s : string) : string :=
  match s with
  | "" => ""
  | String c s' => escape_char c ++ escape s'
  end.

Definition json_string (s : string) : string :=
  String quote (escape s ++ String quote "").

Definition json_int (z : Z) : string :=
  DecimalString.NilZero.string_of_int (Z.to_int z).

Fixpoint spaces (n : nat) : string :=
  match n with
  | O => ""
  | S n' => String " " (spaces n')
  end.

(** ["\n" + " " * (2 * level)] *)
Definition newline_indent (level : nat) : string :=
  String newline (spaces (2 * level)).

(** Whether [json.dumps(v)] returns: it raises [TypeError] at the first
    object JSON has no form for, and [ValueError] at the first integer
    beyond the digit limit, whichever comes first in the order of writing.
    An object of another kind can be a float, which has a form. *)
Fixpoint json_outcome (v : PyVal) : result unit :=
  match v with
  | VInt z => if int_in_limit z then Return tt else Raise ValueError
  | VClass _ | VExc _ _ => Raise TypeError
  | VOther _ => Untyped
  | VList l | VTuple l =>
      (fix go (l : list PyVal) : result unit :=
         match l with
         | [] => Return tt
         | x :: l' => _ <- json_outcome x ;; go l'
         end) l
  | VDict d =>
      (fix go (d : list (string * PyVal)) : result unit :=
         match d with
         | [] => Return tt
         | (_, x) :: d' => _ <- json_outcome x ;; go d'
         end) d
  | _ => Return tt
  end.

(** The text [json.dumps(v, indent=2)] writes at nesting depth [level], for
    a value on which [json_outcome] returns.  The cases of the other values
    are never written: [json_dumps] raises before. *)
Fixpoint json_encode (level : nat) (v : PyVal) : string :=
  match v with
  | VNone | VClass _ | VExc _ _ | VOther _ => "null"
  | VBool true => "true"
  | VBool false => "false"
  | VInt z => json_int z
  | VStr s => json_string s
  | VEnum c => json_string (ErrorCode_value c)
  | VList l | VTuple l =>
      match l with
      | [] => "[]"
      | _ =>
          "[" ++ newline_indent (S level)
          ++ join ("," ++ newline_indent (S level))
               (map (json_encode (S level)) l)
          ++ newline_indent level ++ "]"
      end
  | VDict d =>
      match d with
      | [] => "{}"
      | _ =>
          "{" ++ newline_indent (S level)
          ++ join ("," ++ newline_indent (S level))
               (map (fun kv =>
                       match kv with
                       | (k, x) =>
                           json_string k ++ ": " ++ json_encode (S level) x
                       end) d)
          ++ newline_indent level ++ "}"
      end
  end.

(** [json.dumps(v, indent=2)] *)
Definition json_dumps (v : PyVal) : result string :=
  _ <- json_outcome v ;; Return (json_encode 0 v).

(** ** Parsing *)

Definition is_ws (c : ascii) : bool :=
  let n := N_of_ascii c in
  ((n =? 32) || (n =? 9) || (n =? 10) || (n =? 13))%N.

Fixpoint skip_ws (s : string) : string :=
  match s with
  | "" => ""
  | String c r => if is_ws c then skip_ws r else s
  end.

Definition hex_value (c : ascii) : option N :=
  let n := N_of_ascii c in
  if ((48 <=? n) && (n <=? 57))%N then Some (n - 48)%N
  else if ((97 <=? n) && (n <=? 102))%N then Some (n - 87)%N
  else if ((65 <=? n) && (n <=? 70))%N then Some (n - 55)%N
  else None.

(** The character after a backslash, other than [u]. *)
Definition unescape (c : ascii) : option ascii :=
  let n := N_of_ascii c in
  if (n =? 34)%N then Some quote
  else if (n =? 92)%N then Some backslash
  else if (n =? 47)%N then Some "/"%char
  else if (n =? 98)%N then Some "008"%char
  else if (n =? 102)%N then Some "012"%char
  else if (n =? 110)%N then Some newline
  else if (n =? 114)%N then Some "013"%char
  else if (n =? 116)%N then Some "009"%char
  else None.

Definition cons_char (c : ascii) (r : option (string * string))
  : option (string * string) :=
  match r with
  | Some (t, rest) => Some (String c t, rest)
  | None => None
  end.

(** A string literal after its opening quote: the text and what follows
    the closing quote.  A code point above 255 is outside the strings of
    this development. *)
Fixpoint parse_string (s : string) : option (string * string) :=
  match s with
  | "" => None
  | String c r =>
      if Ascii.eqb c quote then Some ("", r)
      else if Ascii.eqb c backslash then
        match r with
        | "" => None
        | String e r' =>
            if Ascii.eqb e "u" then
              match r' with
              | String h1 (String h2 (String h3 (String h4 r''))) =>
                  match hex_value h1, hex_value h2, hex_value h3, hex_value h4
                  with
                  | Some a, Some b, Some x, Some y =>
                      if ((a =? 0) && (b =? 0))%N
                      then cons_char (ascii_of_N (16 * x + y))
                             (parse_string r'')
                      else None
                  | _, _, _, _ => None
                  end
              | _ => None
              end
            else
              match unescape e with
              | Some ch => cons_char ch (parse_string r')
              | None => None
              end
        end
      else if (N_of_ascii c <? 32)%N then None
      else cons_char c (parse_string r)
  end.

Definition digit_of (c : ascii) : option (Decimal.uint -> Decimal.uint) :=
  let n := N_of_ascii c in
  if (n =? 48)%N then Some Decimal.D0
  else if (n =? 49)%N then Some Decimal.D1
  else if (n =? 50)%N then Some Decimal.D2
  else if (n =? 51)%N then Some Decimal.D3
  else if (n =? 52)%N then Some Decimal.D4
  else if (n =? 53)%N then Some Decimal.D5
  else if (n =? 54)%N then Some Decimal.D6
  else if (n =? 55)%N then Some Decimal.D7
  else if (n =? 56)%N then Some Decimal.D8
  else if (n =? 57)%N then Some Decimal.D9
  else None.

(** The longest prefix of decimal digits. *)
Fixpoint take_digits (s : string) : Decimal.uint * string :=
  match s with
  | "" => (Decimal.Nil, "")
  | String c r =>
      match digit_of c with
      | Some d => let (u, rest) := take_digits r in (d u, rest)
      | None => (Decimal.Nil, s)
      end
  end.

(** What follows an integer literal would make it a float. *)
Definition starts_fraction (s : string) : bool :=
  match s with
  | "" => false
  | String c _ =>
      let n := N_of_ascii c in ((n =? 46) || (n =? 101) || (n =? 69))%N
  end.

(** The digits of an integer literal: [0], or a digit string that does not
    start with [0].  Floats are outside this development. *)
Definition parse_digits (negative : bool) (s : string) : option (Z * string) :=
  let (u, rest) :=
    match s with
    | "" => (Decimal.Nil, "")
    | String c r => if Ascii.eqb c "0" then (Decimal.D0 Decimal.Nil, r) else take_digits s
    end in
  match u with
  | Decimal.Nil => None
  | _ =>
      if starts_fraction rest then None
      else Some (Z.of_int (if negative then Decimal.Neg u else Decimal.Pos u), rest)
  end.

(** An integer literal, with its optional sign. *)
Definition parse_number (s : string) : option (Z * string) :=
  match s with
  | "" => None
  | String c r =>
      if Ascii.eqb c "-" then parse_digits true r else parse_digits false s
  end.

(** [s] without its prefix [p], when it starts with [p]. *)
Fixpoint strip_prefix (p s : string) : option string :=
  match p with
  | "" => Some s
  | String a p' =>
      match s with
      | String b s' => if Ascii.eqb a b then strip_prefix p' s' else None
      | "" => None
      end
  end.

(** The scanner of [json.loads], with a bound on the nesting it follows. *)
Fixpoint parse_value (fuel : nat) (s : string) {struct fuel}
  : option (PyVal * string) :=
  match fuel with
  | O => None
  | S fuel' =>
      match s with
      | "" => None
      | String c r =>
          if Ascii.eqb c quote then
            match parse_string r with
            | Some (t, rest) => Some (VStr t, rest)
            | None => None
            end
          else if Ascii.eqb c "{" then
            match skip_ws r with
            | "" => None
            | String c1 rest =>
                if Ascii.eqb c1 "}" then Some (VDict [], rest)
                else
                  match parse_pairs fuel' (String c1 rest) with
                  | Some (d, rest') => Some (VDict (dict_update [] d), rest')
                  | None => None
                  end
            end
          else if Ascii.eqb c "[" then
            match skip_ws r with
            | "" => None
            | String c1 rest =>
                if Ascii.eqb c1 "]" then Some (VList [], rest)
                else
                  match parse_items fuel' (String c1 rest) with
                  | Some (l, rest') => Some (VList l, rest')
                  | None => None
                  end
            end
          else
            match strip_prefix "null" s with
            | Some rest => Some (VNone, rest)
            | None =>
                match strip_prefix "true" s with
                | Some rest => Some (VBool true, rest)
                | None =>
                    match strip_prefix "false" s with
                    | Some rest => Some (VBool false, rest)
                    | None =>
                        match parse_number s with
                        | Some (z, rest) => Some (VInt z, rest)
                        | None => None
                        end
                    end
                end
            end
      end
  end

with parse_items (fuel : nat) (s : string) {struct fuel}
  : option (list PyVal * string) :=
  match fuel with
  | O => None
  | S fuel' =>
      match parse_value fuel' s with
      | Some (v, rest) =>
          match skip_ws rest with
          | "" => None
          | String c rest' =>
              if Ascii.eqb c "," then
                match parse_items fuel' (skip_ws rest') with
                | Some (l, rest'') => Some (v :: l, rest'')
                | None => None
                end
              else if Ascii.eqb c "]" then Some ([v], rest')
              else None
          end
      | None => None
      end
  end

with parse_pairs (fuel : nat) (s : string) {struct fuel}
  : option (list (string * PyVal) * string) :=
  match fuel with
  | O => None
  | S fuel' =>
      match s with
      | "" => None
      | String c r =>
          if Ascii.eqb c quote then
            match parse_string r with
            | Some (k, rest) =>
                match skip_ws rest with
                | "" => None
                | String c1 rest1 =>
                    if Ascii.eqb c1 ":" then
                      match parse_value fuel' (skip_ws rest1) with
                      | Some (v, rest2) =>
                          match skip_ws rest2 with
                          | "" => None
                          | String c2 rest3 =>
                              if Ascii.eqb c2 "," then
                                match parse_pairs fuel' (skip_ws rest3) with
                                | Some (d, rest4) => Some ((k, v) :: d, rest4)
                                | None => None
                                end
                              else if Ascii.eqb c2 "}" then
                                Some ([(k, v)], rest3)
                              else None
                          end
                      | None => None
                      end
                    else None
                end
            | None => None
            end
          else None
      end
  end.

(** Every integer of the value is within the digit limit. *)
Fixpoint ints_in_limit (v : PyVal) : bool :=
  match v with
  | VInt z => int_in_limit z
  | VList l | VTuple l => forallb ints_in_limit l
  | VDict d => forallb (fun kv => match kv with (_, x) => ints_in_limit x end) d
  | _ => true
  end.

(** [json.loads(s)]: [None] when it raises, which it does when the text is
    not JSON or holds an integer beyond the digit limit, and also where the
    text holds a float or a character above code point 255, which are
    outside this development. *)
Definition json_loads (s : string) : option PyVal :=
  match parse_value (S (String.length s)) (skip_ws s) with
  | Some (v, rest) =>
      match skip_ws rest with
      | "" => if ints_in_limit v then Some v else None
      | _ => None
      end
  | None => None
  end.

(** What a value becomes on the way through JSON: a tuple comes back as a
    list, a member of [ErrorCode] as the plain string of its value.  (On
    the values that are never written it follows [json_encode].) *)
Fixpoint json_norm (v : PyVal) : PyVal :=
  match v with
  | VEnum c => VStr (ErrorCode_value c)
  | VClass _ | VExc _ _ | VOther _ => VNone
  | VList l | VTuple l => VList (map json_norm l)
  | VDict d =>
      VDict
        (dict_update []
           (map (fun kv => match kv with (k, x) => (k, json_norm x) end) d))
  | _ => v
  end.

(** Nesting that [parse_value] has to follow to read the text of [v]. *)
Fixpoint need (v : PyVal) : nat :=
  match v with
  | VList l | VTuple l =>
      S (fold_right (fun x n => S (Nat.max (need x) n)) O l)
  | VDict d =>
      S (fold_right
           (fun kv n => match kv with (_, x) => S (Nat.max (need x) n) end)
           O d)
  | _ => 1
  end.

(** [PipelineError.to_json]: [json.dumps(self.to_dict(), indent=2)] *)
Definition PipelineError_to_json (rt : Runtime) (self : Instance)
  : result string :=
  d <- to_dict rt self ;; json_dumps (VDict d).

(** [e.to_json()] as a caller writes it. *)
Definition to_json (rt : Runtime) (self : Instance) : result string :=
  call_method self "to_json" (PipelineError_to_json rt).

(** ** Constructed instances *)

(** The call [cls(message, context, cause)], with [code=code] as well for
    the two classes whose constructor takes a code. *)
Definition new_error (cls : PipelineClass) (now : datetime) (message : string)
    (context : PyObj) (cause : option PyExc) (code : PyVal)
  : result Instance :=
  match cls with
  | PipelineError => new_PipelineError now message context cause
  | SessionError => new_SessionError now message context cause code
  | ValidationError => new_ValidationError now message context cause code
  | TaskError => new_TaskError now message context cause
  | BugfixSessionValidationError =>
      new_BugfixSessionValidationError now message context cause
  | NestedExecutionError => new_NestedExecutionError now message context cause
  end.

(** The items [__init__] copies onto the instance: those of the normalised
    context. *)
Definition context_items (context : PyObj) : pydict :=
  match normalize_context context with
  | Return c => ErrorContext_to_dict c
  | _ => []
  end.

(** No key of the context is one of [names]. *)
Definition avoids (context : PyObj) (names : list string) : bool :=
  forallb (fun n => negb (dict_has n (context_items context))) names.

(** The attribute [name] of the instance is a value a context can carry. *)
Definition attr_is_val (self : Instance) (name : string) : bool :=
  match dict_get name (inst_dict self) with
  | Some (AVal _) => true
  | _ => false
  end.

(** The [context] argument is an [ErrorContext], a dictionary whose keys are
    all fields of [ErrorContext], or [None]. *)
Definition context_accepted (context : PyObj) : bool :=
  match context with
  | OCtx _ => true
  | OVal (VDict d) => forallb (fun kv => is_field (fst kv)) d
  | OVal VNone => true
  | _ => false
  end.

(** A dictionary given as context binds [metadata], if at all, to a
    dictionary. *)
Definition context_typed (context : PyObj) : bool :=
  match normalize_context context with
  | Untyped => false
  | _ => true
  end.

(** The names whose [BaseException] or [object] setter checks the value. *)
Definition checked_slots : list string :=
  ["__dict__"; "args"; "__traceback__"; "__context__"; "__cause__";
   "__suppress_context__"; "__class__"].

(** [json.dumps] returns on the value. *)
Definition serialises (v : PyVal) : bool := returns (json_outcome v).

(** [str()] of the cause, if there is one, returns. *)
Definition cause_renders (rt : Runtime) (cause : option PyExc) : bool :=
  match cause with
  | Some e => returns (exc_str rt e)
  | None => true
  end.

(** Membership in the registry, by Python's [==]. *)
Definition in_registry (c : PyVal) : bool :=
  existsb (fun e => py_eq c (VEnum e)) all_error_codes.

(** The value is an object of another kind. *)
Definition is_other (v : PyVal) : bool :=
  match v with VOther _ => true | _ => false end.

(** The classes whose constructor takes a [code]. *)
Definition selectable (cls : PipelineClass) : bool :=
  match cls with
  | SessionError | ValidationError => true
  | _ => false
  end.

(** ** Sample objects *)

Definition epoch : datetime := mkdatetime 1970 1 1 0 0 0 0.

(** [ErrorContext(metadata=md)] *)
Definition metadata_only (md : pydict) : ErrorContext :=
  mkErrorContext VNone VNone VNone VNone md.

(** The instance a constructor call returns, or a bare object when the
    call does not return. *)
Definition returned (cls : PipelineClass) (r : result Instance) : Instance :=
  match r with
  | Return i => i
  | _ => new_object cls
  end.

(** [SessionError("x", code="SESSION_NOT_FOUND")] *)
Definition session_not_found : Instance :=
  Eval cbv in
    returned SessionError
      (new_SessionError epoch "x" (OVal VNone) None (VStr "SESSION_NOT_FOUND")).

(** [SessionError("x", ErrorContext(metadata={"is_load_error": 1}))] *)
Definition session_shadowed_load : Instance :=
  Eval cbv in
    returned SessionError
      (new_SessionError epoch "x"
         (OCtx (metadata_only [("is_load_error", VInt 1)])) None VNone).

(** [SessionError("x", ErrorContext(metadata={"is_save_error": 1}),
    code="SESSION_NOT_FOUND")] *)
Definition session_shadowed_save : Instance :=
  Eval cbv in
    returned SessionError
      (new_SessionError epoch "x"
         (OCtx (metadata_only [("is_save_error", VInt 1)])) None
         (VStr "SESSION_NOT_FOUND")).

(** [TaskError("x", ErrorContext(metadata={"__cause__": 1}))] does not
    return. *)
Definition task_cause_in_metadata : result Instance :=
  new_TaskError epoch "x" (OCtx (metadata_only [("__cause__", VInt 1)])) None.

(** [TaskError("x", ErrorContext(metadata={"timestamp": "now"}))] *)
Definition task_timestamp_in_metadata : Instance :=
  Eval cbv in
    returned TaskError
      (new_TaskError epoch "x"
         (OCtx (metadata_only [("timestamp", VStr "now")])) None).


(** A runtime for the examples: it renders a member of [ErrorCode] as
    [ErrorCode.NAME], every other value as [?], and every instant as the
    text of the epoch. *)
Definition sample_runtime : Runtime :=
  mkRuntime
    (fun _ => "1970-01-01T00:00:00")
    (fun v => match v with
              | VEnum c => "ErrorCode." ++ ErrorCode_value c
              | _ => "?"
              end)
    (fun _ => "?").

(** [TaskError("x", ErrorContext(metadata={"pids": (1, 2)}))] *)
Definition task_tuple_in_metadata : Instance :=
  Eval cbv in
    returned TaskError
      (new_TaskError epoch "x"
         (OCtx (metadata_only [("pids", VTuple [VInt 1; VInt 2])])) None).

(** [TaskError("x")] *)
Definition task_plain : Instance :=
  Eval cbv in returned TaskError (new_TaskError epoch "x" (OVal VNone) None).

(** ** Notions used by the proofs *)

(** The named fields that are present, in the order of the loop. *)
Definition present_fields (c : ErrorContext) : pydict :=
  filter (fun kv => negb (is_None (snd kv)))
    (map (fun key => (key, ErrorContext_getattr c key)) named_fields).

(** The entries of [to_dict()] after the four fixed ones. *)
Definition optional_entries (rt : Runtime) (cx : ErrorContext)
    (cause : option PyExc) : pydict :=
  app
    (if nonempty (ErrorContext_to_dict cx)
     then [("context", VDict (ErrorContext_to_dict cx))]
     else [])
    match cause with
    | Some e =>
        [("cause",
          VDict [("name", VStr (exc_class_name e));
                 ("message",
                  VStr match exc_str rt e with
                       | Return cm => cm
                       | _ => ""
                       end)])]
    | None => []
    end.

(** The text starts with a decimal digit. *)
Definition starts_digit (s : string) : bool :=
  match s with
  | "" => false
  | String c _ => match digit_of c with Some _ => true | None => false end
  end.

(** What may follow the text of a value: no digit and nothing that would
    continue a number. *)
Definition delimited (s : string) : bool :=
  negb (starts_digit s) && negb (starts_fraction s).

(** The first character of the text of a value: no white space, and none
    of the closing brackets. *)
Definition value_start (c : ascii) : bool :=
  negb (is_ws c) && negb (Ascii.eqb c "]") && negb (Ascii.eqb c "}").

(** Nesting to follow for the items of a list and for the pairs of a
    dictionary. *)
Definition need_items (l : list PyVal) : nat :=
  fold_right (fun x n => S (Nat.max (need x) n)) O l.

Definition need_pairs (d : list (string * PyVal)) : nat :=
  fold_right
    (fun kv n => match kv with (_, x) => S (Nat.max (need x) n) end) O d.

(** Reading a value back gives its normal form. *)
Definition reads_back (v : PyVal) : Prop :=
  forall level fuel rest,
    (need v <= fuel)%nat ->
    delimited rest = true ->
    parse_value fuel (json_encode level v ++ rest) = Some (json_norm v, rest).

(** The separator between the items written at depth [level + 1]. *)
Definition item_sep (level : nat) : string := "," ++ newline_indent (S level).

(** One entry of a dictionary, as [json_encode] writes it. *)
Definition encode_pair (level : nat) (kv : string * PyVal) : string :=
  match kv with
  | (k, x) => json_string k ++ ": " ++ json_encode (S level) x
  end.

(** One entry of a dictionary, as it comes back. *)
Definition norm_pair (kv : string * PyVal) : string * PyVal :=
  match kv with
  | (k, x) => (k, json_norm x)
  end.

(** The dictionary holds each key once. *)
Fixpoint unique_keys (d : list (string * PyVal)) : bool :=
  match d with
  | [] => true
  | (k, _) :: d' => negb (dict_has k d') && unique_keys d'
  end.

(** Values that JSON has a form of its own for: no tuple, class, exception
    or object of another kind at any depth, and dictionaries that hold each
    key once. *)
Fixpoint json_native (v : PyVal) : bool :=
  match v with
  | VTuple _ | VClass _ | VExc _ _ | VOther _ => false
  | VList l => forallb json_native l
  | VDict d =>
      unique_keys d
      && forallb (fun kv => match kv with (_, x) => json_native x end) d
  | _ => true
  end.

(** ** Attribute access *)

(** [e.name] for a name that no class of the hierarchy defines, such as
    the four named fields of a context: the instance dictionary is read. *)
Definition getattr_field (self : Instance) (name : string) : result PyVal :=
  match dict_get name (inst_dict self) with
  | Some (AVal v) => Return v
  | Some _ => Untyped
  | None => Raise AttributeError
  end.

(** The names [setattr] does not store in the instance dictionary. *)
Definition descriptor_names : list string :=
  "code" :: "__weakref__" :: checked_slots.

Definition is_descriptor (name : string) : bool :=
  existsb (String.eqb name) descriptor_names.

(** What [__init__] itself stores under [name] before it copies the
    context: the timestamp, the context, and [_code] in the two classes with
    a selectable code. *)
Definition own_attribute (cls : PipelineClass) (now : datetime)
    (cx : ErrorContext) (code : PyVal) (name : string) : option Attr :=
  if String.eqb name "context" then Some (ACtx cx)
  else if String.eqb name "timestamp" then Some (ATime now)
  else if String.eqb name "_code" && selectable cls then
    Some (AVal (if is_None code then VEnum (default_code cls) else code))
  else None.

(** The object a constructor hands to [PipelineError.__init__]. *)
Definition start_object (cls : PipelineClass) (code : PyVal) : Instance :=
  if selectable cls
  then store (new_object cls) "_code"
         (AVal (if is_None code then VEnum (default_code cls) else code))
  else new_object cls.

(** The context has the key [code] or [__weakref__], which [setattr]
    refuses. *)
Definition has_readonly_key (context : PyObj) : bool :=
  dict_has "code" (context_items context)
  || dict_has "__weakref__" (context_items context).

(** [SessionError("x", ErrorContext(metadata={"_code":
    "SESSION_NOT_FOUND"}))] *)
Definition session_code_in_metadata : Instance :=
  Eval cbv in
    returned SessionError
      (new_SessionError epoch "x"
         (OCtx (metadata_only [("_code", VStr "SESSION_NOT_FOUND")]))
         None VNone).

(** [SessionError("x")] *)
Definition session_plain : Instance :=
  Eval cbv in
    returned SessionError (new_SessionError epoch "x" (OVal VNone) None VNone).

(** [SessionError("x", ErrorContext(session_path="/a"))] *)
Definition session_with_path : Instance :=
  Eval cbv in
    returned SessionError
      (new_SessionError epoch "x"
         (OCtx (mkErrorContext (VStr "/a") VNone VNone VNone [])) None VNone).

(** * Properties *)

(** ** Strings *)

Lemma append_assoc (a b c : string) :
  ((a ++ b) ++ c = a ++ (b ++ c))%string.
Proof. induction a as [|x a IH]; simpl; [reflexivity | rewrite IH; reflexivity]. Qed.

Lemma append_nil_r (a : string) : (a ++ "")%string = a.
Proof. induction a as [|x a IH]; simpl; [reflexivity | rewrite IH; reflexivity]. Qed.

(** ** Dictionaries *)

Section DictFacts.
Context {V : Type}.
Implicit Types (d m : list (string * V)) (k : string) (v : V).

Lemma dict_get_set k k' v d :
  dict_get k (dict_set k' v d) =
  if String.eqb k k' then Some v else dict_get k d.
Proof.
  induction d as [|[k0 v0] d IH]; simpl.
  - reflexivity.
  - destruct (String.eqb k' k0) eqn:E0; simpl.
    + apply String.eqb_eq in E0; subst k0.
      destruct (String.eqb k k'); reflexivity.
    + rewrite IH. destruct (String.eqb k k0) eqn:E1; [|reflexivity].
      apply String.eqb_eq in E1; subst k0.
      destruct (String.eqb k k') eqn:E2; [|reflexivity].
      apply String.eqb_eq in E2; subst k'.
      rewrite String.eqb_refl in E0; discriminate.
Qed.

Lemma dict_get_update k d m :
  dict_get k (dict_update d m) =
  match dict_get k (rev m) with
  | Some v => Some v
  | None => dict_get k d
  end.
Proof.
  unfold dict_update. revert d.
  induction m as [|[k0 v0] m IH] using rev_ind; intros d.
  - reflexivity.
  - rewrite fold_left_app, rev_app_distr. simpl.
    rewrite dict_get_set. destruct (String.eqb k k0); [reflexivity|].
    apply IH.
Qed.

Lemma dict_keys_set k v d :
  dict_keys (dict_set k v d) =
  if dict_has k d then dict_keys d else (dict_keys d ++ [k])%list.
Proof.
  unfold dict_has, dict_keys.
  induction d as [|[k0 v0] d IH]; simpl.
  - reflexivity.
  - destruct (String.eqb k k0) eqn:E; simpl; [reflexivity|].
    rewrite IH. destruct (dict_get k d); reflexivity.
Qed.

Lemma dict_has_In k d : dict_has k d = true <-> In k (dict_keys d).
Proof.
  unfold dict_has, dict_keys.
  induction d as [|[k0 v0] d IH]; simpl.
  - split; [discriminate | tauto].
  - destruct (String.eqb k k0) eqn:E.
    + apply String.eqb_eq in E. subst. tauto.
    + apply String.eqb_neq in E. rewrite IH. split; [tauto|].
      intros [H|H]; [congruence | exact H].
Qed.

Lemma dict_set_NoDup k v d :
  NoDup (dict_keys d) -> NoDup (dict_keys (dict_set k v d)).
Proof.
  intros H. rewrite dict_keys_set.
  destruct (dict_has k d) eqn:E; [exact H|].
  apply NoDup_app; [exact H | repeat constructor; intros [] |].
  intros x Hx [Hk|[]]. subst x.
  apply dict_has_In in Hx. congruence.
Qed.

Lemma dict_update_NoDup d m :
  NoDup (dict_keys d) -> NoDup (dict_keys (dict_update d m)).
Proof.
  unfold dict_update. revert d.
  induction m as [|[k v] m IH]; intros d H; simpl; [exact H|].
  apply IH, dict_set_NoDup, H.
Qed.
End DictFacts.

(** ** The classifier on marker instances and under the override *)

(** C1: with [continue_on_error] true the classifier answers [False] for
    every object, the instances of the two marker classes included. *)
Theorem is_fatal_error_continue_on_error :
  forall x : PyObj, is_fatal_error x true = Return false.
Proof. intros x. reflexivity. Qed.

(** C2: with [continue_on_error] false every instance of
    [BugfixSessionValidationError] and every instance of
    [NestedExecutionError] is fatal, whatever its message ([args]), the
    attributes copied from its context, and its cause. *)
Theorem is_fatal_error_marker_classes :
  forall (args : list PyVal) (attrs : list (string * Attr))
         (cause : option PyExc),
    is_fatal_error
      (OExc (PipeExc (mkInstance BugfixSessionValidationError args attrs cause)))
      false = Return true
    /\ is_fatal_error
         (OExc (PipeExc (mkInstance NestedExecutionError args attrs cause)))
         false = Return true.
Proof. intros args attrs cause. split; reflexivity. Qed.

(** C10: the marker classes stand outside the domain classes although their
    codes carry a domain prefix.  A [NestedExecutionError] has code
    [VALIDATION_NESTED_EXECUTION] and is no [ValidationError]; a
    [BugfixSessionValidationError] has code [SESSION_INVALID_BUGFIX_PATH]
    and is no [SessionError]; neither guard of the two code rules holds for
    either, and both are fatal, so it is the marker rule that decides. *)
Theorem marker_classes_outside_domain_classes :
  forall (args : list PyVal) (attrs : list (string * Attr))
         (cause : option PyExc),
    let m := mkInstance NestedExecutionError args attrs cause in
    let b := mkInstance BugfixSessionValidationError args attrs cause in
    (code m = Return (VEnum VALIDATION_NESTED_EXECUTION)
     /\ is_validation_error (OExc (PipeExc m)) = false
     /\ is_session_error (OExc (PipeExc m)) = false
     /\ is_fatal_error (OExc (PipeExc m)) false = Return true)
    /\ (code b = Return (VEnum SESSION_INVALID_BUGFIX_PATH)
        /\ is_session_error (OExc (PipeExc b)) = false
        /\ is_validation_error (OExc (PipeExc b)) = false
        /\ is_fatal_error (OExc (PipeExc b)) false = Return true).
Proof. intros args attrs cause. cbv zeta. repeat split. Qed.

(** ** [ErrorContext.to_dict] *)

Lemma named_loop_present c :
  fold_left
    (fun (result : pydict) key =>
       let value := ErrorContext_getattr c key in
       if is_None value then result else dict_set key value result)
    named_fields [] = present_fields c.
Proof.
  destruct c as [sp tid op uid md]. unfold present_fields. simpl.
  unfold ErrorContext_getattr; simpl.
  destruct (is_None sp), (is_None tid), (is_None op), (is_None uid);
    reflexivity.
Qed.

Lemma ErrorContext_to_dict_eq c :
  ErrorContext_to_dict c = dict_update (present_fields c) (metadata c).
Proof. unfold ErrorContext_to_dict. rewrite named_loop_present. reflexivity. Qed.

Lemma present_fields_NoDup c : NoDup (dict_keys (present_fields c)).
Proof.
  destruct c as [sp tid op uid md]. unfold present_fields. simpl.
  unfold ErrorContext_getattr; simpl.
  destruct (is_None sp), (is_None tid), (is_None op), (is_None uid); simpl;
    repeat constructor; simpl; intuition discriminate.
Qed.

Lemma ErrorContext_to_dict_NoDup c : NoDup (dict_keys (ErrorContext_to_dict c)).
Proof.
  rewrite ErrorContext_to_dict_eq.
  apply dict_update_NoDup, present_fields_NoDup.
Qed.

(** [d.update(m)] keeps the keys of [d] where they are and puts the new
    keys of [m] after them. *)
Lemma dict_update_keys (d m : pydict) :
  exists later,
    dict_keys (dict_update d m) = (dict_keys d ++ later)%list
    /\ forall k, In k later -> In k (dict_keys m).
Proof.
  unfold dict_update. revert d.
  induction m as [|[k v] m IH]; intros d; simpl.
  - exists []. rewrite List.app_nil_r. split; [reflexivity | intros k []].
  - destruct (IH (dict_set k v d)) as (later & E & Hin).
    rewrite E, dict_keys_set. destruct (dict_has k d).
    + exists later. split; [reflexivity|]. intros k' Hk. right. apply Hin, Hk.
    + exists (k :: later). rewrite <- List.app_assoc. split; [reflexivity|].
      intros k' [<-|Hk]; [left; reflexivity | right; apply Hin, Hk].
Qed.

(** C8: [to_dict] holds each key once; a key maps to its metadata entry when
    the metadata has one (the last one written wins, also over a named
    field of the same name), otherwise to the named field of that name when
    that field is not [None], and is absent otherwise.  The keys of the
    present named fields come first, in field order, followed by the keys
    that only the metadata has; without metadata the result is the present
    named fields themselves, as for
    [ErrorContext(session_path="/a", task_id="T1")]. *)
Theorem ErrorContext_to_dict_spec :
  (forall c : ErrorContext, NoDup (dict_keys (ErrorContext_to_dict c)))
  /\ (forall (c : ErrorContext) (k : string),
        dict_get k (ErrorContext_to_dict c) =
        match dict_get k (rev (metadata c)) with
        | Some v => Some v
        | None =>
            if existsb (String.eqb k) named_fields
               && negb (is_None (ErrorContext_getattr c k))
            then Some (ErrorContext_getattr c k)
            else None
        end)
  /\ (forall c : ErrorContext,
        exists later,
          dict_keys (ErrorContext_to_dict c) =
          (dict_keys (present_fields c) ++ later)%list
          /\ forall k, In k later -> In k (dict_keys (metadata c)))
  /\ (forall sp tid op uid,
        ErrorContext_to_dict (mkErrorContext sp tid op uid []) =
        present_fields (mkErrorContext sp tid op uid []))
  /\ ErrorContext_to_dict
       (mkErrorContext (VStr "/a") (VStr "T1") VNone VNone []) =
     [("session_path", VStr "/a"); ("task_id", VStr "T1")].
Proof.
  split; [exact ErrorContext_to_dict_NoDup|].
  split; [|split; [|split]].
  - intros c k. rewrite ErrorContext_to_dict_eq, dict_get_update.
    destruct (dict_get k (rev (metadata c))); [reflexivity|].
    destruct c as [sp tid op uid md]. unfold present_fields. simpl.
    unfold ErrorContext_getattr; simpl.
    destruct (is_None sp) eqn:Hsp, (is_None tid) eqn:Htid,
             (is_None op) eqn:Hop, (is_None uid) eqn:Huid; simpl;
      repeat match goal with
        | |- context [String.eqb k ?s] =>
            let E := fresh "E" in
            destruct (String.eqb k s) eqn:E;
            [ apply String.eqb_eq in E; subst k; simpl;
              rewrite ?Hsp, ?Htid, ?Hop, ?Huid; reflexivity
            | simpl ]
        end; reflexivity.
  - intros c. rewrite ErrorContext_to_dict_eq. apply dict_update_keys.
  - intros. rewrite ErrorContext_to_dict_eq. reflexivity.
  - reflexivity.
Qed.

(** ** What [setattr] and the copying loop keep *)

(** Case analysis on the name and on the value given to [setattr]; the
    calls that raise are discarded. *)
Ltac setattr_cases value :=
  unfold setattr;
  repeat match goal with
    | |- context [if ?b then _ else _] => destruct b
    end;
  try discriminate;
  destruct value; simpl; try discriminate;
  let H := fresh in intros H; injection H as <-.

Lemma setattr_class self key value self' :
  String.eqb key "__class__" = false ->
  setattr self key value = Return self' -> inst_class self' = inst_class self.
Proof.
  intros Hk. unfold setattr. rewrite Hk. setattr_cases value; reflexivity.
Qed.

Lemma setattr_other self key value self' name :
  String.eqb key "__dict__" = false ->
  String.eqb name key = false ->
  setattr self key value = Return self' ->
  dict_get name (inst_dict self') = dict_get name (inst_dict self).
Proof.
  intros Hd Hn. unfold setattr. rewrite Hd.
  setattr_cases value;
    first [ reflexivity | simpl; rewrite dict_get_set, Hn; reflexivity ].
Qed.

Lemma setattr_keeps_val self key value self' name :
  String.eqb key "__dict__" = false ->
  setattr self key value = Return self' ->
  attr_is_val self name = true -> attr_is_val self' name = true.
Proof.
  intros Hd H Hv. destruct (String.eqb name key) eqn:Hn.
  - apply String.eqb_eq in Hn. subst key. revert H. unfold setattr. rewrite Hd.
    setattr_cases value;
      first [ exact Hv
            | unfold attr_is_val; simpl;
              rewrite dict_get_set, String.eqb_refl; reflexivity ].
  - unfold attr_is_val in *.
    rewrite (setattr_other _ _ _ _ _ Hd Hn H). exact Hv.
Qed.

Lemma dict_has_cons {V : Type} (name k : string) (v : V) d :
  dict_has name ((k, v) :: d) = false ->
  String.eqb name k = false /\ dict_has name d = false.
Proof.
  unfold dict_has. simpl. destruct (String.eqb name k); [discriminate|].
  intros H. split; [reflexivity | exact H].
Qed.

Lemma setattr_all_class items : forall self self',
  dict_has "__class__" items = false ->
  setattr_all self items = Return self' -> inst_class self' = inst_class self.
Proof.
  induction items as [|[k v] items IH]; simpl; intros self self' Hc.
  - intros [= <-]. reflexivity.
  - apply dict_has_cons in Hc as [Hc1 Hc2].
    destruct (setattr self k v) as [s1| |] eqn:E; try discriminate. simpl.
    intros H. rewrite (IH _ _ Hc2 H).
    apply (setattr_class _ _ _ _ (eq_trans (String.eqb_sym _ _) Hc1) E).
Qed.

Lemma setattr_all_other items name : forall self self',
  dict_has "__dict__" items = false ->
  dict_has name items = false ->
  setattr_all self items = Return self' ->
  dict_get name (inst_dict self') = dict_get name (inst_dict self).
Proof.
  induction items as [|[k v] items IH]; simpl; intros self self' Hd Hn.
  - intros [= <-]. reflexivity.
  - apply dict_has_cons in Hd as [Hd1 Hd2]. apply dict_has_cons in Hn as [Hn1 Hn2].
    destruct (setattr self k v) as [s1| |] eqn:E; try discriminate. simpl.
    intros H. rewrite (IH _ _ Hd2 Hn2 H).
    apply (setattr_other _ _ _ _ _ (eq_trans (String.eqb_sym _ _) Hd1) Hn1 E).
Qed.

Lemma setattr_all_keeps_val items name : forall self self',
  dict_has "__dict__" items = false ->
  setattr_all self items = Return self' ->
  attr_is_val self name = true -> attr_is_val self' name = true.
Proof.
  induction items as [|[k v] items IH]; simpl; intros self self' Hd.
  - intros [= <-]. tauto.
  - apply dict_has_cons in Hd as [Hd1 Hd2].
    destruct (setattr self k v) as [s1| |] eqn:E; try discriminate. simpl.
    intros H Hv. apply (IH _ _ Hd2 H).
    apply (setattr_keeps_val _ _ _ _ _ (eq_trans (String.eqb_sym _ _) Hd1) E Hv).
Qed.

(** ** What a constructor establishes *)

Lemma init_inv self0 now message context cause i :
  PipelineError_init self0 now message context cause = Return i ->
  exists c s1,
    normalize_context context = Return c
    /\ setattr_all
         (with_args
            (store (store self0 "timestamp" (ATime now)) "context" (ACtx c))
            [VStr message])
         (ErrorContext_to_dict c) = Return s1
    /\ i = match cause with
           | Some e => with_cause s1 (Some e)
           | None => s1
           end.
Proof.
  unfold PipelineError_init.
  destruct (normalize_context context) as [c| |]; try discriminate. simpl.
  match goal with
  | |- context [setattr_all ?s ?l] => destruct (setattr_all s l) as [s1| |] eqn:E
  end; try discriminate.
  simpl. intros [= <-]. exists c, s1. repeat split. exact E.
Qed.

Lemma init_class self0 now message context cause i :
  PipelineError_init self0 now message context cause = Return i ->
  avoids context ["__class__"] = true ->
  inst_class i = inst_class self0.
Proof.
  intros H Ha. apply init_inv in H as (c & s1 & Hc & Hs & ->).
  unfold avoids, context_items in Ha. rewrite Hc in Ha. simpl in Ha.
  rewrite andb_true_r in Ha. apply negb_true_iff in Ha.
  apply (setattr_all_class _ _ _ Ha) in Hs.
  destruct cause; simpl; rewrite Hs; reflexivity.
Qed.

Lemma init_cause self0 now message context cause i :
  PipelineError_init self0 now message context cause = Return i ->
  match cause with
  | Some e => inst_cause i = Some e
  | None => True
  end.
Proof.
  intros H. apply init_inv in H as (c & s1 & _ & Hs & ->).
  destruct cause; simpl; trivial.
Qed.

Lemma init_dict self0 now message context cause i :
  PipelineError_init self0 now message context cause = Return i ->
  exists c s1,
    normalize_context context = Return c
    /\ context_items context = ErrorContext_to_dict c
    /\ setattr_all
         (with_args
            (store (store self0 "timestamp" (ATime now)) "context" (ACtx c))
            [VStr message])
         (ErrorContext_to_dict c) = Return s1
    /\ inst_dict i = inst_dict s1.
Proof.
  intros H. apply init_inv in H as (c & s1 & Hc & Hs & ->).
  exists c, s1. unfold context_items. rewrite Hc.
  repeat split; try assumption. destruct cause; reflexivity.
Qed.

Lemma init_other self0 now message context cause i name :
  PipelineError_init self0 now message context cause = Return i ->
  avoids context ["__dict__"; name] = true ->
  exists c,
    normalize_context context = Return c
    /\ dict_get name (inst_dict i) =
       dict_get name
         (dict_set "context" (ACtx c)
            (dict_set "timestamp" (ATime now) (inst_dict self0))).
Proof.
  intros H Ha. apply init_dict in H as (c & s1 & Hc & Hi & Hs & ->).
  unfold avoids in Ha. simpl in Ha. rewrite Hi in Ha.
  apply andb_prop in Ha as [Hd Ha]. apply andb_prop in Ha as [Hn _].
  apply negb_true_iff in Hd, Hn.
  exists c. split; [exact Hc|].
  rewrite (setattr_all_other _ _ _ _ Hd Hn Hs). reflexivity.
Qed.

Lemma init_keeps_val self0 now message context cause i name :
  PipelineError_init self0 now message context cause = Return i ->
  avoids context ["__dict__"] = true ->
  String.eqb name "timestamp" = false ->
  String.eqb name "context" = false ->
  attr_is_val self0 name = true -> attr_is_val i name = true.
Proof.
  intros H Ha Ht Hx Hv. apply init_dict in H as (c & s1 & Hc & Hi & Hs & Hd).
  unfold avoids in Ha. simpl in Ha. rewrite Hi in Ha.
  apply andb_prop in Ha as [Ha _]. apply negb_true_iff in Ha.
  unfold attr_is_val. rewrite Hd.
  apply (setattr_all_keeps_val _ name _ _ Ha Hs).
  unfold attr_is_val in *. simpl.
  rewrite !dict_get_set, Hx, Ht. exact Hv.
Qed.

Lemma avoids_sub context names names' :
  avoids context names = true ->
  (forall n, In n names' -> In n names) ->
  avoids context names' = true.
Proof.
  unfold avoids. rewrite !forallb_forall. intros H S n Hn. apply H, S, Hn.
Qed.

(** A constructed [SessionError] or [ValidationError] keeps a [_code]. *)
Lemma selectable_code cls now message context cause cd i :
  selectable_init cls now message context cause cd = Return i ->
  avoids context ["__dict__"] = true ->
  exists c, get_code_attr i = Return c.
Proof.
  unfold selectable_init. intros H Ha.
  assert (Hv : attr_is_val i "_code" = true).
  { apply (init_keeps_val _ _ _ _ _ _ _ H Ha); reflexivity. }
  unfold attr_is_val in Hv. unfold get_code_attr.
  destruct (dict_get "_code" (inst_dict i)) as [[v| |]|]; try discriminate.
  exists v. reflexivity.
Qed.

(** When the context has no key [_code] either, it is the constructor's. *)
Lemma selectable_code_given cls now message context cause cd i :
  selectable_init cls now message context cause cd = Return i ->
  avoids context ["__dict__"; "_code"] = true ->
  get_code_attr i =
  Return (if is_None cd then VEnum (default_code cls) else cd).
Proof.
  unfold selectable_init. intros H Ha.
  apply (init_other _ _ _ _ _ _ "_code") in H as (c & _ & Hg); [|exact Ha].
  unfold get_code_attr. rewrite Hg. reflexivity.
Qed.

Lemma constructed_unshadowed self0 now message context cause i name :
  PipelineError_init self0 now message context cause = Return i ->
  avoids context ["__dict__"; name] = true ->
  String.eqb name "timestamp" = false ->
  String.eqb name "context" = false ->
  dict_has name (inst_dict self0) = false ->
  dict_has name (inst_dict i) = false.
Proof.
  intros H Ha Ht Hx H0.
  apply (init_other _ _ _ _ _ _ name) in H as (c & _ & Hg); [|exact Ha].
  unfold dict_has in *. rewrite Hg, !dict_get_set, Hx, Ht. exact H0.
Qed.

Ltac avoid_fewer Ha :=
  apply (avoids_sub _ _ _ Ha); simpl; intuition.

(** ** The code rules of the classifier *)

Lemma member_eq_modelled c e :
  is_other c = false -> member_eq c e = Return (py_eq c (VEnum e)).
Proof. destruct c; try reflexivity; discriminate. Qed.

Lemma call_method_unshadowed {A : Type} self name (body : Instance -> result A) :
  dict_has name (inst_dict self) = false -> call_method self name body = body self.
Proof.
  unfold dict_has, call_method.
  destruct (dict_get name (inst_dict self)); [discriminate | reflexivity].
Qed.

(** The code rules on errors whose context shadows nothing.  For a
    [SessionError] built by its constructor from a context without the keys
    [__dict__], [__class__], [is_load_error] and [is_save_error], the
    classifier (with [continue_on_error] false) answers as
    [is_load_error() or is_save_error()] does, which compare the error's
    code with [SESSION_LOAD_FAILED] and [SESSION_SAVE_FAILED].  For a
    [ValidationError] built from a context without the keys [__dict__] and
    [__class__] it compares the code with [VALIDATION_NESTED_EXECUTION].
    When the context has no key [_code] either, the code is the one given
    to the constructor, or the class default. *)
Theorem is_fatal_error_code_rules :
  forall now message context cause cd i,
    (new_SessionError now message context cause cd = Return i ->
     avoids context ["__dict__"; "__class__"; "is_load_error"; "is_save_error"]
       = true ->
     exists c,
       code i = Return c
       /\ is_load_error i = member_eq c SESSION_LOAD_FAILED
       /\ is_save_error i = member_eq c SESSION_SAVE_FAILED
       /\ is_fatal_error (OExc (PipeExc i)) false =
          (l <- member_eq c SESSION_LOAD_FAILED ;;
           if l then Return true else member_eq c SESSION_SAVE_FAILED)
       /\ (avoids context ["_code"] = true ->
           c = if is_None cd then VEnum SESSION_LOAD_FAILED else cd))
    /\ (new_ValidationError now message context cause cd = Return i ->
        avoids context ["__dict__"; "__class__"] = true ->
        exists c,
          code i = Return c
          /\ is_fatal_error (OExc (PipeExc i)) false =
             member_eq c VALIDATION_NESTED_EXECUTION
          /\ (avoids context ["_code"] = true ->
              c = if is_None cd then VEnum VALIDATION_INVALID_INPUT else cd)).
Proof.
  intros now message context cause cd i. split; intros H Ha.
  - assert (Hd : avoids context ["__dict__"] = true) by avoid_fewer Ha.
    assert (Hk : avoids context ["__class__"] = true) by avoid_fewer Ha.
    destruct (selectable_code _ _ _ _ _ _ _ H Hd) as [c Hg].
    pose proof (init_class _ _ _ _ _ _ H Hk) as Hc. simpl in Hc.
    assert (Hl : dict_has "is_load_error" (inst_dict i) = false).
    { apply (constructed_unshadowed _ _ _ _ _ _ _ H); try reflexivity.
      avoid_fewer Ha. }
    assert (Hs : dict_has "is_save_error" (inst_dict i) = false).
    { apply (constructed_unshadowed _ _ _ _ _ _ _ H); try reflexivity.
      avoid_fewer Ha. }
    exists c. unfold code, is_load_error, is_save_error. rewrite Hc, Hg.
    repeat split.
    + destruct i as [cls a d cs]. simpl in Hc. subst cls.
      unfold is_fatal_error. simpl.
      rewrite !call_method_unshadowed by assumption.
      unfold is_load_error, is_save_error. rewrite Hg. simpl.
      destruct (member_eq c SESSION_LOAD_FAILED) as [[|]| |]; reflexivity.
    + intros Hn.
      assert (Hdk : avoids context ["__dict__"; "_code"] = true).
      { unfold avoids in *. simpl in *.
        apply andb_prop in Hd as [-> _]. apply andb_prop in Hn as [-> _].
        reflexivity. }
      pose proof (selectable_code_given _ _ _ _ _ _ _ H Hdk) as Hg'.
      rewrite Hg in Hg'. injection Hg' as ->. reflexivity.
  - assert (Hd : avoids context ["__dict__"] = true) by avoid_fewer Ha.
    assert (Hk : avoids context ["__class__"] = true) by avoid_fewer Ha.
    destruct (selectable_code _ _ _ _ _ _ _ H Hd) as [c Hg].
    pose proof (init_class _ _ _ _ _ _ H Hk) as Hc. simpl in Hc.
    exists c. unfold code. rewrite Hc. repeat split; [exact Hg | |].
    + destruct i as [cls a d cs]. simpl in Hc. subst cls.
      unfold is_fatal_error, code. simpl. simpl in Hg. rewrite Hg. reflexivity.
    + intros Hn.
      assert (Hdk : avoids context ["__dict__"; "_code"] = true).
      { unfold avoids in *. simpl in *.
        apply andb_prop in Hd as [-> _]. apply andb_prop in Hn as [-> _].
        reflexivity. }
      pose proof (selectable_code_given _ _ _ _ _ _ _ H Hdk) as Hg'.
      rewrite Hg in Hg'. injection Hg' as ->. reflexivity.
Qed.

(** [SessionError("x", code="SESSION_NOT_FOUND")] is built from an empty
    context and is not fatal. *)
Lemma is_fatal_error_code_rules_witness :
  new_SessionError epoch "x" (OVal VNone) None (VStr "SESSION_NOT_FOUND")
    = Return session_not_found
  /\ avoids (OVal VNone)
       ["__dict__"; "__class__"; "is_load_error"; "is_save_error"] = true
  /\ exists c,
       code session_not_found = Return c
       /\ is_load_error session_not_found = member_eq c SESSION_LOAD_FAILED
       /\ is_save_error session_not_found = member_eq c SESSION_SAVE_FAILED
       /\ is_fatal_error (OExc (PipeExc session_not_found)) false =
          (l <- member_eq c SESSION_LOAD_FAILED ;;
           if l then Return true else member_eq c SESSION_SAVE_FAILED)
       /\ (avoids (OVal VNone) ["_code"] = true ->
           c = if is_None (VStr "SESSION_NOT_FOUND")
               then VEnum SESSION_LOAD_FAILED else VStr "SESSION_NOT_FOUND").
Proof.
  split; [reflexivity|]. split; [reflexivity|].
  apply (proj1 (is_fatal_error_code_rules epoch "x" (OVal VNone) None
                  (VStr "SESSION_NOT_FOUND") session_not_found));
    reflexivity.
Defined.

(** The rule for [SessionError] does not hold of every constructed
    instance. *)
Lemma is_fatal_error_code_rules_not_universal :
  ~ (forall now message context cause cd i,
       new_SessionError now message context cause cd = Return i ->
       exists c,
         code i = Return c
         /\ is_fatal_error (OExc (PipeExc i)) false =
            Return (py_eq c (VEnum SESSION_LOAD_FAILED)
                    || py_eq c (VEnum SESSION_SAVE_FAILED))).
Proof.
  intros H.
  destruct (H epoch "x" (OCtx (metadata_only [("is_load_error", VInt 1)]))
              None VNone session_shadowed_load eq_refl) as (c & _ & Hf).
  discriminate Hf.
Qed.

(** C3 at [SessionError("x", ErrorContext(metadata={"is_load_error": 1}))]:
    the constructor returns, the error's code is [SESSION_LOAD_FAILED], so
    the claim expects [True]; the copied attribute shadows the method and
    the classifier raises [TypeError]. *)
Theorem session_shadowed_load_raises :
  new_SessionError epoch "x"
    (OCtx (metadata_only [("is_load_error", VInt 1)])) None VNone
    = Return session_shadowed_load
  /\ code session_shadowed_load = Return (VEnum SESSION_LOAD_FAILED)
  /\ is_fatal_error (OExc (PipeExc session_shadowed_load)) false
     = Raise TypeError.
Proof. repeat split. Qed.

(** ** The non-fatal inputs and totality of the classifier *)

(** Whatever is no instance of the hierarchy is not fatal: [None], plain
    values, context objects, exceptions of other types. *)
Lemma is_fatal_error_outside_hierarchy (x : PyObj) :
  is_pipeline_error x = false -> is_fatal_error x false = Return false.
Proof.
  destruct x as [v|c|[n t|i]]; simpl; try discriminate; intros _.
  - destruct v; reflexivity.
  - reflexivity.
  - reflexivity.
Qed.

Lemma is_fatal_error_outside_hierarchy_witness :
  is_pipeline_error (OVal (VStr "plain string")) = false
  /\ is_fatal_error (OVal (VStr "plain string")) false = Return false.
Proof.
  split; [reflexivity|].
  apply (is_fatal_error_outside_hierarchy (OVal (VStr "plain string"))).
  reflexivity.
Defined.

(** Every [TaskError] is non-fatal, whatever its attributes. *)
Lemma is_fatal_error_TaskError args attrs cause coe :
  is_fatal_error (OExc (PipeExc (mkInstance TaskError args attrs cause))) coe
  = Return false.
Proof. destruct coe; reflexivity. Qed.

(** On an error built by a constructor, with a code of the modelled kinds,
    from a context without the keys [__dict__], [__class__], [_code],
    [is_load_error] and [is_save_error] the classifier returns. *)
Lemma is_fatal_error_returns cls now message context cause cd i coe :
  new_error cls now message context cause cd = Return i ->
  avoids context
    ["__dict__"; "__class__"; "_code"; "is_load_error"; "is_save_error"]
    = true ->
  is_other cd = false ->
  exists b, is_fatal_error (OExc (PipeExc i)) coe = Return b.
Proof.
  intros H Ha Ho. destruct coe; [exists false; reflexivity|].
  assert (Hk : avoids context ["__class__"] = true) by avoid_fewer Ha.
  assert (Hn : avoids context ["_code"] = true) by avoid_fewer Ha.
  assert (Hcd : forall e : ErrorCode,
            is_other (if is_None cd then VEnum e else cd) = false).
  { intros e. destruct cd; try reflexivity; discriminate. }
  destruct cls; simpl in H.
  - apply init_class in H; [|exact Hk].
    destruct i as [k a d cs]; simpl in H; subst k. exists false; reflexivity.
  - assert (Ha3 : avoids context
                    ["__dict__"; "__class__"; "is_load_error"; "is_save_error"]
                  = true) by avoid_fewer Ha.
    destruct (proj1 (is_fatal_error_code_rules _ _ _ _ _ _) H Ha3)
      as (c & _ & _ & _ & Hf & Hc).
    rewrite Hf, (Hc Hn), !member_eq_modelled by apply Hcd. simpl.
    destruct (py_eq _ _); eexists; reflexivity.
  - apply init_class in H; [|exact Hk].
    destruct i as [k a d cs]; simpl in H; subst k. exists false; reflexivity.
  - assert (Hd : avoids context ["__dict__"; "__class__"] = true)
      by avoid_fewer Ha.
    destruct (proj2 (is_fatal_error_code_rules _ _ _ _ _ _) H Hd)
      as (c & _ & Hf & Hc).
    rewrite Hf, (Hc Hn), member_eq_modelled by apply Hcd.
    eexists; reflexivity.
  - apply init_class in H; [|exact Hk].
    destruct i as [k a d cs]; simpl in H; subst k. exists true; reflexivity.
  - apply init_class in H; [|exact Hk].
    destruct i as [k a d cs]; simpl in H; subst k. exists true; reflexivity.
Qed.

Lemma is_fatal_error_returns_witness :
  new_error TaskError epoch "x" (OVal VNone) None VNone = Return task_plain
  /\ avoids (OVal VNone)
       ["__dict__"; "__class__"; "_code"; "is_load_error"; "is_save_error"]
     = true
  /\ is_other VNone = false
  /\ exists b, is_fatal_error (OExc (PipeExc task_plain)) false = Return b.
Proof.
  split; [reflexivity|]. split; [reflexivity|]. split; [reflexivity|].
  apply (is_fatal_error_returns TaskError epoch "x" (OVal VNone) None VNone);
    reflexivity.
Defined.

(** C4 at [SessionError("x", ErrorContext(metadata={"is_save_error": 1}),
    code="SESSION_NOT_FOUND")]: the constructor returns a [SessionError]
    that is neither a load nor a save error, so the claim expects [False];
    [is_load_error()] answers [False], the copied attribute shadows
    [is_save_error], and the classifier raises [TypeError]. *)
Theorem session_shadowed_save_raises :
  new_SessionError epoch "x"
    (OCtx (metadata_only [("is_save_error", VInt 1)])) None
    (VStr "SESSION_NOT_FOUND")
    = Return session_shadowed_save
  /\ code session_shadowed_save = Return (VStr "SESSION_NOT_FOUND")
  /\ call_method session_shadowed_save "is_load_error" is_load_error
     = Return false
  /\ is_fatal_error (OExc (PipeExc session_shadowed_save)) false
     = Raise TypeError.
Proof. repeat split. Qed.

(** ** The [context] argument of the constructors *)

Lemma new_error_init cls now message context cause cd :
  exists self0,
    inst_class self0 = cls
    /\ inst_cause self0 = None
    /\ (forall n, String.eqb n "_code" = false ->
                  dict_get n (inst_dict self0) = None)
    /\ (selectable cls = true ->
        inst_dict self0 =
        [("_code",
          AVal (if is_None cd then VEnum (default_code cls) else cd))])
    /\ new_error cls now message context cause cd =
       PipelineError_init self0 now message context cause.
Proof.
  destruct cls; simpl; eexists;
    (split; [|split; [|split; [|split; [|reflexivity]]]]);
    try reflexivity; try discriminate;
    intros n Hn; simpl; rewrite ?Hn; reflexivity.
Qed.

Lemma normalize_rejects context :
  context_typed context = true ->
  context_accepted context = false ->
  normalize_context context = Raise TypeError.
Proof.
  unfold context_typed.
  destruct context as [v|c|e]; simpl; try discriminate; try reflexivity.
  destruct v; try discriminate; try reflexivity.
  unfold ErrorContext_of_kwargs. intros _ ->. reflexivity.
Qed.

Lemma bind_fields_no_raise kwargs : forall c e,
  bind_fields kwargs c <> Raise e.
Proof.
  induction kwargs as [|[k v] kwargs IH]; simpl; intros c e.
  - discriminate.
  - repeat match goal with
      | |- context [if ?b then _ else _] => destruct b
      end; try apply IH.
    destruct v; try discriminate; apply IH.
Qed.

Lemma normalize_accepts context :
  context_accepted context = true ->
  forall e, normalize_context context <> Raise e.
Proof.
  destruct context as [v|c|e0]; simpl; try discriminate; intros H e.
  destruct v; try discriminate.
  unfold ErrorContext_of_kwargs. rewrite H. apply bind_fields_no_raise.
Qed.

(** A rejected context makes every constructor raise [TypeError]: a
    dictionary with a key that is no field, or an object of the modelled
    kinds that is neither an [ErrorContext], a dictionary nor [None]. *)
Lemma rejected_context_raises cls now message context cause cd :
  context_typed context = true ->
  context_accepted context = false ->
  new_error cls now message context cause cd = Raise TypeError.
Proof.
  intros Ht H. destruct (new_error_init cls now message context cause cd)
    as (self0 & _ & _ & _ & _ & ->).
  unfold PipelineError_init. rewrite (normalize_rejects _ Ht H). reflexivity.
Qed.

Lemma rejected_context_raises_witness :
  context_typed (OVal (VDict [("bogus", VInt 1)])) = true
  /\ context_accepted (OVal (VDict [("bogus", VInt 1)])) = false
  /\ new_error TaskError epoch "x" (OVal (VDict [("bogus", VInt 1)])) None VNone
     = Raise TypeError.
Proof.
  split; [reflexivity|]. split; [reflexivity|].
  apply (rejected_context_raises TaskError epoch "x"
           (OVal (VDict [("bogus", VInt 1)])) None VNone);
  reflexivity.
Defined.

(** An absent context gives the empty [ErrorContext]. *)
Lemma absent_context_default cls now message cause cd :
  exists i,
    new_error cls now message (OVal VNone) cause cd = Return i
    /\ dict_get "context" (inst_dict i) = Some (ACtx ErrorContext_default).
Proof.
  destruct cls, cause; simpl; eexists; split; reflexivity.
Qed.

Lemma setattr_no_TypeError self key value :
  existsb (String.eqb key) checked_slots = false ->
  setattr self key value <> Raise TypeError
  /\ setattr self key value <> Untyped.
Proof.
  unfold checked_slots, setattr. simpl. intros H.
  repeat match type of H with
    | (?b || _)%bool = false => apply orb_false_elim in H as [? H]
    end.
  repeat match goal with
    | E : String.eqb key _ = false |- _ => rewrite E; clear E
    end.
  repeat match goal with
    | |- context [if ?b then _ else _] => destruct b
    end; split; discriminate.
Qed.

Lemma setattr_all_no_TypeError items : forall self,
  forallb (fun n => negb (dict_has n items)) checked_slots = true ->
  setattr_all self items <> Raise TypeError
  /\ setattr_all self items <> Untyped.
Proof.
  induction items as [|[k v] items IH]; intros self H; simpl.
  - split; discriminate.
  - assert (Hk : existsb (String.eqb k) checked_slots = false).
    { apply not_true_iff_false. intros Hk.
      apply existsb_exists in Hk as (n & Hn & E).
      apply String.eqb_eq in E. subst n.
      rewrite forallb_forall in H. specialize (H _ Hn).
      unfold dict_has in H. simpl in H. rewrite String.eqb_refl in H.
      discriminate. }
    assert (Hi : forallb (fun n => negb (dict_has n items)) checked_slots
                 = true).
    { rewrite forallb_forall in *. intros n Hn. specialize (H _ Hn).
      apply negb_true_iff in H. apply dict_has_cons in H as [_ ->].
      reflexivity. }
    destruct (setattr_no_TypeError self k v Hk) as [H1 H2].
    destruct (setattr self k v) as [s1|e|]; simpl.
    + apply IH, Hi.
    + split; [|discriminate]. destruct e; try contradiction; discriminate.
    + contradiction.
Qed.

(** The rule of the [context] argument on contexts that touch no checked
    slot: for a context that binds [metadata] to a dictionary and has none
    of the keys in [checked_slots], a constructor raises [TypeError] exactly
    when the context is rejected. *)
Lemma context_TypeError_iff cls now message context cause cd :
  context_typed context = true ->
  avoids context checked_slots = true ->
  new_error cls now message context cause cd = Raise TypeError
  <-> context_accepted context = false.
Proof.
  intros Ht Ha. split.
  - intros H. destruct (context_accepted context) eqn:E; [|reflexivity].
    exfalso.
    destruct (new_error_init cls now message context cause cd)
      as (self0 & _ & _ & _ & _ & Hn).
    rewrite Hn in H. unfold PipelineError_init in H.
    unfold context_typed in Ht. unfold avoids, context_items in Ha.
    pose proof (normalize_accepts _ E) as Hr.
    destruct (normalize_context context) as [c| |];
      [|exfalso; eapply Hr; reflexivity | discriminate].
    simpl in H.
    match type of H with
    | context [setattr_all ?s ?l] =>
        destruct (setattr_all_no_TypeError l s Ha) as [H1 H2];
        destruct (setattr_all s l) as [s1|e|]
    end; simpl in H; try discriminate; congruence.
  - apply rejected_context_raises, Ht.
Qed.

Lemma context_TypeError_iff_witness :
  context_typed (OVal (VInt 5)) = true
  /\ avoids (OVal (VInt 5)) checked_slots = true
  /\ (new_error TaskError epoch "x" (OVal (VInt 5)) None VNone
        = Raise TypeError
      <-> context_accepted (OVal (VInt 5)) = false).
Proof.
  split; [reflexivity|]. split; [reflexivity|].
  apply (context_TypeError_iff TaskError epoch "x" (OVal (VInt 5)) None VNone);
    reflexivity.
Defined.

(** C9 at [TaskError("x", ErrorContext(metadata={"__cause__": 1}))]: the
    argument is an [ErrorContext] instance, so the claim expects no
    [TypeError]; copying the key [__cause__] onto the exception runs the
    setter of [BaseException.__cause__], which raises [TypeError]. *)
Theorem context_instance_raises_TypeError :
  context_accepted (OCtx (metadata_only [("__cause__", VInt 1)])) = true
  /\ context_typed (OCtx (metadata_only [("__cause__", VInt 1)])) = true
  /\ task_cause_in_metadata = Raise TypeError.
Proof. repeat split. Qed.

Lemma unique_keys_NoDup (d : pydict) :
  NoDup (dict_keys d) -> unique_keys d = true.
Proof.
  induction d as [|[k v] d IH]; simpl; [reflexivity|].
  intros H. inversion H as [|? ? Hk Hd]; subst.
  rewrite (IH Hd), andb_true_r. apply negb_true_iff.
  destruct (dict_has k d) eqn:E; [|reflexivity].
  apply dict_has_In in E. contradiction.
Qed.

(** ** The instance dictionary of a constructed error *)

Lemma setattr_plain self key value :
  is_descriptor key = false ->
  setattr self key value = Return (store self key (AVal value)).
Proof.
  unfold is_descriptor, descriptor_names, checked_slots, setattr. simpl.
  intros H.
  repeat match type of H with
    | (?b || _)%bool = false => apply orb_false_elim in H as [? H]
    end.
  repeat match goal with
    | E : String.eqb key _ = false |- _ => rewrite E; clear E
    end.
  reflexivity.
Qed.

Lemma setattr_all_lookup items : forall self self' name,
  unique_keys items = true ->
  dict_has "__dict__" items = false ->
  setattr_all self items = Return self' ->
  is_descriptor name = false ->
  dict_get name (inst_dict self') =
  match dict_get name items with
  | Some v => Some (AVal v)
  | None => dict_get name (inst_dict self)
  end.
Proof.
  induction items as [|[k v] items IH]; simpl; intros self self' name Hu Hd H Hn.
  - injection H as <-. reflexivity.
  - apply andb_prop in Hu as [Hk Hu]. apply negb_true_iff in Hk.
    apply dict_has_cons in Hd as [Hd1 Hd2].
    destruct (setattr self k v) as [s1| |] eqn:E; try discriminate.
    simpl in H. rewrite (IH _ _ _ Hu Hd2 H Hn).
    destruct (String.eqb name k) eqn:Ek.
    + apply String.eqb_eq in Ek. subst k.
      unfold dict_has in Hk. destruct (dict_get name items); [discriminate|].
      rewrite (setattr_plain _ _ _ Hn) in E. injection E as <-.
      simpl. rewrite dict_get_set, String.eqb_refl. reflexivity.
    + destruct (dict_get name items); [reflexivity|].
      apply (setattr_other _ _ _ _ _ (eq_trans (String.eqb_sym _ _) Hd1) Ek E).
Qed.

Lemma new_error_start cls now message context cause cd :
  new_error cls now message context cause cd =
  PipelineError_init (start_object cls cd) now message context cause.
Proof. destruct cls; reflexivity. Qed.

(** What the instance dictionary of a constructed error holds under a name
    that is no data descriptor. *)
Lemma constructed_dict_lookup cls now message context cause cd i name :
  new_error cls now message context cause cd = Return i ->
  avoids context ["__dict__"] = true ->
  is_descriptor name = false ->
  exists cx,
    normalize_context context = Return cx
    /\ dict_get name (inst_dict i) =
       match dict_get name (context_items context) with
       | Some v => Some (AVal v)
       | None => own_attribute cls now cx cd name
       end.
Proof.
  intros H Ha Hn.
  rewrite new_error_start in H.
  apply init_dict in H as (cx & s1 & Hcx & Hi & Hs & Hd).
  unfold avoids in Ha. simpl in Ha. rewrite Hi in Ha.
  apply andb_prop in Ha as [Ha _]. apply negb_true_iff in Ha.
  exists cx. split; [exact Hcx|]. rewrite Hd, Hi.
  rewrite (setattr_all_lookup _ _ _ name
             (unique_keys_NoDup _ (ErrorContext_to_dict_NoDup cx)) Ha Hs Hn).
  destruct (dict_get name (ErrorContext_to_dict cx)); [reflexivity|].
  simpl. rewrite !dict_get_set. unfold own_attribute.
  destruct (String.eqb name "context"); [reflexivity|].
  destruct (String.eqb name "timestamp"); [reflexivity|].
  destruct cls; simpl; destruct (String.eqb name "_code"); reflexivity.
Qed.

(** ** Serialisation of constructed errors *)

Lemma dict_get_In {V : Type} k (v : V) d :
  dict_get k d = Some v -> In (k, v) d.
Proof.
  induction d as [|[k0 v0] d IH]; simpl; [discriminate|].
  destruct (String.eqb k k0) eqn:E.
  - apply String.eqb_eq in E. subst k0. intros [= ->]. left. reflexivity.
  - intros H. right. apply IH, H.
Qed.

Lemma setattr_cause self key value self' :
  String.eqb key "__cause__" = false ->
  setattr self key value = Return self' -> inst_cause self' = inst_cause self.
Proof.
  intros Hk. unfold setattr. rewrite Hk. setattr_cases value; reflexivity.
Qed.

Lemma setattr_all_cause items : forall self self',
  dict_has "__cause__" items = false ->
  setattr_all self items = Return self' -> inst_cause self' = inst_cause self.
Proof.
  induction items as [|[k v] items IH]; simpl; intros self self' Hc.
  - intros [= <-]. reflexivity.
  - apply dict_has_cons in Hc as [Hc1 Hc2].
    destruct (setattr self k v) as [s1| |] eqn:E; try discriminate. simpl.
    intros H. rewrite (IH _ _ Hc2 H).
    apply (setattr_cause _ _ _ _ (eq_trans (String.eqb_sym _ _) Hc1) E).
Qed.

Lemma setattr_args self key value self' :
  String.eqb key "args" = false ->
  setattr self key value = Return self' -> inst_args self' = inst_args self.
Proof.
  intros Ha. unfold setattr. rewrite Ha. setattr_cases value; reflexivity.
Qed.

Lemma setattr_all_args items : forall self self',
  dict_has "args" items = false ->
  setattr_all self items = Return self' -> inst_args self' = inst_args self.
Proof.
  induction items as [|[k v] items IH]; simpl; intros self self' Ha.
  - intros [= <-]. reflexivity.
  - apply dict_has_cons in Ha as [Ha1 Ha2].
    destruct (setattr self k v) as [s1| |] eqn:E; try discriminate. simpl.
    intros H. rewrite (IH _ _ Ha2 H).
    apply (setattr_args _ _ _ _ (eq_trans (String.eqb_sym _ _) Ha1) E).
Qed.

(** The cause of a constructed error is the one given when no context key
    is [__cause__]. *)
Lemma constructed_cause cls now message context cause cd i :
  new_error cls now message context cause cd = Return i ->
  avoids context ["__cause__"] = true ->
  inst_cause i = cause.
Proof.
  destruct (new_error_init cls now message context cause cd)
    as (self0 & _ & Hc0 & _ & _ & ->).
  intros H Ha. apply init_inv in H as (c & s1 & Hc & Hs & ->).
  destruct cause; [reflexivity|].
  unfold avoids, context_items in Ha. rewrite Hc in Ha. simpl in Ha.
  apply andb_prop in Ha as [Ha _]. apply negb_true_iff in Ha.
  rewrite (setattr_all_cause _ _ _ Ha Hs). exact Hc0.
Qed.

(** Its message is the one given when no context key is [args]. *)
Lemma constructed_args cls now message context cause cd i :
  new_error cls now message context cause cd = Return i ->
  avoids context ["args"] = true ->
  inst_args i = [VStr message].
Proof.
  destruct (new_error_init cls now message context cause cd)
    as (self0 & _ & _ & _ & _ & ->).
  intros H Ha. apply init_inv in H as (c & s1 & Hc & Hs & ->).
  unfold avoids, context_items in Ha. rewrite Hc in Ha. simpl in Ha.
  apply andb_prop in Ha as [Ha _]. apply negb_true_iff in Ha.
  assert (inst_args s1 = [VStr message])
    by (rewrite (setattr_all_args _ _ _ Ha Hs); reflexivity).
  destruct cause; assumption.
Qed.

(** Its class is the constructor's when no context key is [__class__]. *)
Lemma constructed_class cls now message context cause cd i :
  new_error cls now message context cause cd = Return i ->
  avoids context ["__class__"] = true ->
  inst_class i = cls.
Proof.
  destruct (new_error_init cls now message context cause cd)
    as (self0 & <- & _ & _ & _ & ->).
  apply init_class.
Qed.

Lemma render_items_In l x :
  renders (VList l) = true -> In x l -> renders x = true.
Proof.
  unfold renders. induction l as [|y l IH]; simpl; [tauto|].
  destruct (render_outcome y) as [[]| |] eqn:E; simpl; try discriminate.
  intros H [<-|Hin]; [rewrite E; reflexivity | apply IH; assumption].
Qed.

Lemma render_dict_In d k v :
  renders (VDict d) = true -> In (k, v) d -> renders v = true.
Proof.
  unfold renders. induction d as [|[k0 y] d IH]; simpl; [tauto|].
  destruct (render_outcome y) as [[]| |] eqn:E; simpl; try discriminate.
  intros H [[= <- <-]|Hin]; [rewrite E; reflexivity | apply IH; assumption].
Qed.

Lemma format_value_renders rt v :
  renders v = true -> format_value rt v = Return (format_text rt v).
Proof.
  unfold renders, format_value.
  destruct (render_outcome v) as [[]| |]; try discriminate. reflexivity.
Qed.

(** The code of an error of a subclass can be read when no context key is
    [__dict__] or [__class__]; it is a member of [ErrorCode], the [code]
    argument or a value of the context. *)
Lemma constructed_code cls now message context cause cd i :
  new_error cls now message context cause cd = Return i ->
  concrete cls = true ->
  avoids context ["__dict__"; "__class__"] = true ->
  exists c,
    code i = Return c
    /\ ((exists e, c = VEnum e) \/ c = cd
        \/ exists k, In (k, c) (context_items context)).
Proof.
  intros H Hcc Ha.
  assert (Hd : avoids context ["__dict__"] = true) by avoid_fewer Ha.
  assert (Hk : avoids context ["__class__"] = true) by avoid_fewer Ha.
  pose proof (constructed_class _ _ _ _ _ _ _ H Hk) as Hc.
  destruct (constructed_dict_lookup _ _ _ _ _ _ _ "_code" H Hd eq_refl)
    as (cx & _ & Hg).
  unfold code, get_code_attr. rewrite Hc.
  destruct cls; try discriminate Hcc;
    try (eexists; split; [reflexivity | left; eexists; reflexivity]);
    rewrite Hg;
    (destruct (dict_get "_code" (context_items context)) as [v|] eqn:Ev;
     [ exists v; split; [reflexivity|]; right; right; exists "_code";
       apply (dict_get_In _ _ _ Ev)
     | eexists; split; [reflexivity|];
       destruct cd; simpl;
       first [ left; eexists; reflexivity | right; left; reflexivity ] ]).
Qed.

Lemma code_renders context cd c :
  (exists e, c = VEnum e) \/ c = cd
  \/ (exists k, In (k, c) (context_items context)) ->
  renders cd = true ->
  renders (VDict (context_items context)) = true ->
  renders c = true.
Proof.
  intros [[e ->]|[->|[k Hin]]] Hr Hx;
    [reflexivity | exact Hr | apply (render_dict_In _ _ _ Hx Hin)].
Qed.

(** [to_dict()] on an error built by a constructor from a context without
    the checked slots and the keys [timestamp], [context] and [to_dict],
    with a cause whose [str()] returns and a code and context that
    render. *)
Lemma to_dict_constructed rt cls now message context cause cd i c :
  new_error cls now message context cause cd = Return i ->
  avoids context (app checked_slots ["timestamp"; "context"; "to_dict"])
    = true ->
  cause_renders rt cause = true ->
  code i = Return c ->
  renders c = true ->
  renders (VDict (context_items context)) = true ->
  exists cx text,
    normalize_context context = Return cx
    /\ PipelineError_str rt i = Return text
    /\ text =
       join " | "
         (("[" ++ format_text rt c ++ "] " ++ message)%string
          :: if nonempty (ErrorContext_to_dict cx)
             then [("Context: "
                    ++ format_text rt (VDict (ErrorContext_to_dict cx)))%string]
             else [])
    /\ to_dict rt i =
       Return
         (app
            [ ("name", VStr (class_name cls));
              ("code", c);
              ("message", VStr text);
              ("timestamp", VStr (isoformat rt now)) ]
            (optional_entries rt cx cause)).
Proof.
  intros H Ha Hr Hc Hrc Hrx.
  assert (Hk : avoids context ["__class__"] = true) by avoid_fewer Ha.
  assert (Hcs : avoids context ["__cause__"] = true) by avoid_fewer Ha.
  assert (Hag : avoids context ["args"] = true) by avoid_fewer Ha.
  pose proof (constructed_class _ _ _ _ _ _ _ H Hk) as Hcls.
  pose proof (constructed_cause _ _ _ _ _ _ _ H Hcs) as Hcause.
  pose proof (constructed_args _ _ _ _ _ _ _ H Hag) as Hargs.
  destruct (new_error_init cls now message context cause cd)
    as (self0 & _ & _ & H0 & _ & Hn).
  rewrite Hn in H.
  assert (Ht : avoids context ["__dict__"; "timestamp"] = true)
    by avoid_fewer Ha.
  assert (Hx : avoids context ["__dict__"; "context"] = true)
    by avoid_fewer Ha.
  assert (Hm : avoids context ["__dict__"; "to_dict"] = true)
    by avoid_fewer Ha.
  destruct (init_other _ _ _ _ _ _ "timestamp" H Ht) as (cx & Hcx & Gt).
  destruct (init_other _ _ _ _ _ _ "context" H Hx) as (cx' & Hcx' & Gx).
  rewrite Hcx in Hcx'. injection Hcx' as <-.
  assert (Gm : dict_has "to_dict" (inst_dict i) = false).
  { apply (constructed_unshadowed _ _ _ _ _ _ _ H Hm); try reflexivity.
    unfold dict_has. rewrite H0; reflexivity. }
  rewrite !dict_get_set in Gt, Gx. simpl in Gt, Gx.
  unfold context_items in Hrx. rewrite Hcx in Hrx.
  assert (Hs : PipelineError_str rt i =
               Return
                 (join " | "
                    (("[" ++ format_text rt c ++ "] " ++ message)%string
                     :: if nonempty (ErrorContext_to_dict cx)
                        then [("Context: "
                               ++ format_text rt
                                    (VDict (ErrorContext_to_dict cx)))%string]
                        else []))).
  { unfold PipelineError_str, Exception_str, context_to_dict.
    rewrite Hc, Gx, Hargs. simpl.
    rewrite (format_value_renders rt c Hrc). simpl.
    destruct (nonempty (ErrorContext_to_dict cx)); [|reflexivity].
    rewrite (format_value_renders rt _ Hrx). reflexivity. }
  exists cx. eexists. split; [exact Hcx|]. split; [exact Hs|].
  split; [reflexivity|].
  unfold to_dict. rewrite (call_method_unshadowed _ _ _ Gm).
  unfold PipelineError_to_dict, timestamp_isoformat, context_to_dict.
  rewrite Hc, Hs, Gt, Gx, Hcause, Hcls. simpl.
  unfold optional_entries.
  destruct (nonempty (ErrorContext_to_dict cx)); simpl;
    destruct cause as [e|]; simpl; try reflexivity;
    simpl in Hr; destruct (exc_str rt e); try discriminate; reflexivity.
Qed.

(** ** The code entry of [to_dict()] *)




(** ** The shape of [to_dict()] *)

(** On an error built by the constructor of a subclass from a context
    without the checked slots ([__dict__], [args], [__traceback__],
    [__context__], [__cause__], [__suppress_context__], [__class__]) and
    the keys [timestamp], [context] and [to_dict], with a cause whose
    [str()] returns and with a [code] argument and context values that
    render: the keys of [to_dict()] are [name], [code], [message],
    [timestamp], then [context] exactly when the context's [to_dict()] is
    not empty, then [cause] exactly when a cause was given; [name] is the
    class name, [message] the string form ["[code] message"] with
    [" | Context: ..."] appended for a non-empty context, and the cause
    entry has the two keys [name] and [message] of the cause itself. *)
Lemma to_dict_shape rt cls now message context cause cd i :
  new_error cls now message context cause cd = Return i ->
  concrete cls = true ->
  avoids context (app checked_slots ["timestamp"; "context"; "to_dict"])
    = true ->
  cause_renders rt cause = true ->
  renders cd = true ->
  renders (VDict (context_items context)) = true ->
  exists d cx c text,
    to_dict rt i = Return d
    /\ normalize_context context = Return cx
    /\ code i = Return c
    /\ PipelineError_str rt i = Return text
    /\ text =
       ("[" ++ format_text rt c ++ "] " ++ message
        ++ if nonempty (ErrorContext_to_dict cx)
           then " | Context: "
                ++ format_text rt (VDict (ErrorContext_to_dict cx))
           else "")%string
    /\ dict_keys d =
       app ["name"; "code"; "message"; "timestamp"]
         (app (if nonempty (ErrorContext_to_dict cx) then ["context"] else [])
              (match cause with Some _ => ["cause"] | None => [] end))
    /\ dict_get "name" d = Some (VStr (class_name cls))
    /\ dict_get "code" d = Some c
    /\ dict_get "message" d = Some (VStr text)
    /\ dict_get "timestamp" d = Some (VStr (isoformat rt now))
    /\ (nonempty (ErrorContext_to_dict cx) = true ->
        dict_get "context" d = Some (VDict (ErrorContext_to_dict cx)))
    /\ (forall e cm, cause = Some e -> exc_str rt e = Return cm ->
        dict_get "cause" d =
        Some (VDict [("name", VStr (exc_class_name e));
                     ("message", VStr cm)])).
Proof.
  intros H Hcc Ha Hr Hrc Hrx.
  assert (Hdk : avoids context ["__dict__"; "__class__"] = true)
    by avoid_fewer Ha.
  destruct (constructed_code _ _ _ _ _ _ _ H Hcc Hdk) as (c & Hc & Hsrc).
  destruct (to_dict_constructed rt _ _ _ _ _ _ _ c H Ha Hr Hc
              (code_renders _ _ _ Hsrc Hrc Hrx) Hrx)
    as (cx & text & Hcx & Hs & Ht & Hd).
  eexists; exists cx, c, text.
  split; [exact Hd|]. split; [exact Hcx|]. split; [exact Hc|].
  split; [exact Hs|]. split.
  { rewrite Ht. destruct (nonempty (ErrorContext_to_dict cx)); simpl.
    - rewrite !append_assoc. reflexivity.
    - rewrite append_nil_r. reflexivity. }
  unfold optional_entries.
  destruct (nonempty (ErrorContext_to_dict cx)), cause as [e|]; simpl;
    repeat split; try discriminate;
    intros e' cm [= <-] He; rewrite He; reflexivity.
Qed.

(** [TaskError("x")]: the keys of [to_dict()] are the four fixed ones. *)
Lemma to_dict_shape_witness :
  new_error TaskError epoch "x" (OVal VNone) None VNone = Return task_plain
  /\ concrete TaskError = true
  /\ avoids (OVal VNone)
       (app checked_slots ["timestamp"; "context"; "to_dict"]) = true
  /\ cause_renders sample_runtime None = true
  /\ renders VNone = true
  /\ renders (VDict (context_items (OVal VNone))) = true
  /\ exists d,
       to_dict sample_runtime task_plain = Return d
       /\ dict_keys d = ["name"; "code"; "message"; "timestamp"].
Proof.
  split; [reflexivity|]. split; [reflexivity|]. split; [reflexivity|].
  split; [reflexivity|]. split; [reflexivity|]. split; [reflexivity|].
  destruct (to_dict_shape sample_runtime TaskError epoch "x" (OVal VNone)
              None VNone task_plain eq_refl eq_refl eq_refl eq_refl eq_refl
              eq_refl)
    as (d & cx & c & text & Hd & Hcx & _ & _ & _ & Hk & _).
  exists d. split; [exact Hd|].
  injection Hcx as <-. exact Hk.
Defined.

(** [ValidationError("bad", {"task_id": "T1"}, ValueError("boom"))] *)
Example to_dict_ValidationError :
  (i <- new_ValidationError epoch "bad"
          (OVal (VDict [("task_id", VStr "T1")]))
          (Some (StdExc "ValueError" "boom")) VNone ;;
   to_dict sample_runtime i)
  = Return
      [ ("name", VStr "ValidationError");
        ("code", VEnum VALIDATION_INVALID_INPUT);
        ("message",
         VStr "[ErrorCode.VALIDATION_INVALID_INPUT] bad | Context: ?");
        ("timestamp", VStr "1970-01-01T00:00:00");
        ("context", VDict [("task_id", VStr "T1")]);
        ("cause",
         VDict [("name", VStr "ValueError"); ("message", VStr "boom")]) ].
Proof. reflexivity. Qed.

(** C6 at [TaskError("x", ErrorContext(metadata={"timestamp": "now"}))]: the
    constructor returns an error, so the claim expects [to_dict()] to return
    a mapping with the keys [name], [code], [message], [timestamp] and
    [context]; the copied attribute has replaced the timestamp by a string,
    [self.timestamp.isoformat()] fails, and [to_dict()] raises
    [AttributeError], whatever the runtime renders. *)
Theorem task_timestamp_in_metadata_raises :
  new_TaskError epoch "x"
    (OCtx (metadata_only [("timestamp", VStr "now")])) None
    = Return task_timestamp_in_metadata
  /\ forall rt, to_dict rt task_timestamp_in_metadata = Raise AttributeError.
Proof. split; [reflexivity | intros rt; reflexivity]. Qed.

(** ** JSON: reading back what [json.dumps] writes *)

Local Open Scope nat_scope.

(** ** The text of JSON values *)

Lemma length_append (a b : string) :
  String.length (a ++ b) = String.length a + String.length b.
Proof. induction a as [|x a IH]; simpl; [reflexivity | rewrite IH; reflexivity]. Qed.

Lemma skip_ws_spaces n s : skip_ws (spaces n ++ s) = skip_ws s.
Proof. induction n as [|n IH]; simpl; [reflexivity | exact IH]. Qed.

Lemma skip_ws_newline_indent level s :
  skip_ws (newline_indent level ++ s) = skip_ws s.
Proof. unfold newline_indent. simpl. apply skip_ws_spaces. Qed.

Lemma skip_ws_head c s : is_ws c = false -> skip_ws (String c s) = String c s.
Proof. intros H. simpl. rewrite H. reflexivity. Qed.

(** Reading back one escaped character. *)
Lemma parse_string_escape_char c tail :
  parse_string (escape_char c ++ tail) = cons_char c (parse_string tail).
Proof.
  destruct c as [[] [] [] [] [] [] [] []]; reflexivity.
Qed.

Lemma parse_string_escape s rest :
  parse_string (escape s ++ String quote rest) = Some (s, rest).
Proof.
  induction s as [|c s IH]; simpl.
  - reflexivity.
  - rewrite append_assoc, parse_string_escape_char, IH. reflexivity.
Qed.

Lemma take_digits_stop rest :
  starts_digit rest = false -> take_digits rest = (Decimal.Nil, rest).
Proof.
  destruct rest as [|c r]; simpl; [reflexivity|].
  destruct (digit_of c); [discriminate | reflexivity].
Qed.

Lemma take_digits_string_of_uint d rest :
  starts_digit rest = false ->
  take_digits (DecimalString.NilEmpty.string_of_uint d ++ rest) = (d, rest).
Proof.
  intros H. induction d; simpl;
    try (rewrite IHd; reflexivity).
  apply take_digits_stop, H.
Qed.

Lemma nzhead_head d : match Decimal.nzhead d with Decimal.D0 _ => False | _ => True end.
Proof. induction d; simpl; trivial. Qed.

Lemma to_uint_head p :
  match Pos.to_uint p with
  | Decimal.Nil | Decimal.D0 _ => False
  | _ => True
  end.
Proof.
  pose proof (DecimalPos.Unsigned.to_of (Pos.to_uint p)) as H.
  rewrite DecimalPos.Unsigned.of_to in H. simpl in H.
  pose proof (DecimalPos.Unsigned.to_uint_nonzero p) as Hz.
  pose proof (nzhead_head (Pos.to_uint p)) as Hh.
  unfold Decimal.unorm in H.
  destruct (Decimal.nzhead (Pos.to_uint p)) eqn:E; rewrite H in *; trivial;
    try contradiction.
Qed.

(** The digits of a positive number, read back. *)
Lemma parse_digits_pos p (negative : bool) rest :
  delimited rest = true ->
  exists c t,
    DecimalString.NilEmpty.string_of_uint (Pos.to_uint p) = String c t
    /\ Ascii.eqb c "-" = false
    /\ parse_digits negative (String c t ++ rest)
       = Some (Z.of_int (if negative
                         then Decimal.Neg (Pos.to_uint p)
                         else Decimal.Pos (Pos.to_uint p)), rest).
Proof.
  intros Hd. unfold delimited in Hd. apply andb_prop in Hd as [H1 H2].
  apply negb_true_iff in H1, H2.
  pose proof (to_uint_head p) as Hh.
  pose proof (take_digits_string_of_uint (Pos.to_uint p) rest H1) as Ht.
  unfold parse_digits.
  destruct (Pos.to_uint p) as [|u|u|u|u|u|u|u|u|u|u] eqn:E;
    try contradiction;
    (do 2 eexists; split; [reflexivity|]); (split; [reflexivity|]);
    match type of Ht with
    | take_digits ?x = _ =>
        match goal with
        | |- context [take_digits ?y] => change y with x
        end
    end;
    rewrite Ht; simpl; rewrite H2; reflexivity.
Qed.

Lemma string_of_uint_nonnil d :
  d <> Decimal.Nil -> DecimalString.NilZero.string_of_uint d = DecimalString.NilEmpty.string_of_uint d.
Proof. destruct d; simpl; congruence. Qed.

Lemma parse_number_json_int z rest :
  delimited rest = true ->
  parse_number (json_int z ++ rest) = Some (z, rest).
Proof.
  intros Hd. unfold json_int.
  destruct z as [|p|p].
  - unfold delimited in Hd. apply andb_prop in Hd as [_ H2].
    apply negb_true_iff in H2. simpl. unfold parse_digits. simpl.
    rewrite H2. reflexivity.
  - destruct (parse_digits_pos p false rest Hd) as (c & t & E & Hm & H).
    change (Z.to_int (Zpos p)) with (Decimal.Pos (Pos.to_uint p)). simpl.
    rewrite (string_of_uint_nonnil _ (DecimalPos.Unsigned.to_uint_nonnil p)), E.
    change (String c t ++ rest) with (String c (t ++ rest)) in *.
    unfold parse_number. rewrite Hm, H. f_equal. f_equal.
    change (Z.of_int (Z.to_int (Zpos p)) = Zpos p). apply DecimalZ.of_to.
  - destruct (parse_digits_pos p true rest Hd) as (c & t & E & Hm & H).
    change (Z.to_int (Zneg p)) with (Decimal.Neg (Pos.to_uint p)). simpl.
    rewrite (string_of_uint_nonnil _ (DecimalPos.Unsigned.to_uint_nonnil p)), E.
    rewrite H. f_equal. f_equal.
    change (Z.of_int (Z.to_int (Zneg p)) = Zneg p). apply DecimalZ.of_to.
Qed.

(** The text of an integer starts with a digit or a sign. *)
Lemma json_int_head z :
  exists c t, json_int z = String c t
              /\ (Ascii.eqb c "-" = true \/ digit_of c <> None).
Proof.
  unfold json_int. destruct z as [|p|p].
  - do 2 eexists. split; [reflexivity|]. right. discriminate.
  - change (Z.to_int (Zpos p)) with (Decimal.Pos (Pos.to_uint p)). simpl.
    rewrite (string_of_uint_nonnil _ (DecimalPos.Unsigned.to_uint_nonnil p)).
    pose proof (DecimalPos.Unsigned.to_uint_nonnil p).
    destruct (Pos.to_uint p); try contradiction;
      do 2 eexists; (split; [reflexivity|]); right; discriminate.
  - do 2 eexists. split; [reflexivity|]. left. reflexivity.
Qed.

(** Induction on values, through the lists and dictionaries they nest. *)
Section PyVal_induction.
Variable P : PyVal -> Prop.
Hypothesis HNone : P VNone.
Hypothesis HBool : forall b, P (VBool b).
Hypothesis HInt : forall z, P (VInt z).
Hypothesis HStr : forall s, P (VStr s).
Hypothesis HEnum : forall c, P (VEnum c).
Hypothesis HList : forall l, Forall P l -> P (VList l).
Hypothesis HTuple : forall l, Forall P l -> P (VTuple l).
Hypothesis HDict :
  forall d, Forall (fun kv => P (snd kv)) d -> P (VDict d).
Hypothesis HClass : forall c, P (VClass c).
Hypothesis HExc : forall n t, P (VExc n t).
Hypothesis HOther : forall t, P (VOther t).

Fixpoint PyVal_nested_ind (v : PyVal) : P v :=
  match v with
  | VNone => HNone
  | VBool b => HBool b
  | VInt z => HInt z
  | VStr s => HStr s
  | VEnum c => HEnum c
  | VList l =>
      HList l
        ((fix go (l : list PyVal) : Forall P l :=
            match l with
            | [] => Forall_nil P
            | x :: l' => Forall_cons x (PyVal_nested_ind x) (go l')
            end) l)
  | VTuple l =>
      HTuple l
        ((fix go (l : list PyVal) : Forall P l :=
            match l with
            | [] => Forall_nil P
            | x :: l' => Forall_cons x (PyVal_nested_ind x) (go l')
            end) l)
  | VDict d =>
      HDict d
        ((fix go (d : list (string * PyVal))
            : Forall (fun kv => P (snd kv)) d :=
            match d with
            | [] => Forall_nil _
            | kv :: d' =>
                Forall_cons kv
                  (match kv return P (snd kv) with
                   | (k, x) => PyVal_nested_ind x
                   end) (go d')
            end) d)
  | VClass c => HClass c
  | VExc n t => HExc n t
  | VOther t => HOther t
  end.
End PyVal_induction.

Lemma number_start c :
  Ascii.eqb c "-" = true \/ digit_of c <> None -> value_start c = true.
Proof.
  destruct c as [[] [] [] [] [] [] [] []]; intros [H|H];
    try discriminate H; try reflexivity; exfalso; apply H; reflexivity.
Qed.

Lemma json_encode_head level v :
  exists c t, json_encode level v = String c t /\ value_start c = true.
Proof.
  destruct v as [|[]|z|s|c|[|x l]|[|x l]|[|kv d]|c|n t|t]; simpl;
    try (do 2 eexists; split; reflexivity).
  destruct (json_int_head z) as (c & t & E & H).
  exists c, t. split; [exact E | apply number_start, H].
Qed.

Lemma skip_ws_value_start c s :
  value_start c = true -> skip_ws (String c s) = String c s.
Proof.
  unfold value_start. intros H. apply skip_ws_head.
  destruct (is_ws c); [discriminate | reflexivity].
Qed.

Lemma skip_ws_encode level v rest :
  skip_ws (json_encode level v ++ rest) = json_encode level v ++ rest.
Proof.
  destruct (json_encode_head level v) as (c & t & -> & H).
  simpl append. apply skip_ws_value_start, H.
Qed.

(** A number is what [parse_value] reads when nothing else starts. *)
Lemma parse_value_number fuel c t :
  Ascii.eqb c "-" = true \/ digit_of c <> None ->
  parse_value (S fuel) (String c t) =
  match parse_number (String c t) with
  | Some (z, rest) => Some (VInt z, rest)
  | None => None
  end.
Proof.
  destruct c as [[] [] [] [] [] [] [] []]; intros [H|H];
    try discriminate H; try reflexivity; exfalso; apply H; reflexivity.
Qed.

Lemma parse_value_int fuel z rest :
  delimited rest = true ->
  parse_value (S fuel) (json_int z ++ rest) = Some (VInt z, rest).
Proof.
  intros Hd. pose proof (parse_number_json_int z rest Hd) as Hn.
  destruct (json_int_head z) as (c & t & E & H).
  rewrite E in *. change (String c t ++ rest) with (String c (t ++ rest)) in *.
  rewrite (parse_value_number fuel c _ H), Hn. reflexivity.
Qed.

Lemma parse_value_string fuel s rest :
  parse_value (S fuel) (json_string s ++ rest) = Some (VStr s, rest).
Proof.
  unfold json_string. simpl.
  rewrite append_assoc. simpl. rewrite parse_string_escape. reflexivity.
Qed.

Lemma item_sep_app level s :
  item_sep level ++ s = String "," (newline_indent (S level) ++ s).
Proof. reflexivity. Qed.

Lemma parse_items_S fuel s :
  parse_items (S fuel) s =
  match parse_value fuel s with
  | Some (v, rest) =>
      match skip_ws rest with
      | "" => None
      | String c rest' =>
          if Ascii.eqb c "," then
            match parse_items fuel (skip_ws rest') with
            | Some (l, rest'') => Some (v :: l, rest'')
            | None => None
            end
          else if Ascii.eqb c "]" then Some ([v], rest')
          else None
      end
  | None => None
  end.
Proof. reflexivity. Qed.

Lemma join_head level (f : PyVal -> string) x l rest :
  (exists c t, f x = String c t /\ value_start c = true) ->
  skip_ws (join (item_sep level) (map f (x :: l)) ++ rest)
  = join (item_sep level) (map f (x :: l)) ++ rest.
Proof.
  intros (c & t & E & H). destruct l as [|y l]; simpl; rewrite E; simpl append;
    apply skip_ws_value_start, H.
Qed.

Lemma parse_items_encode l :
  Forall reads_back l ->
  forall x level fuel rest,
    reads_back x ->
    need_items (x :: l) <= fuel ->
    parse_items fuel
      (join (item_sep level) (map (json_encode (S level)) (x :: l))
       ++ newline_indent level ++ String "]" rest)
    = Some (map json_norm (x :: l), rest).
Proof.
  induction 1 as [|y l Hy Hl IH]; intros x level fuel rest Hx Hn.
  - destruct fuel as [|fuel]; [simpl in Hn; lia|].
    simpl in Hn. rewrite parse_items_S. simpl join.
    rewrite Hx; [|lia | reflexivity].
    rewrite skip_ws_newline_indent. simpl. reflexivity.
  - destruct fuel as [|fuel]; [simpl in Hn; lia|].
    change (need_items (x :: y :: l))
      with (S (Nat.max (need x) (need_items (y :: l)))) in Hn.
    rewrite parse_items_S.
    change (join (item_sep level) (map (json_encode (S level)) (x :: y :: l)))
      with (json_encode (S level) x ++ item_sep level
            ++ join (item_sep level) (map (json_encode (S level)) (y :: l))).
    rewrite !append_assoc.
    rewrite Hx; [|lia | reflexivity].
    rewrite item_sep_app, skip_ws_head by reflexivity.
    rewrite Ascii.eqb_refl, skip_ws_newline_indent.
    rewrite (join_head level (json_encode (S level)) y l);
      [|apply json_encode_head].
    rewrite (IH y level fuel rest Hy); [reflexivity | lia].
Qed.

Lemma parse_pairs_quote fuel r :
  parse_pairs (S fuel) (String quote r) =
  match parse_string r with
  | Some (k, rest) =>
      match skip_ws rest with
      | "" => None
      | String c1 rest1 =>
          if Ascii.eqb c1 ":" then
            match parse_value fuel (skip_ws rest1) with
            | Some (v, rest2) =>
                match skip_ws rest2 with
                | "" => None
                | String c2 rest3 =>
                    if Ascii.eqb c2 "," then
                      match parse_pairs fuel (skip_ws rest3) with
                      | Some (d, rest4) => Some ((k, v) :: d, rest4)
                      | None => None
                      end
                    else if Ascii.eqb c2 "}" then Some ([(k, v)], rest3)
                    else None
                end
            | None => None
            end
          else None
      end
  | None => None
  end.
Proof. reflexivity. Qed.

Lemma encode_pair_app level k x s :
  encode_pair level (k, x) ++ s =
  String quote
    (escape k
     ++ String quote (String ":" (String " " (json_encode (S level) x ++ s)))).
Proof.
  unfold encode_pair, json_string. simpl. rewrite !append_assoc. reflexivity.
Qed.

Lemma skip_ws_space s : skip_ws (String " " s) = skip_ws s.
Proof. reflexivity. Qed.

Lemma pairs_head level kv d rest :
  skip_ws (join (item_sep level) (map (encode_pair level) (kv :: d)) ++ rest)
  = join (item_sep level) (map (encode_pair level) (kv :: d)) ++ rest.
Proof.
  destruct kv as [k x]. destruct d as [|kv' d]; simpl; reflexivity.
Qed.

Lemma parse_pairs_encode d :
  Forall (fun kv => reads_back (snd kv)) d ->
  forall kv level fuel rest,
    reads_back (snd kv) ->
    need_pairs (kv :: d) <= fuel ->
    parse_pairs fuel
      (join (item_sep level) (map (encode_pair level) (kv :: d))
       ++ newline_indent level ++ String "}" rest)
    = Some (map norm_pair (kv :: d), rest).
Proof.
  induction 1 as [|kv' d Hy Hl IH]; intros [k x] level fuel rest Hx Hn;
    simpl in Hx.
  - destruct fuel as [|fuel]; [simpl in Hn; lia|].
    simpl in Hn.
    change (join (item_sep level) (map (encode_pair level) [(k, x)]))
      with (encode_pair level (k, x)).
    rewrite encode_pair_app, parse_pairs_quote, parse_string_escape.
    rewrite skip_ws_head, Ascii.eqb_refl, skip_ws_space, skip_ws_encode
      by reflexivity.
    rewrite Hx; [|lia | reflexivity].
    rewrite skip_ws_newline_indent. simpl. reflexivity.
  - destruct fuel as [|fuel]; [simpl in Hn; lia|].
    change (need_pairs ((k, x) :: kv' :: d))
      with (S (Nat.max (need x) (need_pairs (kv' :: d)))) in Hn.
    change (join (item_sep level) (map (encode_pair level) ((k, x) :: kv' :: d)))
      with (encode_pair level (k, x) ++ item_sep level
            ++ join (item_sep level) (map (encode_pair level) (kv' :: d))).
    rewrite !append_assoc.
    rewrite encode_pair_app, parse_pairs_quote, parse_string_escape.
    rewrite skip_ws_head, Ascii.eqb_refl, skip_ws_space, skip_ws_encode
      by reflexivity.
    rewrite Hx; [|lia | reflexivity].
    rewrite item_sep_app, skip_ws_head by reflexivity.
    rewrite Ascii.eqb_refl, skip_ws_newline_indent, pairs_head.
    rewrite (IH kv' level fuel rest Hy); [reflexivity | lia].
Qed.

Lemma append_char c s : String c "" ++ s = String c s.
Proof. reflexivity. Qed.

Lemma parse_value_bracket fuel r :
  parse_value (S fuel) (String "[" r) =
  match skip_ws r with
  | "" => None
  | String c1 rest =>
      if Ascii.eqb c1 "]" then Some (VList [], rest)
      else
        match parse_items fuel (String c1 rest) with
        | Some (l, rest') => Some (VList l, rest')
        | None => None
        end
  end.
Proof. reflexivity. Qed.

Lemma parse_value_brace fuel r :
  parse_value (S fuel) (String "{" r) =
  match skip_ws r with
  | "" => None
  | String c1 rest =>
      if Ascii.eqb c1 "}" then Some (VDict [], rest)
      else
        match parse_pairs fuel (String c1 rest) with
        | Some (d, rest') => Some (VDict (dict_update [] d), rest')
        | None => None
        end
  end.
Proof. reflexivity. Qed.

Lemma items_text_head level x l rest :
  exists c t,
    join (item_sep level) (map (json_encode (S level)) (x :: l)) ++ rest
    = String c t
    /\ value_start c = true.
Proof.
  destruct (json_encode_head (S level) x) as (c & t & E & H).
  destruct l as [|y l]; simpl; rewrite E; simpl;
    do 2 eexists; (split; [reflexivity | exact H]).
Qed.

Lemma pairs_text_head level kv d rest :
  exists t,
    join (item_sep level) (map (encode_pair level) (kv :: d)) ++ rest
    = String quote t.
Proof.
  destruct kv as [k x]. destruct d as [|kv' d]; simpl; eexists; reflexivity.
Qed.

Lemma value_start_bracket c : value_start c = true -> Ascii.eqb c "]" = false.
Proof.
  unfold value_start. destruct (Ascii.eqb c "]"); [|reflexivity].
  rewrite andb_false_r. discriminate.
Qed.

(** The text of a list that is not empty. *)
Lemma parse_value_items fuel level x l rest :
  Forall reads_back (x :: l) ->
  need_items (x :: l) <= fuel ->
  parse_value (S fuel)
    (("[" ++ newline_indent (S level)
      ++ join (item_sep level) (map (json_encode (S level)) (x :: l))
      ++ newline_indent level ++ "]") ++ rest)
  = Some (VList (map json_norm (x :: l)), rest).
Proof.
  intros H Hn. inversion H as [|? ? Hx Hl]; subst.
  rewrite !append_assoc, append_char, parse_value_bracket.
  rewrite skip_ws_newline_indent.
  rewrite (join_head level (json_encode (S level)) x l);
    [|apply json_encode_head].
  change ("]" ++ rest) with (String "]" rest).
  pose proof (parse_items_encode l Hl x level fuel rest Hx Hn) as Hi.
  destruct (items_text_head level x l
              (newline_indent level ++ String "]" rest)) as (c & t & E & Hs).
  rewrite E in *. rewrite (value_start_bracket c Hs), Hi. reflexivity.
Qed.

(** The text of a dictionary that is not empty. *)
Lemma parse_value_pairs fuel level kv d rest :
  Forall (fun kv => reads_back (snd kv)) (kv :: d) ->
  need_pairs (kv :: d) <= fuel ->
  parse_value (S fuel)
    (("{" ++ newline_indent (S level)
      ++ join (item_sep level) (map (encode_pair level) (kv :: d))
      ++ newline_indent level ++ "}") ++ rest)
  = Some (VDict (dict_update [] (map norm_pair (kv :: d))), rest).
Proof.
  intros H Hn. inversion H as [|? ? Hx Hl]; subst.
  rewrite !append_assoc, append_char, parse_value_brace.
  rewrite skip_ws_newline_indent, pairs_head.
  change ("}" ++ rest) with (String "}" rest).
  pose proof (parse_pairs_encode d Hl kv level fuel rest Hx Hn) as Hi.
  destruct (pairs_text_head level kv d
              (newline_indent level ++ String "}" rest)) as (t & E).
  rewrite E in *. change (Ascii.eqb quote "}") with false. cbv iota.
  rewrite Hi. reflexivity.
Qed.

(** Every value reads back as its normal form. *)
Theorem parse_value_json_encode : forall v, reads_back v.
Proof.
  induction v using PyVal_nested_ind; intros level fuel rest Hn Hd;
    (destruct fuel as [|fuel]; [simpl in Hn; lia|]).
  - reflexivity.
  - destruct b; reflexivity.
  - apply parse_value_int, Hd.
  - apply parse_value_string.
  - apply (parse_value_string fuel (ErrorCode_value c)).
  - destruct l as [|x l]; [reflexivity|].
    apply (parse_value_items fuel level x l rest H).
    apply le_S_n, Hn.
  - destruct l as [|x l]; [reflexivity|].
    apply (parse_value_items fuel level x l rest H).
    apply le_S_n, Hn.
  - destruct d as [|kv d]; [reflexivity|].
    apply (parse_value_pairs fuel level kv d rest H).
    apply le_S_n, Hn.
  - reflexivity.
  - reflexivity.
  - reflexivity.
Qed.

Lemma newline_indent_length level : 1 <= String.length (newline_indent level).
Proof. unfold newline_indent. simpl. lia. Qed.

Lemma item_sep_length level : 2 <= String.length (item_sep level).
Proof. unfold item_sep, newline_indent. simpl. lia. Qed.

Lemma need_items_length (f : PyVal -> string) l :
  Forall (fun x => need x <= String.length (f x)) l ->
  forall sep, 2 <= String.length sep ->
  need_items l <= String.length (join sep (map f l)) + 1.
Proof.
  induction 1 as [|x l Hx Hl IH]; intros sep Hs; [simpl; lia|].
  destruct l as [|y l].
  - simpl. lia.
  - change (need_items (x :: y :: l))
      with (S (Nat.max (need x) (need_items (y :: l)))).
    change (join sep (map f (x :: y :: l)))
      with (f x ++ sep ++ join sep (map f (y :: l))).
    rewrite !length_append. specialize (IH sep Hs). lia.
Qed.

Lemma need_pairs_length (f : string * PyVal -> string) d :
  Forall (fun kv => need (snd kv) <= String.length (f kv)) d ->
  forall sep, 2 <= String.length sep ->
  need_pairs d <= String.length (join sep (map f d)) + 1.
Proof.
  induction 1 as [|[k x] d Hx Hl IH]; intros sep Hs; [simpl; lia|].
  simpl in Hx. destruct d as [|kv d].
  - simpl. lia.
  - change (need_pairs ((k, x) :: kv :: d))
      with (S (Nat.max (need x) (need_pairs (kv :: d)))).
    change (join sep (map f ((k, x) :: kv :: d)))
      with (f (k, x) ++ sep ++ join sep (map f (kv :: d))).
    rewrite !length_append. specialize (IH sep Hs). lia.
Qed.

(** The text of a value is at least as long as the nesting to follow. *)
Lemma need_le_length v :
  forall level, need v <= String.length (json_encode level v).
Proof.
  induction v using PyVal_nested_ind; intros level.
  - simpl. lia.
  - destruct b; simpl; lia.
  - destruct (json_int_head z) as (c & t & E & _).
    change (json_encode level (VInt z)) with (json_int z). rewrite E.
    simpl. lia.
  - simpl. lia.
  - simpl. lia.
  - destruct l as [|x l]; [simpl; lia|].
    change (need (VList (x :: l))) with (S (need_items (x :: l))).
    change (json_encode level (VList (x :: l)))
      with ("[" ++ newline_indent (S level)
            ++ join (item_sep level) (map (json_encode (S level)) (x :: l))
            ++ newline_indent level ++ "]").
    rewrite !length_append.
    pose proof (need_items_length (json_encode (S level)) (x :: l)) as Hi.
    pose proof (newline_indent_length level).
    pose proof (newline_indent_length (S level)).
    specialize (Hi ltac:(eapply Forall_impl; [|exact H]; intros a Ha; apply Ha)
                   (item_sep level) (item_sep_length level)).
    change (String.length "[") with 1. change (String.length "]") with 1.
    change (String.length "{") with 1. change (String.length "}") with 1.
    lia.
  - destruct l as [|x l]; [simpl; lia|].
    change (need (VTuple (x :: l))) with (S (need_items (x :: l))).
    change (json_encode level (VTuple (x :: l)))
      with ("[" ++ newline_indent (S level)
            ++ join (item_sep level) (map (json_encode (S level)) (x :: l))
            ++ newline_indent level ++ "]").
    rewrite !length_append.
    pose proof (need_items_length (json_encode (S level)) (x :: l)) as Hi.
    pose proof (newline_indent_length level).
    pose proof (newline_indent_length (S level)).
    specialize (Hi ltac:(eapply Forall_impl; [|exact H]; intros a Ha; apply Ha)
                   (item_sep level) (item_sep_length level)).
    change (String.length "[") with 1. change (String.length "]") with 1.
    change (String.length "{") with 1. change (String.length "}") with 1.
    lia.
  - destruct d as [|kv d]; [simpl; lia|].
    change (need (VDict (kv :: d))) with (S (need_pairs (kv :: d))).
    change (json_encode level (VDict (kv :: d)))
      with ("{" ++ newline_indent (S level)
            ++ join (item_sep level) (map (encode_pair level) (kv :: d))
            ++ newline_indent level ++ "}").
    rewrite !length_append.
    pose proof (need_pairs_length (encode_pair level) (kv :: d)) as Hi.
    pose proof (newline_indent_length level).
    pose proof (newline_indent_length (S level)).
    assert (Hf : Forall (fun kv => need (snd kv)
                                   <= String.length (encode_pair level kv))
                   (kv :: d)).
    { eapply Forall_impl; [|exact H]. intros [k x] Hx.
      unfold encode_pair. rewrite !length_append.
      specialize (Hx (S level)). simpl snd in *. lia. }
    specialize (Hi Hf (item_sep level) (item_sep_length level)).
    change (String.length "[") with 1. change (String.length "]") with 1.
    change (String.length "{") with 1. change (String.length "}") with 1.
    lia.
  - simpl. lia.
  - simpl. lia.
  - simpl. lia.
Qed.

(** The integers of a value that [json.dumps] accepts are within the digit
    limit, and so are those of its normal form. *)
Lemma serialises_ints v : serialises v = true -> ints_in_limit v = true.
Proof.
  unfold serialises.
  induction v using PyVal_nested_ind; simpl; try reflexivity;
    try discriminate.
  - destruct (int_in_limit z); [reflexivity | discriminate].
  - induction H as [|x l Hx Hl IH]; simpl; [reflexivity|].
    destruct (json_outcome x) as [[]| |]; simpl; try discriminate.
    intros E. rewrite (Hx eq_refl). apply IH, E.
  - induction H as [|x l Hx Hl IH]; simpl; [reflexivity|].
    destruct (json_outcome x) as [[]| |]; simpl; try discriminate.
    intros E. rewrite (Hx eq_refl). apply IH, E.
  - induction H as [|[k x] d Hx Hl IH]; simpl; [reflexivity|].
    simpl in Hx.
    destruct (json_outcome x) as [[]| |]; simpl; try discriminate.
    intros E. rewrite (Hx eq_refl). apply IH, E.
Qed.

Lemma forallb_dict_set (P : PyVal -> bool) k v (d : pydict) :
  P v = true ->
  forallb (fun kv => match kv with (_, x) => P x end) d = true ->
  forallb (fun kv => match kv with (_, x) => P x end) (dict_set k v d) = true.
Proof.
  intros Hv. induction d as [|[k0 v0] d IH]; simpl.
  - intros _. rewrite Hv. reflexivity.
  - intros H. apply andb_prop in H as [H0 Hd].
    destruct (String.eqb k k0); simpl.
    + rewrite Hv, Hd. reflexivity.
    + rewrite H0, (IH Hd). reflexivity.
Qed.

Lemma forallb_dict_update (P : PyVal -> bool) (m : pydict) : forall d : pydict,
  forallb (fun kv => match kv with (_, x) => P x end) d = true ->
  forallb (fun kv => match kv with (_, x) => P x end) m = true ->
  forallb (fun kv => match kv with (_, x) => P x end) (dict_update d m) = true.
Proof.
  unfold dict_update.
  induction m as [|[k v] m IH]; simpl; intros d Hd Hm; [exact Hd|].
  apply andb_prop in Hm as [Hv Hm].
  apply IH; [apply forallb_dict_set; assumption | exact Hm].
Qed.

Lemma ints_in_limit_norm v :
  ints_in_limit v = true -> ints_in_limit (json_norm v) = true.
Proof.
  induction v using PyVal_nested_ind; simpl; try reflexivity; try tauto.
  - rewrite !forallb_forall. rewrite Forall_forall in H.
    intros Hl y Hy. apply in_map_iff in Hy as (x & <- & Hx).
    apply H; [exact Hx | apply Hl, Hx].
  - rewrite !forallb_forall. rewrite Forall_forall in H.
    intros Hl y Hy. apply in_map_iff in Hy as (x & <- & Hx).
    apply H; [exact Hx | apply Hl, Hx].
  - intros Hd. apply forallb_dict_update; [reflexivity|].
    rewrite forallb_forall in *. rewrite Forall_forall in H.
    intros y Hy. apply in_map_iff in Hy as ([k x] & <- & Hx).
    apply (H (k, x) Hx). apply (Hd (k, x) Hx).
Qed.

(** Parsing the text of a value gives its normal form. *)
Lemma json_loads_encode v :
  ints_in_limit v = true ->
  json_loads (json_encode 0 v) = Some (json_norm v).
Proof.
  intros Hi. unfold json_loads.
  pose proof (need_le_length v 0) as Hn.
  pose proof (skip_ws_encode 0 v "") as Hs.
  pose proof (parse_value_json_encode v 0
                (S (String.length (json_encode 0 v))) "") as Hp.
  rewrite append_nil_r in Hs, Hp.
  rewrite Hs, Hp; [|lia | reflexivity].
  simpl skip_ws. cbv iota. rewrite (ints_in_limit_norm v Hi). reflexivity.
Qed.

(** [json.dumps] returns on a value it can write, and [json.loads] reads
    the text back as the normal form of the value. *)
Theorem json_loads_dumps v :
  serialises v = true ->
  exists text,
    json_dumps v = Return text /\ json_loads text = Some (json_norm v).
Proof.
  intros Hs. exists (json_encode 0 v). split.
  - unfold json_dumps. unfold serialises in Hs.
    destruct (json_outcome v) as [[]| |]; try discriminate. reflexivity.
  - apply json_loads_encode, serialises_ints, Hs.
Qed.

(** ** Equality after the round trip *)

Lemma dict_update_app (d m : pydict) :
  (forall k, dict_has k m = true -> dict_has k d = false) ->
  unique_keys m = true ->
  dict_update d m = (d ++ m)%list.
Proof.
  unfold dict_update. revert d.
  induction m as [|[k v] m IH]; intros d Hd Hu; simpl.
  - rewrite List.app_nil_r. reflexivity.
  - simpl in Hu. apply andb_prop in Hu as [Hk Hu]. apply negb_true_iff in Hk.
    assert (Hs : dict_set k v d = (d ++ [(k, v)])%list).
    { assert (Hkd : dict_has k d = false).
      { apply Hd. unfold dict_has. simpl. rewrite String.eqb_refl. reflexivity. }
      clear - Hkd. induction d as [|[k' v'] d IHd]; simpl; [reflexivity|].
      unfold dict_has in Hkd. simpl in Hkd.
      destruct (String.eqb k k'); [discriminate|]. rewrite IHd; [reflexivity|].
      exact Hkd. }
    rewrite Hs, IH; [rewrite <- List.app_assoc; reflexivity | | exact Hu].
    intros k0 Hk0. unfold dict_has. 
    assert (Hg : forall (a b : pydict), dict_get k0 (a ++ b)%list =
                   match dict_get k0 a with Some x => Some x | None => dict_get k0 b end).
    { intros a b. induction a as [|[ka va] a IHa]; simpl; [reflexivity|].
      destruct (String.eqb k0 ka); [reflexivity | exact IHa]. }
    rewrite Hg. simpl.
    assert (Hk0d : dict_has k0 d = false).
    { apply Hd. unfold dict_has in *. simpl.
      destruct (String.eqb k0 k); [reflexivity | exact Hk0]. }
    unfold dict_has in Hk0d. destruct (dict_get k0 d); [discriminate|].
    destruct (String.eqb k0 k) eqn:E; [|reflexivity].
    apply String.eqb_eq in E. subst k0. congruence.
Qed.

Lemma dict_has_map_norm k d :
  dict_has k (map norm_pair d) = dict_has k d.
Proof.
  unfold dict_has. induction d as [|[k' v] d IH]; simpl; [reflexivity|].
  destruct (String.eqb k k'); [reflexivity | exact IH].
Qed.

Lemma unique_keys_map_norm d :
  unique_keys (map norm_pair d) = unique_keys d.
Proof.
  induction d as [|[k v] d IH]; simpl; [reflexivity|].
  rewrite dict_has_map_norm, IH. reflexivity.
Qed.

Lemma json_norm_dict d :
  unique_keys d = true ->
  json_norm (VDict d) = VDict (map norm_pair d).
Proof.
  intros Hu. change (json_norm (VDict d))
    with (VDict (dict_update [] (map norm_pair d))).
  rewrite dict_update_app; [reflexivity | reflexivity |].
  rewrite unique_keys_map_norm. exact Hu.
Qed.

Lemma py_eq_list (f : PyVal -> PyVal) l :
  Forall (fun x => py_eq x (f x) = true) l ->
  py_eq (VList l) (VList (map f l)) = true.
Proof.
  induction 1 as [|x l Hx Hl IH]; [reflexivity|].
  simpl in *. rewrite Hx, IH. reflexivity.
Qed.

Lemma py_eq_dict d e :
  length d = length e ->
  (forall k v, In (k, v) d ->
     exists w, dict_get k e = Some w /\ py_eq v w = true) ->
  py_eq (VDict d) (VDict e) = true.
Proof.
  intros Hl H. simpl. rewrite Hl, Nat.eqb_refl. simpl. clear Hl.
  induction d as [|[k v] d IH]; [reflexivity|].
  destruct (H k v (or_introl eq_refl)) as (w & -> & ->). simpl.
  apply IH. intros k' v' Hin. apply H. right. exact Hin.
Qed.

Lemma unique_keys_get k v d :
  unique_keys d = true -> In (k, v) d -> dict_get k d = Some v.
Proof.
  induction d as [|[k' v'] d IH]; simpl; [tauto|].
  intros Hu [Hin|Hin].
  - injection Hin as -> ->. rewrite String.eqb_refl. reflexivity.
  - apply andb_prop in Hu as [Hk Hu]. apply negb_true_iff in Hk.
    destruct (String.eqb k k') eqn:E.
    + apply String.eqb_eq in E. subst k'.
      unfold dict_has in Hk. rewrite (IH Hu Hin) in Hk. discriminate.
    + apply IH; assumption.
Qed.

(** A value without tuples equals what comes back from JSON. *)
Theorem py_eq_json_norm v : json_native v = true -> py_eq v (json_norm v) = true.
Proof.
  induction v using PyVal_nested_ind; intros Hn; try discriminate.
  - reflexivity.
  - simpl. destruct b; reflexivity.
  - simpl. apply Z.eqb_refl.
  - simpl. apply String.eqb_refl.
  - simpl. apply String.eqb_refl.
  - apply (py_eq_list json_norm). simpl in Hn.
    rewrite forallb_forall in Hn. rewrite Forall_forall in *.
    intros x Hx. apply H; [exact Hx | apply Hn, Hx].
  - simpl in Hn. apply andb_prop in Hn as [Hu Hn].
    rewrite (json_norm_dict d Hu).
    apply py_eq_dict; [rewrite length_map; reflexivity|].
    intros k v Hin. exists (json_norm v). split.
    + apply unique_keys_get; [rewrite unique_keys_map_norm; exact Hu|].
      apply (in_map norm_pair) in Hin. exact Hin.
    + rewrite Forall_forall in H. rewrite forallb_forall in Hn.
      apply (H (k, v) Hin). apply (Hn (k, v) Hin).
Qed.

(** A tuple does not come back. *)
Example tuple_comes_back_as_list :
  (exists text,
     json_dumps (VTuple [VInt 1; VInt 2]) = Return text
     /\ json_loads text = Some (VList [VInt 1; VInt 2]))
  /\ py_eq (VTuple [VInt 1; VInt 2]) (VList [VInt 1; VInt 2]) = false.
Proof.
  split; [|reflexivity].
  apply (json_loads_dumps (VTuple [VInt 1; VInt 2])). reflexivity.
Qed.

(** ** The round trip of [to_json()] *)

(** The values of [to_dict()] that are not strings written by [to_dict]
    itself are the code and the values of the context. *)
Lemma to_dict_native rt cls now c text cx cause :
  json_native
    (VDict
       (List.app
          [ ("name", VStr (class_name cls)); ("code", c);
            ("message", VStr text); ("timestamp", VStr (isoformat rt now)) ]
          (optional_entries rt cx cause)))
  = json_native c
    && forallb (fun kv => match kv with (_, x) => json_native x end)
         (ErrorContext_to_dict cx).
Proof.
  assert (Hu : unique_keys (ErrorContext_to_dict cx) = true).
  { apply unique_keys_NoDup, ErrorContext_to_dict_NoDup. }
  unfold optional_entries.
  destruct (ErrorContext_to_dict cx) as [|kv d].
  - destruct cause; simpl; rewrite ?andb_true_r; reflexivity.
  - cbn [nonempty]. remember (kv :: d) as D eqn:ED. clear ED.
    destruct cause; simpl; rewrite Hu, ?andb_true_r; reflexivity.
Qed.

Lemma to_dict_serialises rt cls now c text cx cause :
  serialises c = true ->
  serialises (VDict (ErrorContext_to_dict cx)) = true ->
  serialises
    (VDict
       (List.app
          [ ("name", VStr (class_name cls)); ("code", c);
            ("message", VStr text); ("timestamp", VStr (isoformat rt now)) ]
          (optional_entries rt cx cause)))
  = true.
Proof.
  unfold serialises, optional_entries. intros Hc Hx.
  destruct (json_outcome c) as [[]| |] eqn:Ec; try discriminate.
  simpl in Hx.
  destruct (nonempty (ErrorContext_to_dict cx)), cause; simpl;
    rewrite Ec; simpl;
    match type of Hx with
    | returns ?t = true => destruct t as [[]| |]; try discriminate
    end; reflexivity.
Qed.

Lemma serialises_dict_In d k v :
  serialises (VDict d) = true -> In (k, v) d -> serialises v = true.
Proof.
  unfold serialises. induction d as [|[k0 y] d IH]; simpl; [tauto|].
  destruct (json_outcome y) as [[]| |] eqn:E; simpl; try discriminate.
  intros H [[= <- <-]|Hin]; [rewrite E; reflexivity | apply IH; assumption].
Qed.

(** What [json.dumps] accepts renders. *)
Lemma serialises_renders v : serialises v = true -> renders v = true.
Proof.
  unfold serialises, renders.
  induction v using PyVal_nested_ind; simpl; try reflexivity;
    try discriminate.
  - destruct (int_in_limit z); [reflexivity | discriminate].
  - induction H as [|x l Hx Hl IH]; simpl; [reflexivity|].
    destruct (json_outcome x) as [[]| |]; simpl; try discriminate.
    specialize (Hx eq_refl).
    destruct (render_outcome x) as [[]| |]; try discriminate. exact IH.
  - induction H as [|x l Hx Hl IH]; simpl; [reflexivity|].
    destruct (json_outcome x) as [[]| |]; simpl; try discriminate.
    specialize (Hx eq_refl).
    destruct (render_outcome x) as [[]| |]; try discriminate. exact IH.
  - induction H as [|[k x] d Hx Hl IH]; simpl; [reflexivity|].
    simpl in Hx.
    destruct (json_outcome x) as [[]| |]; simpl; try discriminate.
    specialize (Hx eq_refl).
    destruct (render_outcome x) as [[]| |]; try discriminate. exact IH.
Qed.

Lemma code_serialises context cd c :
  (exists e, c = VEnum e) \/ c = cd
  \/ (exists k, In (k, c) (context_items context)) ->
  serialises cd = true ->
  serialises (VDict (context_items context)) = true ->
  serialises c = true.
Proof.
  intros [[e ->]|[->|[k Hin]]] Hr Hx;
    [reflexivity | exact Hr | apply (serialises_dict_In _ _ _ Hx Hin)].
Qed.

(** C7, as amended.  On an error built by the public constructor of a
    subclass from a context without the checked slots ([__dict__], [args],
    [__traceback__], [__context__], [__cause__], [__suppress_context__],
    [__class__]) and the keys [timestamp], [context], [to_dict] and
    [to_json], with a cause whose [str()] returns, and with a [code]
    argument and context values that [json.dumps] accepts ([None],
    booleans, integers within the digit limit, strings, members of
    [ErrorCode], and lists, tuples and string-keyed dictionaries of such),
    [to_json()] returns a text, and parsing that text gives [to_dict()] with
    every tuple, at any depth, replaced by a list and every member of
    [ErrorCode] by the string of its value.  The parsed mapping equals
    [to_dict()] (Python's [==]) when the code and the values of the context
    hold no tuple. *)
Theorem to_json_round_trip :
  forall rt cls now message context cause cd i,
    new_error cls now message context cause cd = Return i ->
    concrete cls = true ->
    avoids context
      (app checked_slots ["timestamp"; "context"; "to_dict"; "to_json"])
      = true ->
    cause_renders rt cause = true ->
    serialises cd = true ->
    serialises (VDict (context_items context)) = true ->
    exists d text c,
      to_dict rt i = Return d
      /\ to_json rt i = Return text
      /\ code i = Return c
      /\ json_loads text = Some (json_norm (VDict d))
      /\ (json_native c = true ->
          forallb (fun kv => match kv with (_, x) => json_native x end)
            (context_items context) = true ->
          py_eq (VDict d) (json_norm (VDict d)) = true).
Proof.
  intros rt cls now message context cause cd i H Hcc Ha Hr Hsc Hsx.
  assert (Ha' : avoids context
                  (app checked_slots ["timestamp"; "context"; "to_dict"])
                = true) by avoid_fewer Ha.
  assert (Hdk : avoids context ["__dict__"; "__class__"] = true)
    by avoid_fewer Ha.
  destruct (constructed_code _ _ _ _ _ _ _ H Hcc Hdk) as (c & Hc & Hsrc).
  pose proof (code_serialises _ _ _ Hsrc Hsc Hsx) as Hcs.
  destruct (to_dict_constructed rt _ _ _ _ _ _ _ c H Ha' Hr Hc
              (serialises_renders _ Hcs) (serialises_renders _ Hsx))
    as (cx & text & Hcx & _ & _ & Hd).
  assert (Hj : dict_has "to_json" (inst_dict i) = false).
  { destruct (new_error_init cls now message context cause cd)
      as (self0 & _ & _ & H0 & _ & Hn).
    rewrite Hn in H.
    apply (constructed_unshadowed _ _ _ _ _ _ _ H); try reflexivity.
    - avoid_fewer Ha.
    - unfold dict_has. rewrite H0; reflexivity. }
  unfold context_items in Hsx. rewrite Hcx in Hsx.
  destruct (json_loads_dumps _
              (to_dict_serialises rt cls now c text cx cause Hcs Hsx))
    as (out & Hout & Hload).
  eexists; exists out, c.
  split; [exact Hd|]. split.
  { unfold to_json. rewrite (call_method_unshadowed _ _ _ Hj).
    unfold PipelineError_to_json. rewrite Hd. exact Hout. }
  split; [exact Hc|]. split; [exact Hload|].
  intros Nc Nx. apply py_eq_json_norm.
  rewrite to_dict_native, Nc. unfold context_items in Nx.
  rewrite Hcx in Nx. exact Nx.
Qed.

Lemma to_json_round_trip_witness :
  new_error SessionError epoch "x" (OVal VNone) None (VStr "SESSION_NOT_FOUND")
    = Return session_not_found
  /\ concrete SessionError = true
  /\ avoids (OVal VNone)
       (app checked_slots ["timestamp"; "context"; "to_dict"; "to_json"])
     = true
  /\ cause_renders sample_runtime None = true
  /\ serialises (VStr "SESSION_NOT_FOUND") = true
  /\ serialises (VDict (context_items (OVal VNone))) = true
  /\ exists d text c,
       to_dict sample_runtime session_not_found = Return d
       /\ to_json sample_runtime session_not_found = Return text
       /\ code session_not_found = Return c
       /\ json_loads text = Some (json_norm (VDict d))
       /\ (json_native c = true ->
           forallb (fun kv => match kv with (_, x) => json_native x end)
             (context_items (OVal VNone)) = true ->
           py_eq (VDict d) (json_norm (VDict d)) = true).
Proof.
  split; [reflexivity|]. split; [reflexivity|]. split; [reflexivity|].
  split; [reflexivity|]. split; [reflexivity|]. split; [reflexivity|].
  apply (to_json_round_trip sample_runtime SessionError epoch "x"
           (OVal VNone) None (VStr "SESSION_NOT_FOUND") session_not_found);
    reflexivity.
Defined.

(** C7 as stated fails: [TaskError("x", ErrorContext(metadata={"pids":
    (1, 2)}))] is constructed, [to_dict()] and [to_json()] return, and the
    parsed text holds the list [[1, 2]] where [to_dict()] holds the tuple
    [(1, 2)], which Python does not count as equal. *)
Lemma to_json_round_trip_counterexample :
  ~ (forall rt cls now message context cause cd i d text,
       new_error cls now message context cause cd = Return i ->
       to_dict rt i = Return d ->
       to_json rt i = Return text ->
       exists v, json_loads text = Some v /\ py_eq (VDict d) v = true).
Proof.
  intros H.
  destruct (H sample_runtime TaskError epoch "x"
              (OCtx (metadata_only [("pids", VTuple [VInt 1; VInt 2])]))
              None VNone task_tuple_in_metadata _ _
              eq_refl eq_refl eq_refl) as (v & Hv & He).
  vm_compute in Hv. injection Hv as <-. vm_compute in He. discriminate He.
Qed.

(** What [to_json()] writes for that error, and what comes back. *)
Example to_json_tuple_in_metadata :
  exists text,
    to_json sample_runtime task_tuple_in_metadata = Return text
    /\ json_loads text =
       Some (VDict
               [ ("name", VStr "TaskError");
                 ("code", VStr "TASK_EXECUTION_FAILED");
                 ("message",
                  VStr "[ErrorCode.TASK_EXECUTION_FAILED] x | Context: ?");
                 ("timestamp", VStr "1970-01-01T00:00:00");
                 ("context", VDict [("pids", VList [VInt 1; VInt 2])]) ]).
Proof. eexists. split; [reflexivity | vm_compute; reflexivity]. Qed.

(** * Further properties of the source *)

(** ** The type guards *)

(** On objects whose class is one of the six classes of the module, or no
    class of the hierarchy at all: the guards [is_session_error],
    [is_task_error] and [is_validation_error] exclude one another, each of
    them implies [is_pipeline_error], and [is_pipeline_error] holds of
    exactly the instances of the five subclasses and the direct instances of
    [PipelineError], which [PipelineError("x")] builds and which pass none
    of the three other guards; no guard holds of an object that is no
    exception. *)
Theorem type_guards_partition :
  forall x : PyObj,
    is_session_error x && is_task_error x = false
    /\ is_session_error x && is_validation_error x = false
    /\ is_task_error x && is_validation_error x = false
    /\ is_pipeline_error x =
       is_session_error x || is_task_error x || is_validation_error x
       || isinstance_class x BugfixSessionValidationError
       || isinstance_class x NestedExecutionError
       || is_direct_base x
    /\ is_direct_base x
       && (is_session_error x || is_task_error x || is_validation_error x)
       = false
    /\ is_pipeline_error x && negb (is_exception x) = false.
Proof.
  intros [v|c|[n t|[cls a d cs]]]; repeat split; try reflexivity;
    destruct cls; reflexivity.
Qed.

(** ** [is_load_error] and [is_save_error] *)

Lemma load_and_save_differ (c : PyVal) :
  py_eq c (VEnum SESSION_LOAD_FAILED) && py_eq c (VEnum SESSION_SAVE_FAILED)
  = false.
Proof.
  destruct c as [|b|z|s|e|l|l|d|k|n t|t]; try reflexivity.
  - simpl. destruct (String.eqb s "SESSION_LOAD_FAILED") eqn:E; [|reflexivity].
    apply String.eqb_eq in E. subst s. reflexivity.
  - destruct e; reflexivity.
Qed.

(** On a [SessionError] whose [_code] is a value of the modelled kinds and
    whose instance dictionary has no entry [is_load_error] or
    [is_save_error], the calls [is_load_error()] and [is_save_error()] both
    return, each says whether the code equals its member, and at most one
    of them answers [True]. *)
Theorem is_load_error_is_save_error_exclusive :
  forall (self : Instance) (c : PyVal),
    inst_class self = SessionError ->
    dict_get "_code" (inst_dict self) = Some (AVal c) ->
    is_other c = false ->
    dict_has "is_load_error" (inst_dict self) = false ->
    dict_has "is_save_error" (inst_dict self) = false ->
    exists l s,
      call_method self "is_load_error" is_load_error = Return l
      /\ call_method self "is_save_error" is_save_error = Return s
      /\ l = py_eq c (VEnum SESSION_LOAD_FAILED)
      /\ s = py_eq c (VEnum SESSION_SAVE_FAILED)
      /\ l && s = false.
Proof.
  intros self c _ Hg Ho Hl Hs.
  rewrite !call_method_unshadowed by assumption.
  unfold is_load_error, is_save_error, get_code_attr. rewrite Hg. simpl.
  rewrite !member_eq_modelled by exact Ho.
  do 2 eexists. repeat split. apply load_and_save_differ.
Qed.

Lemma is_load_error_is_save_error_exclusive_witness :
  inst_class session_not_found = SessionError
  /\ dict_get "_code" (inst_dict session_not_found)
     = Some (AVal (VStr "SESSION_NOT_FOUND"))
  /\ is_other (VStr "SESSION_NOT_FOUND") = false
  /\ dict_has "is_load_error" (inst_dict session_not_found) = false
  /\ dict_has "is_save_error" (inst_dict session_not_found) = false
  /\ exists l s,
       call_method session_not_found "is_load_error" is_load_error = Return l
       /\ call_method session_not_found "is_save_error" is_save_error
          = Return s
       /\ l = py_eq (VStr "SESSION_NOT_FOUND") (VEnum SESSION_LOAD_FAILED)
       /\ s = py_eq (VStr "SESSION_NOT_FOUND") (VEnum SESSION_SAVE_FAILED)
       /\ l && s = false.
Proof.
  split; [reflexivity|]. split; [reflexivity|]. split; [reflexivity|].
  split; [reflexivity|]. split; [reflexivity|].
  apply (is_load_error_is_save_error_exclusive session_not_found
           (VStr "SESSION_NOT_FOUND")); reflexivity.
Defined.

(** ** Context fields as attributes *)

(** After construction from a context without the key [__dict__], each of
    the names [session_path], [task_id], [operation] and [user_id] is an
    attribute of the error exactly when the context's [to_dict()] has that
    key, and then holds the value [to_dict()] gives it (the metadata entry
    of that name, if there is one, else the named field); reading the name
    of an absent field raises [AttributeError]. *)
Theorem context_fields_as_attributes :
  forall cls now message context cause cd i name,
    new_error cls now message context cause cd = Return i ->
    avoids context ["__dict__"] = true ->
    In name named_fields ->
    getattr_field i name =
    match dict_get name (context_items context) with
    | Some v => Return v
    | None => Raise AttributeError
    end.
Proof.
  intros cls now message context cause cd i name H Ha Hin.
  assert (Hn : is_descriptor name = false).
  { simpl in Hin. destruct Hin as [<-|[<-|[<-|[<-|[]]]]]; reflexivity. }
  destruct (constructed_dict_lookup _ _ _ _ _ _ _ name H Ha Hn)
    as (cx & _ & Hg).
  unfold getattr_field. rewrite Hg.
  destruct (dict_get name (context_items context)); [reflexivity|].
  simpl in Hin. destruct Hin as [<-|[<-|[<-|[<-|[]]]]]; reflexivity.
Qed.

Lemma context_fields_as_attributes_witness :
  new_error SessionError epoch "x"
    (OCtx (mkErrorContext (VStr "/a") VNone VNone VNone [])) None VNone
    = Return session_with_path
  /\ avoids (OCtx (mkErrorContext (VStr "/a") VNone VNone VNone []))
       ["__dict__"] = true
  /\ In "session_path" named_fields
  /\ getattr_field session_with_path "session_path" =
     match dict_get "session_path"
             (context_items
                (OCtx (mkErrorContext (VStr "/a") VNone VNone VNone [])))
     with
     | Some v => Return v
     | None => Raise AttributeError
     end.
Proof.
  split; [reflexivity|]. split; [reflexivity|].
  split; [left; reflexivity|].
  apply (context_fields_as_attributes SessionError epoch "x"
           (OCtx (mkErrorContext (VStr "/a") VNone VNone VNone []))
           None VNone session_with_path "session_path");
    [reflexivity | reflexivity | left; reflexivity].
Defined.

(** On a [SessionError] or [ValidationError] built from a context without
    the keys [__dict__] and [__class__], a context key [_code] replaces the
    code: whatever [code] the constructor was given, the [code] accessor
    returns the context's value. *)
Theorem context_code_key_replaces_code :
  forall cls now message context cause cd i v,
    selectable cls = true ->
    new_error cls now message context cause cd = Return i ->
    avoids context ["__dict__"; "__class__"] = true ->
    dict_get "_code" (context_items context) = Some v ->
    code i = Return v.
Proof.
  intros cls now message context cause cd i v Hs H Ha Hv.
  assert (Hd : avoids context ["__dict__"] = true) by avoid_fewer Ha.
  assert (Hk : avoids context ["__class__"] = true) by avoid_fewer Ha.
  destruct (constructed_dict_lookup _ _ _ _ _ _ _ "_code" H Hd eq_refl)
    as (cx & _ & Hg).
  rewrite Hv in Hg.
  pose proof (constructed_class _ _ _ _ _ _ _ H Hk) as Hc.
  unfold code, get_code_attr. rewrite Hc, Hg.
  destruct cls; try discriminate; reflexivity.
Qed.

Lemma context_code_key_replaces_code_witness :
  selectable SessionError = true
  /\ new_error SessionError epoch "x"
       (OCtx (metadata_only [("_code", VStr "SESSION_NOT_FOUND")])) None VNone
     = Return session_code_in_metadata
  /\ avoids (OCtx (metadata_only [("_code", VStr "SESSION_NOT_FOUND")]))
       ["__dict__"; "__class__"] = true
  /\ dict_get "_code"
       (context_items
          (OCtx (metadata_only [("_code", VStr "SESSION_NOT_FOUND")])))
     = Some (VStr "SESSION_NOT_FOUND")
  /\ code session_code_in_metadata = Return (VStr "SESSION_NOT_FOUND").
Proof.
  split; [reflexivity|]. split; [reflexivity|]. split; [reflexivity|].
  split; [reflexivity|].
  apply (context_code_key_replaces_code SessionError epoch "x"
           (OCtx (metadata_only [("_code", VStr "SESSION_NOT_FOUND")]))
           None VNone); reflexivity.
Defined.

(** ** Default codes *)

(** A [SessionError] built without a code, from a context without the keys
    [__dict__], [__class__], [_code], [is_load_error] and [is_save_error],
    has the code [SESSION_LOAD_FAILED]: [is_load_error()] answers [True],
    [is_save_error()] answers [False], and the error is fatal.  A
    [ValidationError] built without a code from such a context has the code
    [VALIDATION_INVALID_INPUT] and is not fatal. *)
Theorem default_codes :
  forall now message context cause i,
    avoids context
      ["__dict__"; "__class__"; "_code"; "is_load_error"; "is_save_error"]
      = true ->
    (new_SessionError now message context cause VNone = Return i ->
     code i = Return (VEnum SESSION_LOAD_FAILED)
     /\ is_load_error i = Return true
     /\ is_save_error i = Return false
     /\ is_fatal_error (OExc (PipeExc i)) false = Return true)
    /\ (new_ValidationError now message context cause VNone = Return i ->
        code i = Return (VEnum VALIDATION_INVALID_INPUT)
        /\ is_fatal_error (OExc (PipeExc i)) false = Return false).
Proof.
  intros now message context cause i Ha.
  assert (Hk : avoids context ["_code"] = true) by avoid_fewer Ha.
  split; intros H.
  - assert (Ha3 : avoids context
                    ["__dict__"; "__class__"; "is_load_error"; "is_save_error"]
                  = true) by avoid_fewer Ha.
    destruct (proj1 (is_fatal_error_code_rules _ _ _ _ _ _) H Ha3)
      as (c & Hc & Hl & Hs & Hf & Hd).
    rewrite (Hd Hk) in *. simpl in *. repeat split; assumption.
  - assert (Ha1 : avoids context ["__dict__"; "__class__"] = true)
      by avoid_fewer Ha.
    destruct (proj2 (is_fatal_error_code_rules _ _ _ _ _ _) H Ha1)
      as (c & Hc & Hf & Hd).
    rewrite (Hd Hk) in *. simpl in *. split; assumption.
Qed.

Lemma default_codes_witness :
  avoids (OVal VNone)
    ["__dict__"; "__class__"; "_code"; "is_load_error"; "is_save_error"]
    = true
  /\ new_SessionError epoch "x" (OVal VNone) None VNone = Return session_plain
  /\ code session_plain = Return (VEnum SESSION_LOAD_FAILED)
  /\ is_load_error session_plain = Return true
  /\ is_save_error session_plain = Return false
  /\ is_fatal_error (OExc (PipeExc session_plain)) false = Return true.
Proof.
  split; [reflexivity|]. split; [reflexivity|].
  apply (proj1 (default_codes epoch "x" (OVal VNone) None session_plain
                  eq_refl)).
  reflexivity.
Defined.

(** ** The cause *)



(** ** The outcomes of a constructor *)

Lemma dict_has_cons_eq {V : Type} (name k : string) (v : V) d :
  dict_has name ((k, v) :: d) = String.eqb name k || dict_has name d.
Proof. unfold dict_has. simpl. destruct (String.eqb name k); reflexivity. Qed.

Lemma setattr_all_readonly items : forall self,
  forallb (fun n => negb (dict_has n items)) checked_slots = true ->
  if dict_has "code" items || dict_has "__weakref__" items
  then setattr_all self items = Raise AttributeError
  else exists self', setattr_all self items = Return self'.
Proof.
  induction items as [|[k v] items IH]; intros self H.
  - exists self. reflexivity.
  - assert (Hi : forallb (fun n => negb (dict_has n items)) checked_slots
                 = true).
    { rewrite forallb_forall in *. intros n Hn. specialize (H _ Hn).
      apply negb_true_iff in H. apply dict_has_cons in H as [_ ->].
      reflexivity. }
    assert (Hk : existsb (String.eqb k) checked_slots = false).
    { apply not_true_iff_false. intros Hk.
      apply existsb_exists in Hk as (n & Hn & E).
      apply String.eqb_eq in E. subst n.
      rewrite forallb_forall in H. specialize (H _ Hn).
      unfold dict_has in H. simpl in H. rewrite String.eqb_refl in H.
      discriminate. }
    rewrite !dict_has_cons_eq.
    rewrite (String.eqb_sym "code" k), (String.eqb_sym "__weakref__" k).
    destruct (String.eqb k "code") eqn:Ec.
    { simpl. unfold setattr. rewrite Ec. reflexivity. }
    destruct (String.eqb k "__weakref__") eqn:Ew.
    { rewrite orb_true_r. simpl. unfold setattr. rewrite Ec, Ew. reflexivity. }
    assert (Hp : is_descriptor k = false).
    { unfold is_descriptor, descriptor_names. simpl existsb.
      rewrite Ec, Ew. exact Hk. }
    simpl setattr_all. rewrite (setattr_plain _ _ _ Hp). simpl.
    apply (IH (store self k (AVal v)) Hi).
Qed.

Ltac outcome_cases :=
  split; [|split]; split; intros H;
  try discriminate;
  try match goal with
      | H : _ /\ _ |- _ => destruct H; discriminate
      | H : exists _, _ |- _ => destruct H; discriminate
      end;
  try reflexivity;
  try (split; reflexivity);
  try (eexists; reflexivity).

(** For a context that binds [metadata] to a dictionary and has none of the
    keys in [checked_slots], a constructor has one of three outcomes: it
    raises [TypeError] exactly when the context is rejected, it raises
    [AttributeError] exactly when the context is accepted and has the key
    [code] or [__weakref__], and it returns an error exactly when the
    context is accepted and has neither. *)
Theorem constructor_outcomes :
  forall cls now message context cause cd,
    context_typed context = true ->
    avoids context checked_slots = true ->
    (new_error cls now message context cause cd = Raise TypeError
     <-> context_accepted context = false)
    /\ (new_error cls now message context cause cd = Raise AttributeError
        <-> context_accepted context = true
            /\ has_readonly_key context = true)
    /\ ((exists i, new_error cls now message context cause cd = Return i)
        <-> context_accepted context = true
            /\ has_readonly_key context = false).
Proof.
  intros cls now message context cause cd Ht Ha.
  destruct (context_accepted context) eqn:Hacc.
  - pose proof (normalize_accepts _ Hacc) as Hr.
    unfold context_typed in Ht. unfold has_readonly_key.
    unfold avoids, context_items in *.
    rewrite new_error_start. unfold PipelineError_init.
    destruct (normalize_context context) as [cx|e|];
      [|exfalso; eapply Hr; reflexivity | discriminate].
    simpl bind.
    match goal with
    | |- context [setattr_all ?s ?l] =>
        pose proof (setattr_all_readonly l s Ha) as Hs
    end.
    destruct (dict_has "code" (ErrorContext_to_dict cx)
              || dict_has "__weakref__" (ErrorContext_to_dict cx)).
    + rewrite Hs. simpl. outcome_cases.
    + destruct Hs as [s' Hs]. rewrite Hs. simpl. outcome_cases.
  - rewrite (rejected_context_raises _ _ _ _ _ _ Ht Hacc). outcome_cases.
Qed.

Lemma constructor_outcomes_witness :
  context_typed (OCtx (metadata_only [("code", VStr "X")])) = true
  /\ avoids (OCtx (metadata_only [("code", VStr "X")])) checked_slots = true
  /\ new_error TaskError epoch "x"
       (OCtx (metadata_only [("code", VStr "X")])) None VNone
     = Raise AttributeError.
Proof.
  split; [reflexivity|]. split; [reflexivity|].
  apply (proj1 (proj2 (constructor_outcomes TaskError epoch "x"
                         (OCtx (metadata_only [("code", VStr "X")]))
                         None VNone eq_refl eq_refl))).
  split; reflexivity.
Defined.

(** ** The verdict of the classifier on constructed errors *)

(** On an error built by a constructor from a context without the keys
    [__dict__], [__class__], [is_load_error] and [is_save_error], the
    verdict of the classifier (with [continue_on_error] false) follows
    from the class and the code.  A [SessionError] has a code, and when
    that is a value of the modelled kinds the error is fatal exactly when
    the code equals [SESSION_LOAD_FAILED] or [SESSION_SAVE_FAILED]; a
    [ValidationError] likewise, exactly when the code equals
    [VALIDATION_NESTED_EXECUTION]; a [TaskError] and a direct instance of
    [PipelineError] are never fatal, an error of a marker class always. *)
Theorem is_fatal_error_verdict :
  forall cls now message context cause cd i,
    new_error cls now message context cause cd = Return i ->
    avoids context ["__dict__"; "__class__"; "is_load_error"; "is_save_error"]
      = true ->
    match cls with
    | SessionError =>
        exists c,
          code i = Return c
          /\ (is_other c = false ->
              is_fatal_error (OExc (PipeExc i)) false =
              Return (py_eq c (VEnum SESSION_LOAD_FAILED)
                      || py_eq c (VEnum SESSION_SAVE_FAILED)))
    | ValidationError =>
        exists c,
          code i = Return c
          /\ (is_other c = false ->
              is_fatal_error (OExc (PipeExc i)) false =
              Return (py_eq c (VEnum VALIDATION_NESTED_EXECUTION)))
    | TaskError | PipelineError =>
        is_fatal_error (OExc (PipeExc i)) false = Return false
    | BugfixSessionValidationError | NestedExecutionError =>
        is_fatal_error (OExc (PipeExc i)) false = Return true
    end.
Proof.
  intros cls now message context cause cd i H Ha.
  assert (Hk : avoids context ["__class__"] = true) by avoid_fewer Ha.
  destruct cls; simpl in H.
  - apply init_class in H; [|exact Hk].
    destruct i as [k a d cs]; simpl in H; subst k. reflexivity.
  - destruct (proj1 (is_fatal_error_code_rules _ _ _ _ _ _) H Ha)
      as (c & Hc & _ & _ & Hf & _).
    exists c. split; [exact Hc|]. intros Ho.
    rewrite Hf, !member_eq_modelled by exact Ho. simpl.
    destruct (py_eq c (VEnum SESSION_LOAD_FAILED)); reflexivity.
  - apply init_class in H; [|exact Hk].
    destruct i as [k a d cs]; simpl in H; subst k. reflexivity.
  - assert (Hd : avoids context ["__dict__"; "__class__"] = true)
      by avoid_fewer Ha.
    destruct (proj2 (is_fatal_error_code_rules _ _ _ _ _ _) H Hd)
      as (c & Hc & Hf & _).
    exists c. split; [exact Hc|]. intros Ho.
    rewrite Hf. apply member_eq_modelled, Ho.
  - apply init_class in H; [|exact Hk].
    destruct i as [k a d cs]; simpl in H; subst k. reflexivity.
  - apply init_class in H; [|exact Hk].
    destruct i as [k a d cs]; simpl in H; subst k. reflexivity.
Qed.

Lemma is_fatal_error_verdict_witness :
  new_error SessionError epoch "x" (OVal VNone) None
    (VStr "SESSION_NOT_FOUND") = Return session_not_found
  /\ avoids (OVal VNone)
       ["__dict__"; "__class__"; "is_load_error"; "is_save_error"] = true
  /\ is_fatal_error (OExc (PipeExc session_not_found)) false = Return false.
Proof.
  split; [reflexivity|]. split; [reflexivity|].
  destruct (is_fatal_error_verdict SessionError epoch "x" (OVal VNone) None
              (VStr "SESSION_NOT_FOUND") session_not_found eq_refl eq_refl)
    as (c & Hc & Hf).
  injection Hc as <-. apply Hf. reflexivity.
Defined.

(** ** The registry *)

(** No two members of [ErrorCode] share a value: [==] holds between two
    members only when they are the same member, a member equals a plain
    string exactly when the string is the member's name, from either side,
    and the registry lists every member. *)
Theorem ErrorCode_values_distinct :
  (forall c c' : ErrorCode, py_eq (VEnum c) (VEnum c') = true <-> c = c')
  /\ (forall (c : ErrorCode) (s : string),
        py_eq (VEnum c) (VStr s) = true <-> s = ErrorCode_value c)
  /\ (forall (c : ErrorCode) (s : string),
        py_eq (VStr s) (VEnum c) = py_eq (VEnum c) (VStr s))
  /\ NoDup (map ErrorCode_value all_error_codes)
  /\ (forall c : ErrorCode, In c all_error_codes).
Proof.
  split; [|split; [|split; [|split]]].
  - intros c c'. split.
    + intros H. destruct c, c'; try reflexivity; vm_compute in H;
        discriminate H.
    + intros ->. destruct c'; reflexivity.
  - intros c s. simpl. rewrite String.eqb_eq. split; intros H; symmetry;
      exact H.
  - intros c s. simpl. apply String.eqb_sym.
  - simpl. repeat (constructor; [simpl; intuition discriminate|]).
    constructor.
  - intros c. destruct c; simpl; tauto.
Qed.

(** ** An empty context *)

Lemma is_None_true v : is_None v = true -> v = VNone.
Proof. destruct v; try discriminate; reflexivity. Qed.

Lemma is_None_false v : is_None v = false -> v <> VNone.
Proof. intros H ->. discriminate. Qed.

Lemma dict_set_nonempty {V : Type} k (v : V) d : dict_set k v d <> [].
Proof. destruct d as [|[k0 v0] d]; simpl; [|destruct (String.eqb k k0)]; discriminate. Qed.

Lemma dict_update_empty (d m : pydict) :
  dict_update d m = [] <-> d = [] /\ m = [].
Proof.
  unfold dict_update. revert d.
  induction m as [|[k v] m IH]; intros d; simpl.
  - split; [intros ->; split; reflexivity | intros [-> _]; reflexivity].
  - rewrite IH. split.
    + intros [H _]. destruct (dict_set_nonempty _ _ _ H).
    + intros [_ H]. discriminate.
Qed.

(** [ErrorContext.to_dict()] is empty, so that an error shows no context in
    its string form and in its [to_dict()], exactly when the four named
    fields are [None] and the metadata is empty; a field holding an empty
    string or [False] counts as present. *)
Theorem ErrorContext_to_dict_empty :
  forall c : ErrorContext,
    nonempty (ErrorContext_to_dict c) = false <->
    session_path c = VNone /\ task_id c = VNone /\ operation c = VNone
    /\ user_id c = VNone /\ metadata c = [].
Proof.
  intros c.
  assert (Hn : forall d : pydict, nonempty d = false <-> d = []).
  { intros [|x d]; simpl; split; intros H; try reflexivity; discriminate. }
  rewrite Hn, ErrorContext_to_dict_eq, dict_update_empty.
  destruct c as [sp tid op uid md]. unfold present_fields. simpl.
  unfold ErrorContext_getattr; simpl.
  destruct (is_None sp) eqn:E1, (is_None tid) eqn:E2,
           (is_None op) eqn:E3, (is_None uid) eqn:E4; simpl;
    repeat match goal with
      | H : is_None ?v = true |- _ => apply is_None_true in H; subst v
      | H : is_None ?v = false |- _ => apply is_None_false in H
      end;
    (split;
     [ intros [H1 H2]; try discriminate H1; subst; repeat split
     | intros (H1 & H2 & H3 & H4 & H5); try contradiction; subst;
       split; reflexivity ]).
Qed.

(** ** A context given as a dictionary *)

Lemma ErrorContext_to_dict_lookup c k :
  dict_get k (ErrorContext_to_dict c) =
  match dict_get k (rev (metadata c)) with
  | Some v => Some v
  | None =>
      if existsb (String.eqb k) named_fields
         && negb (is_None (ErrorContext_getattr c k))
      then Some (ErrorContext_getattr c k)
      else None
  end.
Proof.
  rewrite ErrorContext_to_dict_eq, dict_get_update.
  destruct (dict_get k (rev (metadata c))); [reflexivity|].
  destruct c as [sp tid op uid md]. unfold present_fields. simpl.
  unfold ErrorContext_getattr; simpl.
  destruct (is_None sp) eqn:Hsp, (is_None tid) eqn:Htid,
           (is_None op) eqn:Hop, (is_None uid) eqn:Huid; simpl;
    repeat match goal with
      | |- context [String.eqb k ?s] =>
          let E := fresh "E" in
          destruct (String.eqb k s) eqn:E;
          [ apply String.eqb_eq in E; subst k; simpl;
            rewrite ?Hsp, ?Htid, ?Hop, ?Huid; reflexivity
          | simpl ]
      end; reflexivity.
Qed.

Ltac bound_field IH Hu Hn v0 d' :=
  let c := fresh "c" in
  let Hb := fresh "Hb" in
  let Hm := fresh "Hm" in
  let Hg := fresh "Hg" in
  let Ek := fresh "Ek" in
  match goal with
  | E : String.eqb ?k0 ?name = true |- _ =>
      apply String.eqb_eq in E; subst k0; simpl bind_fields;
      match goal with
      | |- exists _, bind_fields _ ?c1 = _ /\ _ =>
          destruct (IH c1 Hu Hn) as (c & Hb & Hm & Hg)
      end;
      exists c; split; [exact Hb|]; split; [rewrite Hm; reflexivity|];
      intros k; rewrite Hg; simpl dict_get;
      destruct (String.eqb k name) eqn:Ek;
      [ apply String.eqb_eq in Ek; subst k;
        match goal with
        | Hk : dict_has _ d' = false |- _ =>
            unfold dict_has in Hk;
            destruct (dict_get name d'); [discriminate Hk | reflexivity]
        end
      | destruct (dict_get k d'); [reflexivity|];
        unfold ErrorContext_getattr; simpl; rewrite Ek; reflexivity ]
  end.

Lemma bind_fields_named d : forall c0,
  unique_keys d = true ->
  forallb (fun kv => existsb (String.eqb (fst kv)) named_fields) d = true ->
  exists c,
    bind_fields d c0 = Return c
    /\ metadata c = metadata c0
    /\ forall k,
         ErrorContext_getattr c k =
         match dict_get k d with
         | Some v => v
         | None => ErrorContext_getattr c0 k
         end.
Proof.
  induction d as [|[k0 v0] d' IH]; intros c0 Hu Hn.
  - exists c0. repeat split.
  - simpl in Hu, Hn.
    apply andb_prop in Hu as [Hk Hu]. apply negb_true_iff in Hk.
    apply andb_prop in Hn as [H0 Hn].
    destruct (String.eqb k0 "session_path") eqn:E1;
      [bound_field IH Hu Hn v0 d'|].
    destruct (String.eqb k0 "task_id") eqn:E2;
      [clear E1; bound_field IH Hu Hn v0 d'|].
    destruct (String.eqb k0 "operation") eqn:E3;
      [clear E1 E2; bound_field IH Hu Hn v0 d'|].
    destruct (String.eqb k0 "user_id") eqn:E4;
      [clear E1 E2 E3; bound_field IH Hu Hn v0 d'|].
    discriminate H0.
Qed.

(** A context given as a dictionary whose keys are among [session_path],
    [task_id], [operation] and [user_id] is accepted, and the [to_dict()] of
    the resulting [ErrorContext] holds the entries of the dictionary that
    are not [None], and no others. *)
Theorem kwargs_to_dict :
  forall d : pydict,
    unique_keys d = true ->
    forallb (fun kv => existsb (String.eqb (fst kv)) named_fields) d = true ->
    exists c,
      ErrorContext_of_kwargs d = Return c
      /\ forall k,
           dict_get k (ErrorContext_to_dict c) =
           match dict_get k d with
           | Some v => if is_None v then None else Some v
           | None => None
           end.
Proof.
  intros d Hu Hn.
  destruct (bind_fields_named d ErrorContext_default Hu Hn)
    as (c & Hb & Hm & Hg).
  exists c. split.
  - unfold ErrorContext_of_kwargs.
    replace (forallb (fun kv => is_field (fst kv)) d) with true; [exact Hb|].
    symmetry. apply forallb_forall. intros kv Hkv.
    rewrite forallb_forall in Hn. unfold is_field. rewrite (Hn kv Hkv).
    reflexivity.
  - intros k. rewrite ErrorContext_to_dict_lookup, Hm, Hg. simpl rev.
    simpl dict_get at 1.
    destruct (dict_get k d) as [v|] eqn:Ek.
    + apply dict_get_In in Ek. rewrite forallb_forall in Hn.
      specialize (Hn _ Ek). simpl fst in Hn. rewrite Hn.
      destruct (is_None v); reflexivity.
    + replace (ErrorContext_getattr ErrorContext_default k) with VNone.
      * rewrite andb_false_r. reflexivity.
      * unfold ErrorContext_getattr, ErrorContext_default. simpl.
        destruct (String.eqb k "session_path"), (String.eqb k "task_id"),
                 (String.eqb k "operation"), (String.eqb k "user_id");
          reflexivity.
Qed.

Lemma kwargs_to_dict_witness :
  unique_keys [("task_id", VStr "T1"); ("user_id", VNone)] = true
  /\ forallb (fun kv => existsb (String.eqb (fst kv)) named_fields)
       [("task_id", VStr "T1"); ("user_id", VNone)] = true
  /\ exists c,
       ErrorContext_of_kwargs [("task_id", VStr "T1"); ("user_id", VNone)]
       = Return c
       /\ forall k,
            dict_get k (ErrorContext_to_dict c) =
            match dict_get k [("task_id", VStr "T1"); ("user_id", VNone)] with
            | Some v => if is_None v then None else Some v
            | None => None
            end.
Proof.
  split; [reflexivity|]. split; [reflexivity|].
  apply (kwargs_to_dict [("task_id", VStr "T1"); ("user_id", VNone)]);
    reflexivity.
Defined.

(** ** What a constructor keeps of its arguments *)

(** An error built by a constructor has the constructor's class when no
    context key is [__class__], the cause it was given when no context key
    is [__cause__], and the message in its [args] when no context key is
    [args].  When no context key is [__class__], the [code] accessor of a
    direct instance of [PipelineError] raises [NotImplementedError], the
    code of a [TaskError], [BugfixSessionValidationError] or
    [NestedExecutionError] is the fixed code of its class, and the code of a
    [SessionError] or [ValidationError] built from a context without the
    keys [__dict__] and [_code] is the [code] argument, unchecked, or the
    default of the class when that argument is [None]. *)
Theorem constructor_keeps_arguments :
  forall cls now message context cause cd i,
    new_error cls now message context cause cd = Return i ->
    (avoids context ["__class__"] = true -> inst_class i = cls)
    /\ (avoids context ["__cause__"] = true -> inst_cause i = cause)
    /\ (avoids context ["args"] = true -> inst_args i = [VStr message])
    /\ (avoids context ["__class__"] = true ->
        match cls with
        | PipelineError => code i = Raise NotImplementedError
        | TaskError => code i = Return (VEnum TASK_EXECUTION_FAILED)
        | BugfixSessionValidationError =>
            code i = Return (VEnum SESSION_INVALID_BUGFIX_PATH)
        | NestedExecutionError =>
            code i = Return (VEnum VALIDATION_NESTED_EXECUTION)
        | SessionError | ValidationError =>
            avoids context ["__dict__"; "_code"] = true ->
            code i =
            Return (if is_None cd then VEnum (default_code cls) else cd)
        end).
Proof.
  intros cls now message context cause cd i H.
  split; [exact (constructed_class _ _ _ _ _ _ _ H)|].
  split; [exact (constructed_cause _ _ _ _ _ _ _ H)|].
  split; [exact (constructed_args _ _ _ _ _ _ _ H)|].
  intros Hk.
  pose proof (constructed_class _ _ _ _ _ _ _ H Hk) as Hc.
  assert (Hsel : selectable cls = true ->
                 avoids context ["__dict__"; "_code"] = true ->
                 get_code_attr i =
                 Return (if is_None cd then VEnum (default_code cls) else cd)).
  { intros Hs Ha.
    assert (Hd : avoids context ["__dict__"] = true) by avoid_fewer Ha.
    assert (Hn : avoids context ["_code"] = true) by avoid_fewer Ha.
    destruct (constructed_dict_lookup _ _ _ _ _ _ _ "_code" H Hd eq_refl)
      as (cx & _ & Hg).
    unfold avoids in Hn. simpl in Hn. rewrite andb_true_r in Hn.
    apply negb_true_iff in Hn. unfold dict_has in Hn.
    destruct (dict_get "_code" (context_items context)); [discriminate|].
    unfold own_attribute in Hg. simpl in Hg. rewrite Hs in Hg.
    unfold get_code_attr. rewrite Hg. reflexivity. }
  unfold code. rewrite Hc.
  destruct cls; try reflexivity; apply Hsel; reflexivity.
Qed.

Lemma constructor_keeps_arguments_witness :
  new_error SessionError epoch "x" (OVal VNone) None
    (VStr "SESSION_NOT_FOUND") = Return session_not_found
  /\ inst_class session_not_found = SessionError
  /\ inst_args session_not_found = [VStr "x"]
  /\ code session_not_found = Return (VStr "SESSION_NOT_FOUND").
Proof.
  split; [reflexivity|].
  destruct (constructor_keeps_arguments SessionError epoch "x" (OVal VNone)
              None (VStr "SESSION_NOT_FOUND") session_not_found eq_refl)
    as (Hc & _ & Ha & Hcode).
  split; [apply Hc; reflexivity|]. split; [apply Ha; reflexivity|].
  apply Hcode; reflexivity.
Defined.

(** ** Direct instances of [PipelineError] *)

(** [PipelineError(message, context, cause)] returns whenever the
    constructor of a subclass does, and on the instance it returns (built
    from a context without the keys [__dict__], [__class__], [to_dict] and
    [to_json]) the abstract [code] raises [NotImplementedError], and so do
    [str()], [to_dict()] and [to_json()], which read the code first; the
    instance passes [is_pipeline_error] and is not fatal. *)
Theorem base_instance_has_no_code :
  forall rt now message context cause i,
    new_PipelineError now message context cause = Return i ->
    avoids context ["__dict__"; "__class__"; "to_dict"; "to_json"] = true ->
    code i = Raise NotImplementedError
    /\ PipelineError_str rt i = Raise NotImplementedError
    /\ to_dict rt i = Raise NotImplementedError
    /\ to_json rt i = Raise NotImplementedError
    /\ is_pipeline_error (OExc (PipeExc i)) = true
    /\ is_fatal_error (OExc (PipeExc i)) false = Return false.
Proof.
  intros rt now message context cause i H Ha.
  assert (Hk : avoids context ["__class__"] = true) by avoid_fewer Ha.
  assert (Hd : dict_has "to_dict" (inst_dict i) = false).
  { apply (constructed_unshadowed _ _ _ _ _ _ _ H); try reflexivity.
    avoid_fewer Ha. }
  assert (Hj : dict_has "to_json" (inst_dict i) = false).
  { apply (constructed_unshadowed _ _ _ _ _ _ _ H); try reflexivity.
    avoid_fewer Ha. }
  pose proof (init_class _ _ _ _ _ _ H Hk) as Hc. simpl in Hc.
  assert (Hcode : code i = Raise NotImplementedError)
    by (unfold code; rewrite Hc; reflexivity).
  assert (Hto : to_dict rt i = Raise NotImplementedError).
  { unfold to_dict. rewrite (call_method_unshadowed _ _ _ Hd).
    unfold PipelineError_to_dict. rewrite Hcode. reflexivity. }
  split; [exact Hcode|]. split.
  { unfold PipelineError_str. rewrite Hcode. reflexivity. }
  split; [exact Hto|]. split.
  { unfold to_json. rewrite (call_method_unshadowed _ _ _ Hj).
    unfold PipelineError_to_json. rewrite Hto. reflexivity. }
  split; [reflexivity|].
  destruct i as [k a d cs]; simpl in Hc; subst k. reflexivity.
Qed.

Lemma base_instance_has_no_code_witness :
  (exists i,
     new_PipelineError epoch "x" (OVal VNone) None = Return i
     /\ code i = Raise NotImplementedError
     /\ to_dict sample_runtime i = Raise NotImplementedError)
  /\ avoids (OVal VNone) ["__dict__"; "__class__"; "to_dict"; "to_json"]
     = true.
Proof.
  split; [|reflexivity].
  eexists. split; [reflexivity|].
  destruct (base_instance_has_no_code sample_runtime epoch "x" (OVal VNone)
              None _ eq_refl eq_refl) as (Hc & _ & Hd & _).
  split; [exact Hc | exact Hd].
Defined.

(** ** What a value under a checked slot does *)

(** [TaskError("x", ErrorContext(metadata={"__class__": SessionError,
    "_code": "BOGUS"}))] returns a [SessionError] whose code is no member
    of the registry. *)
Example class_in_metadata :
  exists i,
    new_TaskError epoch "x"
      (OCtx (metadata_only [("__class__", VClass SessionError);
                            ("_code", VStr "BOGUS")])) None = Return i
    /\ inst_class i = SessionError
    /\ code i = Return (VStr "BOGUS")
    /\ in_registry (VStr "BOGUS") = false.
Proof. eexists. repeat split. Qed.

(** [SessionError("x", ErrorContext(metadata={"__class__": TaskError}))]
    returns a [TaskError], which is not fatal. *)
Example class_in_metadata_changes_verdict :
  exists i,
    new_SessionError epoch "x"
      (OCtx (metadata_only [("__class__", VClass TaskError)])) None VNone
    = Return i
    /\ code i = Return (VEnum TASK_EXECUTION_FAILED)
    /\ is_fatal_error (OExc (PipeExc i)) false = Return false.
Proof. eexists. repeat split. Qed.

(** [TaskError("x", ErrorContext(metadata={"__cause__":
    ValueError("boom")}))] has a cause nobody passed, and [to_dict()]
    reports it. *)
Example cause_in_metadata :
  exists i d,
    new_TaskError epoch "x"
      (OCtx (metadata_only [("__cause__", VExc "ValueError" "boom")])) None
    = Return i
    /\ inst_cause i = Some (StdExc "ValueError" "boom")
    /\ to_dict sample_runtime i = Return d
    /\ dict_get "cause" d =
       Some (VDict [("name", VStr "ValueError"); ("message", VStr "boom")]).
Proof. do 2 eexists. repeat split. Qed.

(** An integer beyond the digit limit in the metadata makes [to_dict()]
    raise [ValueError]: [str(self)] renders the context. *)
Example unrenderable_metadata :
  forall (z : Z) (i : Instance),
    int_in_limit z = false ->
    new_TaskError epoch "x" (OCtx (metadata_only [("n", VInt z)])) None
    = Return i ->
    to_dict sample_runtime i = Raise ValueError.
Proof.
  intros z i Hz H. injection H as <-.
  unfold to_dict, call_method. simpl.
  unfold PipelineError_to_dict, PipelineError_str. simpl.
  unfold format_value. simpl. rewrite Hz. reflexivity.
Qed.
